(** * Data Alchemist: the validation engine, the cell editor and the rule registry

    A shallow embedding of
    - [validateAllData], [handleUpdateCell] and [applyAIFix]
      (src/components/tabs/data-tab.tsx),
    - [handleNaturalLanguageConvert], [addRule], [updateRuleParams] and
      [deleteRule] (the rules tab, src/unnamed/part_002 and part_003),
    - the entity interfaces of src/unnamed/part_001,
    together with the fragments of the JavaScript semantics these functions
    rely on.

    Both files of the data tab and of the rules tab hold two successive
    revisions of the same component.  The four validation passes are the same
    text in both revisions of the data tab; where the revisions differ (the
    advisory suggestions, the cell editor, the translated rule) each revision
    is embedded under its own name.

    Conventions of the embedding
    - a JavaScript string is a [string]: a sequence of code units below 256;
    - a stored number is what [parseInt] yields, an integer or [NaN]; the
      numeric value of a text, as [Number] and the relational operators
      compute it, is an exact decimal (no binary rounding);
    - an entity is a document: a finite map from property names to values,
      a missing property reading as [undefined]. *)

From Stdlib Require Import ZArith String Ascii List Bool Lia DecimalString.
From stdpp Require Import gmap strings list.
Import ListNotations.

Local Open Scope string_scope.
Local Open Scope Z_scope.
Local Open Scope list_scope.

(** ** JavaScript: texts *)

Module JS.

Definition isDigit (c : ascii) : bool :=
  let n := nat_of_ascii c in (48 <=? n)%nat && (n <=? 57)%nat.

(** White space and line terminators among the code units below 256
    (TAB, LF, VT, FF, CR, SP, NBSP): what [trim], [parseInt] and [Number]
    skip. *)
Definition isWhiteSpace (c : ascii) : bool :=
  let n := nat_of_ascii c in
  ((9 <=? n)%nat && (n <=? 13)%nat) || (n =? 32)%nat || (n =? 160)%nat.

Fixpoint trimStart (s : string) : string :=
  match s with
  | String c r => if isWhiteSpace c then trimStart r else s
  | EmptyString => EmptyString
  end.

(** [trimEnd]: a white-space character is dropped when nothing but white
    space follows it. *)
Fixpoint trimEnd (s : string) : string :=
  match s with
  | String c r =>
      match trimEnd r with
      | EmptyString => if isWhiteSpace c then EmptyString else String c EmptyString
      | r' => String c r'
      end
  | EmptyString => EmptyString
  end.

(** [s.trim()] *)
Definition trim (s : string) : string := trimEnd (trimStart s).

(** [s.split(sep)] for a one-character separator: never the empty list. *)
Fixpoint split (sep : ascii) (s : string) : list string :=
  match s with
  | EmptyString => [EmptyString]
  | String c r =>
      if Ascii.eqb c sep then EmptyString :: split sep r
      else match split sep r with
           | w :: ws => String c w :: ws
           | [] => [String c EmptyString]
           end
  end.

(** [l.join(sep)] on an array of texts *)
Fixpoint join (sep : string) (l : list string) : string :=
  match l with
  | [] => EmptyString
  | [x] => x
  | x :: r => x +:+ sep +:+ join sep r
  end.

(** Truthiness of a text: [Boolean(s)], [!s]. *)
Definition nonEmpty (s : string) : bool :=
  match s with EmptyString => false | _ => true end.

(** [s.replace(/\D/g, '')] *)
Fixpoint stripNonDigits (s : string) : string :=
  match s with
  | EmptyString => EmptyString
  | String c r => if isDigit c then String c (stripNonDigits r) else stripNonDigits r
  end.

(** The longest prefix of decimal digits, and what follows it. *)
Fixpoint spanDigits (s : string) : string * string :=
  match s with
  | String c r =>
      if isDigit c then let '(d, t) := spanDigits r in (String c d, t)
      else (EmptyString, s)
  | EmptyString => (EmptyString, EmptyString)
  end.

(** [/^\d+-\d+$/.test(p)] *)
Definition isRange (p : string) : bool :=
  match spanDigits p with
  | (String _ _, String "-" r) =>
      match spanDigits r with
      | (String _ _, EmptyString) => true
      | _ => false
      end
  | _ => false
  end.

(** [s.startsWith(prefix)] *)
Fixpoint startsWith (prefix s : string) : bool :=
  match prefix, s with
  | EmptyString, _ => true
  | String a p, String b r => Ascii.eqb a b && startsWith p r
  | String _ _, EmptyString => false
  end.

Definition digitVal (c : ascii) : N := N.of_nat (nat_of_ascii c - 48).

(** The value of a text of decimal digits, most significant first. *)
Fixpoint digitsValue (acc : N) (s : string) : N :=
  match s with
  | EmptyString => acc
  | String c r => digitsValue (10 * acc + digitVal c)%N r
  end.

(** ** JavaScript: numbers *)

(** A stored number: the range of [parseInt].  The integer is kept exactly;
    the engine keeps the nearest double, which is the same number up to
    2^53 (fifteen digits and more). *)
Inductive number := NaN | Int (z : Z).

Definition number_eqb (a b : number) : bool :=
  match a, b with
  | NaN, NaN => true
  | Int x, Int y => Z.eqb x y
  | _, _ => false
  end.

(** [String(n)] *)
Definition numberToString (n : number) : string :=
  match n with
  | NaN => "NaN"
  | Int z => NilZero.string_of_int (Z.to_int z)
  end.

(** Truthiness of a number: [0] and [NaN] are falsy. *)
Definition numberTruthy (n : number) : bool :=
  match n with
  | NaN => false
  | Int z => negb (Z.eqb z 0)
  end.

(** [parseInt(s, 10)]: leading white space is skipped, a sign is read, then
    the longest prefix of decimal digits; what follows is ignored; no digit
    at all gives [NaN]. *)
Definition parseInt (s : string) : number :=
  let t := trimStart s in
  let '(neg, u) :=
    match t with
    | String "-" r => (true, r)
    | String "+" r => (false, r)
    | _ => (false, t)
    end in
  match spanDigits u with
  | (EmptyString, _) => NaN
  | (d, _) => let v := Z.of_N (digitsValue 0 d) in Int (if neg then - v else v)
  end.

(** The numeric value of a text: [NaN], an infinity, or the exact decimal
    [(-1)^neg * m * 10^e].  The engine rounds the decimal to the nearest
    double: a comparison with an integer constant is the same on both,
    except for a text whose value is not the constant and rounds to it (a
    text of more than sixteen significant digits, or one that underflows). *)
Inductive numval := NaNv | Infv (neg : bool) | Decv (neg : bool) (m : N) (e : Z).

Definition isHexDigit (c : ascii) : bool :=
  let n := nat_of_ascii c in
  isDigit c || ((65 <=? n)%nat && (n <=? 70)%nat) || ((97 <=? n)%nat && (n <=? 102)%nat).

Definition hexVal (c : ascii) : N :=
  let n := nat_of_ascii c in
  if isDigit c then N.of_nat (n - 48)
  else if (n <=? 70)%nat then N.of_nat (n - 55) else N.of_nat (n - 87).

(** The digits of a literal in base 2, 8 or 16: at least one, nothing else. *)
Fixpoint radixValue (base : N) (acc : N) (s : string) : option N :=
  match s with
  | EmptyString => Some acc
  | String c r =>
      if isHexDigit c && (hexVal c <? base)%N
      then radixValue base (base * acc + hexVal c)%N r
      else None
  end.

Definition radixLiteral (base : N) (s : string) : numval :=
  match s with
  | EmptyString => NaNv
  | _ => match radixValue base 0 s with
         | Some v => Decv false v 0
         | None => NaNv
         end
  end.

(** The exponent part, [e] or [E] then a signed integer, up to the end of
    the text; an absent exponent is [0]. *)
Definition exponentPart (s : string) : option Z :=
  match s with
  | EmptyString => Some 0
  | String c r =>
      if Ascii.eqb c "e" || Ascii.eqb c "E" then
        let '(neg, u) :=
          match r with
          | String "-" r' => (true, r')
          | String "+" r' => (false, r')
          | _ => (false, r)
          end in
        match spanDigits u with
        | (String a d, EmptyString) =>
            let v := Z.of_N (digitsValue 0 (String a d)) in
            Some (if neg then - v else v)
        | _ => None
        end
      else None
  end.

(** An unsigned decimal literal: [Infinity], or digits with an optional
    fraction and exponent, at least one digit before or after the point. *)
Definition unsignedDecimal (neg : bool) (s : string) : numval :=
  if String.eqb s "Infinity" then Infv neg
  else
    let '(ip, r) := spanDigits s in
    let '(fp, r') :=
      match r with
      | String "." t => spanDigits t
      | _ => (EmptyString, r)
      end in
    if nonEmpty ip || nonEmpty fp then
      match exponentPart r' with
      | Some e => Decv neg (digitsValue 0 (ip +:+ fp)) (e - Z.of_nat (String.length fp))
      | None => NaNv
      end
    else NaNv.

(** [Number(s)] on a text: white space is trimmed on both sides, the empty
    text is [0], then a signed decimal literal or an unsigned literal in base
    16, 8 or 2; anything else is [NaN]. *)
Definition stringToNumber (s : string) : numval :=
  match trim s with
  | EmptyString => Decv false 0 0
  | String "-" r => unsignedDecimal true r
  | String "+" r => unsignedDecimal false r
  | String "0" (String c r) =>
      if Ascii.eqb c "x" || Ascii.eqb c "X" then radixLiteral 16 r
      else if Ascii.eqb c "o" || Ascii.eqb c "O" then radixLiteral 8 r
      else if Ascii.eqb c "b" || Ascii.eqb c "B" then radixLiteral 2 r
      else unsignedDecimal false (trim s)
  | t => unsignedDecimal false t
  end.

Definition numberValue (n : number) : numval :=
  match n with
  | NaN => NaNv
  | Int z => Decv (z <? 0) (Z.abs_N z) 0
  end.

(** [isNaN(x)] on a numeric value *)
Definition isNaN (x : numval) : bool :=
  match x with NaNv => true | _ => false end.

(** [x < k] and [x > k] for an integer constant [k]; a comparison with [NaN]
    is false. *)
Definition ltZ (x : numval) (k : Z) : bool :=
  match x with
  | NaNv => false
  | Infv neg => neg
  | Decv neg m e =>
      let v := if neg then - Z.of_N m else Z.of_N m in
      if 0 <=? e then v * 10 ^ e <? k else v <? k * 10 ^ (- e)
  end.

Definition gtZ (x : numval) (k : Z) : bool :=
  match x with
  | NaNv => false
  | Infv neg => negb neg
  | Decv neg m e =>
      let v := if neg then - Z.of_N m else Z.of_N m in
      if 0 <=? e then k <? v * 10 ^ e else k * 10 ^ (- e) <? v
  end.

End JS.

Import JS.

(** ** JavaScript: values, documents, sets *)

(** The values the uploader and the editors put in a document: a text, a
    number, or an array of those. *)
Inductive prim := PStr (s : string) | PNum (n : number).
Inductive value := Prim (p : prim) | Arr (l : list prim).

(** An entity as Firestore delivers it: [item[key]] is [item !! key], and
    [None] stands for [undefined]. *)
Abbreviation doc := (gmap string value).

Module Value.

Definition prim_eqb (a b : prim) : bool :=
  match a, b with
  | PStr s, PStr t => String.eqb s t
  | PNum m, PNum n => number_eqb m n
  | _, _ => false
  end.

(** SameValueZero, the equality of [Set]: texts by content, numbers by value
    ([NaN] equals itself).  An array is compared by identity, and every
    document carries its own array object: an array is never the same value
    as one held by another document. *)
Definition sameValueZero (a b : option value) : bool :=
  match a, b with
  | None, None => true
  | Some (Prim p), Some (Prim q) => prim_eqb p q
  | _, _ => false
  end.

Definition primTruthy (p : prim) : bool :=
  match p with
  | PStr s => nonEmpty s
  | PNum n => numberTruthy n
  end.

(** Truthiness: [undefined], the empty text, [0] and [NaN] are falsy; every
    array is truthy. *)
Definition truthy (v : option value) : bool :=
  match v with
  | None => false
  | Some (Prim p) => primTruthy p
  | Some (Arr _) => true
  end.

Definition primToString (p : prim) : string :=
  match p with
  | PStr s => s
  | PNum n => numberToString n
  end.

(** [String(v)], and [v] inside a template literal. *)
Definition toString (v : option value) : string :=
  match v with
  | None => "undefined"
  | Some (Prim p) => primToString p
  | Some (Arr l) => join "," (map primToString l)
  end.

(** [Number(p)] *)
Definition primToNumber (p : prim) : numval :=
  match p with
  | PStr s => stringToNumber s
  | PNum n => numberValue n
  end.

(** The number a relational operator compares. *)
Definition toNumber (v : option value) : numval :=
  match v with
  | None => NaNv
  | Some (Prim p) => primToNumber p
  | Some (Arr l) => stringToNumber (join "," (map primToString l))
  end.

(** [v < k], [v > k], [v === 1] *)
Definition lt (v : option value) (k : Z) : bool := ltZ (toNumber v) k.
Definition gt (v : option value) (k : Z) : bool := gtZ (toNumber v) k.
Definition strictEq (v : option value) (k : Z) : bool :=
  match v with
  | Some (Prim (PNum (Int z))) => Z.eqb z k
  | _ => false
  end.

(** [typeof p === 'string'] on an array element *)
Definition isString (p : prim) : bool :=
  match p with PStr _ => true | PNum _ => false end.

(** [v?.length]: an array and a text have a length, [undefined] and a number
    have none. *)
Definition length (v : option value) : option nat :=
  match v with
  | Some (Arr l) => Some (List.length l)
  | Some (Prim (PStr s)) => Some (String.length s)
  | _ => None
  end.

(** The elements of an array value. *)
Definition elements (v : option value) : list prim :=
  match v with
  | Some (Arr l) => l
  | _ => []
  end.

(** What [xs.flatMap(x => x.F || [])] contributes for one [x]: nothing when
    [x.F] is falsy, its elements when it is an array, and the value itself
    otherwise. *)
Definition orEmpty (v : option value) : list (option value) :=
  if truthy v then
    match v with
    | Some (Arr l) => map (fun p => Some (Prim p)) l
    | _ => [v]
    end
  else [].

End Value.

(** A [Set]: its elements in insertion order, without repetition. *)
Module JSSet.

Definition t := list (option value).

Definition has (s : t) (x : option value) : bool :=
  existsb (Value.sameValueZero x) s.

Definition add (s : t) (x : option value) : t :=
  if has s x then s else s ++ [x].

(** [new Set(xs)] *)
Definition new (xs : list (option value)) : t := fold_left add xs [].

End JSSet.

(** ** Effects: the accumulators of a validation run, and exceptions *)

Inductive exn :=
  | TypeError (msg : string)
  | SyntaxError (msg : string)
  | Error (msg : string).

Inductive outcome (A : Type) :=
  | Ok (a : A)
  | Throw (e : exn).
Arguments Ok {A} a.
Arguments Throw {A} e.

Module EntityType.
Inductive t := clients | workers | tasks.

Definition name (e : t) : string :=
  match e with
  | clients => "clients"
  | workers => "workers"
  | tasks => "tasks"
  end.
End EntityType.

(** src/unnamed/part_001: [interface ValidationError].  [id] holds whatever
    the domain-id property of the entity holds. *)
Record ValidationError := {
  rowId : option value;
  entityType : EntityType.t;
  id : option value;
  field : string;
  message : string;
  suggestion : option string
}.

(** [allErrors] and [allSuggestions], the two arrays a run fills. *)
Record acc := { allErrors : list ValidationError; allSuggestions : list string }.

(** A statement: it runs on the accumulators, returns or throws, and leaves
    the accumulators as they are at that point. *)
Definition M (A : Type) := acc -> outcome A * acc.

Definition ret {A} (a : A) : M A := fun s => (Ok a, s).

Definition bind {A B} (m : M A) (k : A -> M B) : M B :=
  fun s => match m s with
           | (Ok a, s') => k a s'
           | (Throw e, s') => (Throw e, s')
           end.

Declare Scope js_scope.
Delimit Scope js_scope with js.
Notation "x <- m ;; k" := (bind m (fun x => k))
  (at level 100, m at next level, right associativity) : js_scope.
Notation "m ;; k" := (bind m (fun _ => k))
  (at level 100, right associativity) : js_scope.

Definition throw {A} (e : exn) : M A := fun s => (Throw e, s).

(** [try { m } catch { h }] *)
Definition tryCatch (m : M unit) (h : M unit) : M unit :=
  fun s => match m s with
           | (Ok a, s') => (Ok a, s')
           | (Throw _, s') => h s'
           end.

(** [if (b) { m }] *)
Definition when (b : bool) (m : M unit) : M unit := if b then m else ret tt.

(** [allErrors.push(e)], [allSuggestions.push(t)] *)
Definition pushError (e : ValidationError) : M unit :=
  fun s => (Ok tt, {| allErrors := allErrors s ++ [e]; allSuggestions := allSuggestions s |}).

Definition pushSuggestion (t : string) : M unit :=
  fun s => (Ok tt, {| allErrors := allErrors s; allSuggestions := allSuggestions s ++ [t] |}).

(** A loop whose body updates a local variable of type [S]. *)
Fixpoint foldM {A S} (body : S -> A -> M S) (l : list A) (s : S) : M S :=
  match l with
  | [] => ret s
  | x :: r => (s' <- body s x ;; foldM body r s')%js
  end.

(** [l.forEach(body)] *)
Definition forEach {A} (l : list A) (body : A -> M unit) : M unit :=
  foldM (fun _ x => body x) l tt.

(** [v?.forEach(body)]: skipped on [undefined], a loop on an array, and a
    TypeError on a text or a number, which have no [forEach]. *)
Definition optForEach (v : option value) (body : prim -> M unit) : M unit :=
  match v with
  | None => ret tt
  | Some (Arr l) => forEach l body
  | Some (Prim _) => throw (TypeError "forEach is not a function")
  end.

(** [v?.some(p)] as a condition: [undefined] is falsy. *)
Definition optSome (v : option value) (p : prim -> bool) : M bool :=
  match v with
  | None => ret false
  | Some (Arr l) => ret (existsb p l)
  | Some (Prim _) => throw (TypeError "some is not a function")
  end.

(** ** The validation engine: [validateAllData] *)

(** [DataTabProps]: the three collections, in store order. *)
Record DataTabProps := {
  clients : list doc;
  workers : list doc;
  tasks : list doc
}.

(** The state of the component that a validation run sets. *)
Record DataTabState := {
  errors : list ValidationError;
  aiSuggestions : list string
}.

(** The object literals that the passes push, by line of data-tab.tsx. *)
Module Err.

(** lines 58-61 and 63-66 *)
Definition missingId (entityType : EntityType.t) (idKey : string) (item : doc) :=
  {| entityType := entityType; id := item !! "id"; field := idKey;
     message := "Required ID is missing.";
     suggestion := None; rowId := None |}.

Definition duplicateId (entityType : EntityType.t) (idKey : string) (id : option value) :=
  {| entityType := entityType; id := id; field := idKey;
     message := "Duplicate ID found: " +:+ Value.toString id +:+ ".";
     suggestion := None; rowId := None |}.

(** lines 79-82, 86-89, 93-96 *)
Definition priorityLevel (c : doc) :=
  {| entityType := EntityType.clients; id := c !! "ClientID";
     field := "PriorityLevel"; message := "Must be between 1-5.";
     suggestion := None; rowId := None |}.

Definition attributesJSON (c : doc) :=
  {| entityType := EntityType.clients; id := c !! "ClientID";
     field := "AttributesJSON"; message := "Invalid JSON format.";
     suggestion := None; rowId := None |}.

Definition unknownTask (c : doc) (tid : prim) :=
  {| entityType := EntityType.clients; id := c !! "ClientID";
     field := "RequestedTaskIDs";
     message := "Unknown TaskID: " +:+ Value.primToString tid +:+ ".";
     suggestion := None; rowId := None |}.

(** lines 107-110, 113-116, 119-126 *)
Definition maxLoadPerPhase (w : doc) :=
  {| entityType := EntityType.workers; id := w !! "WorkerID";
     field := "MaxLoadPerPhase"; message := "Cannot be negative.";
     suggestion := None; rowId := None |}.

Definition maxConcurrent (w : doc) :=
  {| entityType := EntityType.workers; id := w !! "WorkerID";
     field := "MaxConcurrent"; message := "Must be at least 1.";
     suggestion := None; rowId := None |}.

Definition availableSlots (w : doc) :=
  {| entityType := EntityType.workers; id := w !! "WorkerID";
     field := "AvailableSlots"; message := "Contains non-numeric values.";
     suggestion :=
       Some (join ", " (map (fun s => stripNonDigits (Value.primToString s))
                            (Value.elements (w !! "AvailableSlots"))));
     rowId := None |}.

(** lines 133-136, 140-143, 147-150 *)
Definition duration (t : doc) :=
  {| entityType := EntityType.tasks; id := t !! "TaskID";
     field := "Duration"; message := "Must be at least 1.";
     suggestion := None; rowId := None |}.

Definition requiredSkill (t : doc) (skill : prim) :=
  {| entityType := EntityType.tasks; id := t !! "TaskID";
     field := "RequiredSkills";
     message := "No worker has the required skill: " +:+ Value.primToString skill +:+ ".";
     suggestion := None; rowId := None |}.

Definition preferredPhases (t : doc) :=
  {| entityType := EntityType.tasks; id := t !! "TaskID";
     field := "PreferredPhases";
     message := "Invalid range format. Use " +:+ String (ascii_of_nat 34) "start-end"
                +:+ String (ascii_of_nat 34) ".";
     suggestion := None; rowId := None |}.

(** lines 157-160 *)
Definition skillCoverage (skill : option value) :=
  {| entityType := EntityType.tasks; id := Some (Prim (PStr "Global"));
     field := "Skill Coverage";
     message := "The skill '" +:+ Value.toString skill
                +:+ "' is required by a task but not provided by any worker.";
     suggestion := None; rowId := None |}.

(** line 100 *)
Definition manyTasks (c : doc) : string :=
  "Client " +:+ Value.toString (c !! "ClientID")
  +:+ " has the highest priority (1) but requests many tasks ("
  +:+ numberToString (Int (Z.of_nat (default 0%nat (Value.length (c !! "RequestedTaskIDs")))))
  +:+ "). This might be unusual.".

End Err.

Section Validation.

(** [JSON.parse(text)] returns ([true]) or throws a SyntaxError ([false]). *)
Variable JSON_parse : string -> bool.

Definition JSONparse (v : option value) : M unit :=
  if JSON_parse (Value.toString v) then ret tt
  else throw (SyntaxError "Unexpected token in JSON").

Local Open Scope js_scope.

(** lines 55-69: the body of [items.forEach], [ids] being the set of line 54 *)
Definition checkDuplicate (idKey : string) (entityType : EntityType.t)
    (ids : JSSet.t) (item : doc) : M JSSet.t :=
  let id := item !! idKey in
  (if negb (Value.truthy id) then pushError (Err.missingId entityType idKey item)
   else if JSSet.has ids id then pushError (Err.duplicateId entityType idKey id)
   else ret tt) ;;
  ret (JSSet.add ids id).

(** lines 53-70 *)
Definition checkDuplicates (items : list doc) (idKey : string)
    (entityType : EntityType.t) : M unit :=
  foldM (checkDuplicate idKey entityType) items [] ;;
  ret tt.

Section Passes.

Variables allTaskIds allWorkerSkills allRequiredSkills : JSSet.t.

(** lines 77-102: the body of [clients.forEach] *)
Definition validateClient (c : doc) : M unit :=
  when (Value.truthy (c !! "PriorityLevel")
        && (Value.lt (c !! "PriorityLevel") 1 || Value.gt (c !! "PriorityLevel") 5))
    (pushError (Err.priorityLevel c)) ;;
  when (Value.truthy (c !! "AttributesJSON"))
    (tryCatch (JSONparse (c !! "AttributesJSON")) (pushError (Err.attributesJSON c))) ;;
  optForEach (c !! "RequestedTaskIDs") (fun tid =>
    when (negb (JSSet.has allTaskIds (Some (Prim tid))))
      (pushError (Err.unknownTask c tid))) ;;
  when (Value.strictEq (c !! "PriorityLevel") 1
        && (5 <? default 0 (Value.length (c !! "RequestedTaskIDs")))%nat)
    (pushSuggestion (Err.manyTasks c)).

(** lines 105-128: the body of [workers.forEach] *)
Definition validateWorker (w : doc) : M unit :=
  when (Value.truthy (w !! "MaxLoadPerPhase") && Value.lt (w !! "MaxLoadPerPhase") 0)
    (pushError (Err.maxLoadPerPhase w)) ;;
  when (Value.truthy (w !! "MaxConcurrent") && Value.lt (w !! "MaxConcurrent") 1)
    (pushError (Err.maxConcurrent w)) ;;
  nonNumeric <- optSome (w !! "AvailableSlots")
                  (fun s => isNaN (Value.primToNumber s)) ;;
  when nonNumeric (pushError (Err.availableSlots w)).

(** lines 131-152: the body of [tasks.forEach] *)
Definition validateTask (t : doc) : M unit :=
  when (Value.truthy (t !! "Duration") && Value.lt (t !! "Duration") 1)
    (pushError (Err.duration t)) ;;
  optForEach (t !! "RequiredSkills") (fun skill =>
    when (negb (JSSet.has allWorkerSkills (Some (Prim skill))))
      (pushError (Err.requiredSkill t skill))) ;;
  badRange <- optSome (t !! "PreferredPhases")
                (fun p => Value.isString p && negb (isRange (Value.primToString p))) ;;
  when badRange (pushError (Err.preferredPhases t)).

(** lines 155-162: the body of [allRequiredSkills.forEach] *)
Definition skillCoverage (skill : option value) : M unit :=
  when (negb (JSSet.has allWorkerSkills skill)) (pushError (Err.skillCoverage skill)).

End Passes.

(** lines 48-50: the three index sets *)
Definition allTaskIds (p : DataTabProps) : JSSet.t :=
  JSSet.new (map (fun t : doc => t !! "TaskID") (tasks p)).
Definition allWorkerSkills (p : DataTabProps) : JSSet.t :=
  JSSet.new (flat_map (fun w : doc => Value.orEmpty (w !! "Skills")) (workers p)).
Definition allRequiredSkills (p : DataTabProps) : JSSet.t :=
  JSSet.new (flat_map (fun t : doc => Value.orEmpty (t !! "RequiredSkills")) (tasks p)).

(** lines 46-162: everything before [setErrors] *)
Definition validationPasses (p : DataTabProps) : M unit :=
  checkDuplicates (clients p) "ClientID" EntityType.clients ;;
  checkDuplicates (workers p) "WorkerID" EntityType.workers ;;
  checkDuplicates (tasks p) "TaskID" EntityType.tasks ;;
  forEach (clients p) (validateClient (allTaskIds p)) ;;
  forEach (workers p) validateWorker ;;
  forEach (tasks p) (validateTask (allWorkerSkills p)) ;;
  forEach (allRequiredSkills p) (skillCoverage (allWorkerSkills p)).

(** lines 45-166.  Both arrays start empty on every run; [setErrors] and
    [setAiSuggestions] replace what the component held.  When a pass throws,
    the exception leaves the function and the component keeps its state. *)
Definition validateAllData (p : DataTabProps) (st : DataTabState)
    : outcome unit * DataTabState :=
  match validationPasses p {| allErrors := []; allSuggestions := [] |} with
  | (Ok _, a) => (Ok tt, {| errors := allErrors a; aiSuggestions := allSuggestions a |})
  | (Throw e, _) => (Throw e, st)
  end.

End Validation.

(** ** The later revision of [validateAllData] (lines 368-502)

    The duplicate scan, the worker pass, the task pass and the coverage pass
    are the text of the earlier revision.  The client pass no longer writes a
    suggestion; the suggestions are the lines of the reply of the external
    service, asked once when some client has priority 1 and more than five
    requested tasks. *)

Inductive toast := ToastError (msg : string) | ToastSuccess (msg : string).

(** [error.message].  The text of a TypeError or of a SyntaxError is chosen
    by the engine. *)
Definition exnMessage (e : exn) : string :=
  match e with
  | TypeError msg => msg
  | SyntaxError msg => msg
  | Error msg => msg
  end.

Module Rev2.

Section Validation.

Variable JSON_parse : string -> bool.

Local Open Scope js_scope.

(** lines 400-422: the body of [clients.forEach] *)
Definition validateClient (allTaskIds : JSSet.t) (c : doc) : M unit :=
  when (Value.truthy (c !! "PriorityLevel")
        && (Value.lt (c !! "PriorityLevel") 1 || Value.gt (c !! "PriorityLevel") 5))
    (pushError (Err.priorityLevel c)) ;;
  when (Value.truthy (c !! "AttributesJSON"))
    (tryCatch (JSONparse JSON_parse (c !! "AttributesJSON"))
       (pushError (Err.attributesJSON c))) ;;
  optForEach (c !! "RequestedTaskIDs") (fun tid =>
    when (negb (JSSet.has allTaskIds (Some (Prim tid))))
      (pushError (Err.unknownTask c tid))).

(** lines 369-482 *)
Definition validationPasses (p : DataTabProps) : M unit :=
  checkDuplicates (clients p) "ClientID" EntityType.clients ;;
  checkDuplicates (workers p) "WorkerID" EntityType.workers ;;
  checkDuplicates (tasks p) "TaskID" EntityType.tasks ;;
  forEach (clients p) (validateClient (allTaskIds p)) ;;
  forEach (workers p) validateWorker ;;
  forEach (tasks p) (validateTask (allWorkerSkills p)) ;;
  forEach (allRequiredSkills p) (skillCoverage (allWorkerSkills p)).

(** line 486 *)
Definition highPriorityClients (p : DataTabProps) : list doc :=
  List.filter (fun c : doc =>
                 Value.strictEq (c !! "PriorityLevel") 1
                 && (5 <? default 0%nat (Value.length (c !! "RequestedTaskIDs")))%nat)
              (clients p).

(** lines 485-498.  [reply] is how the awaited call to the external service
    ends, when the call is made: its text, or an exception, which the
    [catch] turns into a toast. *)
Definition geminiSuggestions (reply : outcome string) (p : DataTabProps)
    : list string * list toast :=
  match highPriorityClients p with
  | [] => ([], [])
  | _ :: _ =>
      match reply with
      | Ok text => (List.filter nonEmpty (split (ascii_of_nat 10) text), [])
      | Throw e => ([], [ToastError ("Error generating AI suggestions: " +:+ exnMessage e)])
      end
  end.

(** lines 368-502 *)
Definition validateAllData (reply : outcome string) (p : DataTabProps) (st : DataTabState)
    : outcome unit * DataTabState * list toast :=
  match validationPasses p {| allErrors := []; allSuggestions := [] |} with
  | (Ok _, a) =>
      let '(lines, toasts) := geminiSuggestions reply p in
      (Ok tt, {| errors := allErrors a; aiSuggestions := allSuggestions a ++ lines |}, toasts)
  | (Throw e, _) => (Throw e, st, [])
  end.

End Validation.

End Rev2.

(** ** The cell editor and the fix applier *)

(** lines 228 and 230: the list-typed and the numeric columns *)
Definition listFields : list string :=
  ["RequestedTaskIDs"; "Skills"; "RequiredSkills"; "CoRunTaskIDs"; "AvailableSlots";
   "PreferredPhases"].

Definition numericFields : list string :=
  ["PriorityLevel"; "Duration"; "MaxLoadPerPhase"; "MaxConcurrent"].

(** [l.includes(x)] *)
Definition includes (l : list string) (x : string) : bool := existsb (String.eqb x) l.

(** [text.split(',').map(s => s.trim()).filter(Boolean)] *)
Definition splitTrimmed (text : string) : list string :=
  List.filter nonEmpty (map trim (split "," text)).

(** [parseInt(text, 10) || 0] *)
Definition parseIntOr0 (text : string) : number :=
  let n := parseInt text in if numberTruthy n then n else Int 0.

(** [typeof v === 'string'] *)
Definition isText (v : option value) : bool :=
  match v with
  | Some (Prim (PStr _)) => true
  | _ => false
  end.

(** [dataMap[entityType]] *)
Definition dataMap (p : DataTabProps) (entityType : EntityType.t) : list doc :=
  match entityType with
  | EntityType.clients => clients p
  | EntityType.workers => workers p
  | EntityType.tasks => tasks p
  end.

Definition setCollection (p : DataTabProps) (entityType : EntityType.t) (l : list doc)
    : DataTabProps :=
  match entityType with
  | EntityType.clients => {| clients := l; workers := workers p; tasks := tasks p |}
  | EntityType.workers => {| clients := clients p; workers := l; tasks := tasks p |}
  | EntityType.tasks => {| clients := clients p; workers := workers p; tasks := l |}
  end.

(** src/unnamed/part_000, [saveSingleDocToFirestore] and the snapshot
    listener, once the authentication is ready and when the store accepts
    the write: the item is merged into the document named by its [id], and
    the listener delivers the collection again.  An item without [id] is
    refused.  [saveSingleDocToFirestore] below has the two other ways to
    fail. *)
Definition sameDocument (a b : doc) : bool :=
  String.eqb (Value.toString (a !! "id")) (Value.toString (b !! "id")).

Definition saveSingleDoc (p : DataTabProps) (entityType : EntityType.t) (item : doc)
    : outcome unit * DataTabProps :=
  if Value.truthy (item !! "id") then
    let coll := dataMap p entityType in
    let coll' :=
      if existsb (sameDocument item) coll
      then map (fun d : doc => if sameDocument item d then item ∪ d else d) coll
      else coll ++ [item] in
    (Ok tt, setCollection p entityType coll')
  else (Throw (Error "Item must have an ID to be saved."), p).

(** src/unnamed/part_000, lines 82-88, in full.  [ready] is
    [isAuthReady && user]; [write] is how the awaited [setDoc] ends.  A call
    that throws leaves the collection as it was. *)
Definition saveSingleDocToFirestore (ready : bool) (write : outcome unit)
    (p : DataTabProps) (entityType : EntityType.t) (item : doc)
    : outcome unit * DataTabProps :=
  if negb ready then (Throw (Error "Auth not ready."), p)
  else if negb (Value.truthy (item !! "id")) then
    (Throw (Error "Item must have an ID to be saved."), p)
  else
    match write with
    | Throw e => (Throw e, p)
    | Ok _ => saveSingleDoc p entityType item
    end.

(** The earlier revision of [handleUpdateCell], lines 224-238. *)
Module Rev1.

(** lines 226-234: [itemToUpdate] when the cell is left *)
Definition itemToUpdate (item : doc) (field : string) (value : value) : doc :=
  if includes listFields field then
    <[field := Prim (PStr (join "," (splitTrimmed (Value.toString (Some value)))))]> item
  else if includes numericFields field then
    <[field := Prim (PStr (numberToString (parseIntOr0 (Value.toString (Some value)))))]> item
  else <[field := value]> item.

(** lines 224-236: the edit, up to the collection the listener delivers *)
Definition handleUpdateCell (p : DataTabProps) (rowIndex : nat) (field : string)
    (value : value) (entityType : EntityType.t) : outcome unit * DataTabProps :=
  let dataSet := dataMap p entityType in
  saveSingleDoc p entityType (itemToUpdate (default ∅ (dataSet !! rowIndex)) field value).

End Rev1.

(** lines 562-576: [itemToUpdate] in the later revision of [handleUpdateCell] *)
Definition itemToUpdate (item : doc) (field : string) (value : value) : doc :=
  if includes listFields field then
    let arrValue := splitTrimmed (Value.toString (Some value)) in
    if isText (item !! field) then <[field := Prim (PStr (join ", " arrValue))]> item
    else <[field := Arr (map PStr arrValue)]> item
  else if includes numericFields field then
    <[field := Prim (PStr (numberToString (parseIntOr0 (Value.toString (Some value)))))]> item
  else <[field := value]> item.

(** lines 560-578 *)
Definition handleUpdateCell (p : DataTabProps) (rowIndex : nat) (field : string)
    (value : value) (entityType : EntityType.t) : outcome unit * DataTabProps :=
  let dataSet := dataMap p entityType in
  saveSingleDoc p entityType (itemToUpdate (default ∅ (dataSet !! rowIndex)) field value).

(** line 658: the domain-id property of a collection *)
Definition idKeyOf (entityType : EntityType.t) : string :=
  match entityType with
  | EntityType.clients => "ClientID"
  | EntityType.workers => "WorkerID"
  | EntityType.tasks => "TaskID"
  end.

(** lines 665-677: [updatedItem] in [applyAIFix], [validatedSuggestion] being
    the text the fix-sanity service returned *)
Definition updatedItem (item : doc) (field : string) (validatedSuggestion : string) : doc :=
  if includes ["RequestedTaskIDs"; "Skills"; "RequiredSkills"; "CoRunTaskIDs";
               "AvailableSlots"; "PreferredPhases"] field then
    let arrValue := List.filter nonEmpty (map trim (split "," validatedSuggestion)) in
    if isText (item !! field) then <[field := Prim (PStr (join ", " arrValue))]> item
    else <[field := Arr (map PStr arrValue)]> item
  else if includes ["PriorityLevel"; "MaxLoadPerPhase"; "MaxConcurrent"; "Duration"] field then
    <[field := Prim (PStr (numberToString
                             (let n := parseInt validatedSuggestion in
                              if numberTruthy n then n else Int 0)))]> item
  else <[field := Prim (PStr validatedSuggestion)]> item.

(** lines 651-687.  [reply] is how the awaited call to the fix-sanity service
    ends.  The result is the collection the listener delivers and the toast
    shown. *)
Definition applyAIFix (reply : outcome string) (p : DataTabProps)
    (entityType : EntityType.t) (id : string) (field : string)
    : DataTabProps * toast :=
  match reply with
  | Throw e => (p, ToastError ("Error applying AI fix: " +:+ exnMessage e))
  | Ok validatedSuggestion =>
      match List.find (fun row : doc =>
                         Value.sameValueZero (row !! idKeyOf entityType)
                                             (Some (Prim (PStr id))))
                      (dataMap p entityType) with
      | None => (p, ToastError (EntityType.name entityType +:+ " with ID " +:+ id
                                +:+ " not found."))
      | Some item =>
          match saveSingleDoc p entityType (updatedItem item field validatedSuggestion) with
          | (Ok _, p') => (p', ToastSuccess ("Applied fix for " +:+ EntityType.name entityType
                                             +:+ " " +:+ id))
          | (Throw e, p') => (p', ToastError ("Error applying AI fix: " +:+ exnMessage e))
          end
      end
  end.

(** [applyAIFix] over [saveSingleDocToFirestore]: lines 651-687 with the
    three ways in which the awaited save can fail. *)
Module Saving.

Definition applyAIFix (ready : bool) (write : outcome unit) (reply : outcome string)
    (p : DataTabProps) (entityType : EntityType.t) (id : string) (field : string)
    : DataTabProps * toast :=
  match reply with
  | Throw e => (p, ToastError ("Error applying AI fix: " +:+ exnMessage e))
  | Ok validatedSuggestion =>
      match List.find (fun row : doc =>
                         Value.sameValueZero (row !! idKeyOf entityType)
                                             (Some (Prim (PStr id))))
                      (dataMap p entityType) with
      | None => (p, ToastError (EntityType.name entityType +:+ " with ID " +:+ id
                                +:+ " not found."))
      | Some item =>
          match saveSingleDocToFirestore ready write p entityType
                  (updatedItem item field validatedSuggestion) with
          | (Ok _, p') => (p', ToastSuccess ("Applied fix for " +:+ EntityType.name entityType
                                             +:+ " " +:+ id))
          | (Throw e, p') => (p', ToastError ("Error applying AI fix: " +:+ exnMessage e))
          end
      end
  end.

End Saving.

(** ** The rule registry (the rules tab) *)

Module Rules.

(** What [JSON.parse] returns.  An object keeps its members in order; a
    member read is the last one of that name. *)
#[local] Set Warnings "-register-all".
Inductive json :=
  | JNull
  | JBool (b : bool)
  | JNumber (z : Z)
  | JString (s : string)
  | JArray (l : list json)
  | JObject (members : list (string * json)).

Definition member (key : string) (members : list (string * json)) : option json :=
  fold_left (fun found '(k, v) => if String.eqb k key then Some v else found) members None.

(** [j.key]: a TypeError on [null], [undefined] on a value that is not an
    object. *)
Definition get (j : json) (key : string) : outcome (option json) :=
  match j with
  | JNull => Throw (TypeError ("Cannot read properties of null (reading '" +:+ key +:+ "')"))
  | JObject members => Ok (member key members)
  | _ => Ok None
  end.

Definition truthy (v : option json) : bool :=
  match v with
  | None | Some JNull => false
  | Some (JBool b) => b
  | Some (JNumber z) => negb (Z.eqb z 0)
  | Some (JString s) => nonEmpty s
  | Some (JArray _) | Some (JObject _) => true
  end.

(** The state of the tab and what a handler shows. *)
Record RulesTabState := {
  naturalLanguageRule : string;
  isConverting : bool
}.

(** A rule of the registry: [{ id, type, params }]. *)
Definition rule (id : string) (type params : json) : json :=
  JObject [("id", JString id); ("type", type); ("params", params)].

(** src/unnamed/part_003, lines 69-97.  [generateRuleFromAI] is the external
    translator: the candidate it returns, or the exception it throws;
    [generateUniqueId] is the identifier drawn for the new rule.  The result
    is the registry passed on by [onUpdate] (unchanged when [onUpdate] is not
    called), the state of the tab and the toast shown. *)
Definition handleNaturalLanguageConvert
    (generateRuleFromAI : string -> outcome json) (generateUniqueId : string)
    (rules : list json) (st : RulesTabState)
    : list json * RulesTabState * toast :=
  if negb (nonEmpty (trim (naturalLanguageRule st))) then
    (rules, st, ToastError "Please enter a rule description")
  else
    let failed (e : exn) :=
      (rules,
       {| naturalLanguageRule := naturalLanguageRule st; isConverting := false |},
       ToastError ("Failed to generate rule: " +:+ exnMessage e)) in
    let invalid := failed (Error "Invalid rule format from AI") in
    match generateRuleFromAI (naturalLanguageRule st) with
    | Throw e => failed e
    | Ok aiResponseJson =>
        match get aiResponseJson "type" with
        | Throw e => failed e
        | Ok None => invalid
        | Ok (Some type) =>
            if negb (truthy (Some type)) then invalid
            else
              match get aiResponseJson "params" with
              | Throw e => failed e
              | Ok None => invalid
              | Ok (Some params) =>
                  if negb (truthy (Some params)) then invalid
                  else
                    (rules ++ [rule generateUniqueId type params],
                     {| naturalLanguageRule := ""; isConverting := false |},
                     ToastSuccess "Rule successfully generated")
              end
        end
    end.

(** lines 99-118 *)
Definition addRule (generateUniqueId : string) (type : string) (rules : list json) : list json :=
  rules ++ [rule generateUniqueId (JString type) (JObject [("taskIds", JArray [])])].

Definition hasId (id : string) (r : json) : bool :=
  match r with
  | JObject members =>
      match member "id" members with
      | Some (JString s) => String.eqb s id
      | _ => false
      end
  | _ => false
  end.

(** [{ ...r, params: newParams }] *)
Definition withParams (newParams : json) (r : json) : json :=
  match r with
  | JObject members =>
      if existsb (fun '(k, _) => String.eqb k "params") members
      then JObject (map (fun '(k, v) => if String.eqb k "params" then (k, newParams) else (k, v))
                        members)
      else JObject (members ++ [("params", newParams)])
  | _ => r
  end.

Definition updateRuleParams (id : string) (newParams : json) (rules : list json) : list json :=
  map (fun r => if hasId id r then withParams newParams r else r) rules.

Definition deleteRule (id : string) (rules : list json) : list json :=
  List.filter (fun r => negb (hasId id r)) rules.

(** The earlier revision, src/unnamed/part_002, where the translator is a
    function of the file. *)
Module Rev1.

Definition lowerCase (c : ascii) : ascii :=
  let n := nat_of_ascii c in
  if ((65 <=? n)%nat && (n <=? 90)%nat)
     || ((192 <=? n)%nat && (n <=? 222)%nat && negb (n =? 215)%nat)
  then ascii_of_nat (n + 32) else c.

(** [s.toLowerCase()] *)
Fixpoint toLowerCase (s : string) : string :=
  match s with
  | EmptyString => EmptyString
  | String c r => String (lowerCase c) (toLowerCase r)
  end.

(** [s.includes(sub)] *)
Fixpoint includesText (sub s : string) : bool :=
  startsWith sub s
  || match s with
     | String _ r => includesText sub r
     | EmptyString => false
     end.

(** [s.match(/T\d+/g) || []]: the matches from left to right, each a [T] and
    the longest run of digits after it.  [fuel] bounds the scan by the length
    of the text. *)
Fixpoint matchTaskIds (fuel : nat) (s : string) : list string :=
  match fuel, s with
  | S fuel', String c r =>
      if Ascii.eqb c "T" then
        match spanDigits r with
        | (EmptyString, _) => matchTaskIds fuel' r
        | (d, rest) => String c d :: matchTaskIds fuel' rest
        end
      else matchTaskIds fuel' r
  | _, _ => []
  end.

(** lines 115-127 *)
Definition generateRuleFromAI (prompt : string) : json :=
  let lowerCaseRule := toLowerCase prompt in
  if includesText "run together" lowerCaseRule || includesText "co-run" lowerCaseRule then
    let taskIds := matchTaskIds (String.length prompt) prompt in
    JObject [("type", JString "CO_RUN");
             ("params", JObject [("taskIds", JArray (map JString taskIds))])]
  else
    JObject [("type", JString "UNKNOWN");
             ("params", JObject [("message", JString "Could not parse rule.")])].

(** [{ id: generateUniqueId(), ...aiResponseJson }] *)
Definition spreadAfterId (id : string) (j : json) : json :=
  match j with
  | JObject members => JObject (("id", JString id) :: members)
  | _ => JObject [("id", JString id)]
  end.

(** lines 134-144 *)
Definition handleNaturalLanguageConvert (generateUniqueId : string)
    (rules : list json) (st : RulesTabState) : list json * RulesTabState :=
  if negb (nonEmpty (naturalLanguageRule st)) then (rules, st)
  else
    let promptForLLM :=
      "Convert the following rule into a JSON object with 'type' and 'params' keys. Rule: "
      +:+ String (ascii_of_nat 34) (naturalLanguageRule st)
      +:+ String (ascii_of_nat 34) "" in
    let aiResponseJson := generateRuleFromAI promptForLLM in
    (rules ++ [spreadAfterId generateUniqueId aiResponseJson],
     {| naturalLanguageRule := ""; isConverting := false |}).

End Rev1.

End Rules.

(** ** Reading a run *)

(** The statements of a validation run only append to the two arrays and
    never read them: what a statement emits and how it ends can be read off
    its run on empty arrays. *)

Definition emptyAcc : acc := {| allErrors := []; allSuggestions := [] |}.

Definition appAcc (a b : acc) : acc :=
  {| allErrors := allErrors a ++ allErrors b;
     allSuggestions := allSuggestions a ++ allSuggestions b |}.

Definition ending {A} (m : M A) : outcome A := fst (m emptyAcc).
Definition emitted {A} (m : M A) : acc := snd (m emptyAcc).
Definition emittedErrors {A} (m : M A) : list ValidationError := allErrors (emitted m).
Definition emittedSuggestions {A} (m : M A) : list string := allSuggestions (emitted m).

Definition framed {A} (m : M A) : Prop :=
  forall a, m a = (ending m, appAcc a (emitted m)).

(** What the scan for duplicates pushes for [item] when [ids] is the set of
    the ids seen before it. *)
Definition flagged (idKey : string) (et : EntityType.t) (ids : JSSet.t) (item : doc)
    : list ValidationError :=
  emittedErrors (checkDuplicate idKey et ids item).

(** The ids seen after [items], starting from [ids]. *)
Definition seen (idKey : string) (ids : JSSet.t) (items : list doc) : JSSet.t :=
  fold_left JSSet.add (map (fun item : doc => item !! idKey) items) ids.

(** What the scan pushes over [items], starting from [ids]. *)
Fixpoint scan (idKey : string) (et : EntityType.t) (ids : JSSet.t) (items : list doc)
    : list ValidationError :=
  match items with
  | [] => []
  | item :: r => flagged idKey et ids item ++ scan idKey et (JSSet.add ids (item !! idKey)) r
  end.

(** A list-typed property that the passes iterate: an array or absent. *)
Definition arrayOrUndefined (v : option value) : bool :=
  match v with
  | Some (Prim _) => false
  | _ => true
  end.

(** Every property that [validateAllData] iterates with [forEach] or [some]
    is an array or absent. *)
Definition wellShaped (p : DataTabProps) : bool :=
  forallb (fun c : doc => arrayOrUndefined (c !! "RequestedTaskIDs")) (clients p)
  && forallb (fun w : doc => arrayOrUndefined (w !! "AvailableSlots")) (workers p)
  && forallb (fun t : doc => arrayOrUndefined (t !! "RequiredSkills")
                             && arrayOrUndefined (t !! "PreferredPhases")) (tasks p).

(** The errors and the suggestions of the seven passes, in the order of the
    source. *)
Definition passErrors (J : string -> bool) (p : DataTabProps) : list ValidationError :=
  emittedErrors (checkDuplicates (clients p) "ClientID" EntityType.clients)
  ++ emittedErrors (checkDuplicates (workers p) "WorkerID" EntityType.workers)
  ++ emittedErrors (checkDuplicates (tasks p) "TaskID" EntityType.tasks)
  ++ flat_map (fun c => emittedErrors (validateClient J (allTaskIds p) c)) (clients p)
  ++ flat_map (fun w => emittedErrors (validateWorker w)) (workers p)
  ++ flat_map (fun t => emittedErrors (validateTask (allWorkerSkills p) t)) (tasks p)
  ++ flat_map (fun s => emittedErrors (skillCoverage (allWorkerSkills p) s))
              (allRequiredSkills p).

Definition passSuggestions (J : string -> bool) (p : DataTabProps) : list string :=
  flat_map (fun c => emittedSuggestions (validateClient J (allTaskIds p) c)) (clients p).

(** The domain-id fields, which only the scan for duplicates writes. *)
Definition idFields : list string := ["ClientID"; "WorkerID"; "TaskID"].

Definition notIdField (e : ValidationError) : Prop := ~ In (field e) idFields.

(** The errors of the four passes that follow the scan for duplicates. *)
Definition laterErrors (J : string -> bool) (p : DataTabProps) : list ValidationError :=
  flat_map (fun c => emittedErrors (validateClient J (allTaskIds p) c)) (clients p)
  ++ flat_map (fun w => emittedErrors (validateWorker w)) (workers p)
  ++ flat_map (fun t => emittedErrors (validateTask (allWorkerSkills p) t)) (tasks p)
  ++ flat_map (fun s => emittedErrors (skillCoverage (allWorkerSkills p) s))
              (allRequiredSkills p).


(** The errors of one field. *)
Definition hasField (f : string) (e : ValidationError) : bool := String.eqb (field e) f.

(** ** An instance of [JSON.parse]

    The grammar of JSON texts (ECMA-404), as a recogniser: the instance of
    [JSON_parse] of the examples. *)

Module JSONText.

Definition isWs (c : ascii) : bool :=
  let n := nat_of_ascii c in (n =? 32)%nat || (n =? 9)%nat || (n =? 10)%nat || (n =? 13)%nat.

Fixpoint skipWs (s : string) : string :=
  match s with
  | String c r => if isWs c then skipWs r else s
  | EmptyString => EmptyString
  end.

(** After the opening quote: the rest after the closing quote. *)
Fixpoint stringBody (s : string) : option string :=
  match s with
  | EmptyString => None
  | String c r =>
      if Ascii.eqb c (ascii_of_nat 34) then Some r
      else if Ascii.eqb c (ascii_of_nat 92) then
        match r with
        | String e r' =>
            if Ascii.eqb e (ascii_of_nat 117) then
              match r' with
              | String h1 (String h2 (String h3 (String h4 r''))) =>
                  if isHexDigit h1 && isHexDigit h2 && isHexDigit h3 && isHexDigit h4
                  then stringBody r'' else None
              | _ => None
              end
            else if existsb (Ascii.eqb e)
                      (map ascii_of_nat [34; 92; 47; 98; 102; 110; 114; 116]%nat)
                 then stringBody r' else None
        | EmptyString => None
        end
      else if (nat_of_ascii c <? 32)%nat then None
      else stringBody r
  end.

Definition dropIf (p : ascii -> bool) (s : string) : string :=
  match s with
  | String c r => if p c then r else s
  | EmptyString => s
  end.

(** A number: the rest after it. *)
Definition numberText (s : string) : option string :=
  let s1 := dropIf (Ascii.eqb (ascii_of_nat 45)) s in
  match spanDigits s1 with
  | (EmptyString, _) => None
  | (String d ds, r) =>
      if Ascii.eqb d (ascii_of_nat 48) && nonEmpty ds then None
      else
        let afterFrac :=
          match r with
          | String c r' =>
              if Ascii.eqb c (ascii_of_nat 46) then
                match spanDigits r' with
                | (EmptyString, _) => None
                | (_, r'') => Some r''
                end
              else Some r
          | EmptyString => Some r
          end in
        match afterFrac with
        | None => None
        | Some (String e r') =>
            if Ascii.eqb e (ascii_of_nat 101) || Ascii.eqb e (ascii_of_nat 69) then
              let r'' := dropIf (fun c => Ascii.eqb c (ascii_of_nat 43)
                                          || Ascii.eqb c (ascii_of_nat 45)) r' in
              match spanDigits r'' with
              | (EmptyString, _) => None
              | (_, rest) => Some rest
              end
            else Some (String e r')
        | Some EmptyString => Some EmptyString
        end
  end.

Definition literal (word s : string) : option string :=
  if startsWith word s
  then Some (String.substring (String.length word) (String.length s - String.length word) s)
  else None.

Inductive mode := AValue | Elements | Members.

Definition isChar (c : ascii) (x : string) : bool :=
  match x with
  | String d EmptyString => Ascii.eqb c d
  | _ => false
  end.

(** [fuel] bounds the number of nested calls. *)
Fixpoint parse (fuel : nat) (m : mode) (s : string) : option string :=
  match fuel with
  | O => None
  | S fuel' =>
      match m with
      | AValue =>
          match skipWs s with
          | EmptyString => None
          | String c r as w =>
              if isChar c "{" then
                match skipWs r with
                | EmptyString => None
                | String d r' as r1 => if isChar d "}" then Some r' else parse fuel' Members r1
                end
              else if isChar c "[" then
                match skipWs r with
                | EmptyString => None
                | String d r' as r1 => if isChar d "]" then Some r' else parse fuel' Elements r1
                end
              else if isChar c "t" then literal "true" w
              else if isChar c "f" then literal "false" w
              else if isChar c "n" then literal "null" w
              else if Ascii.eqb c (ascii_of_nat 34) then stringBody r
              else numberText w
          end
      | Elements =>
          match parse fuel' AValue s with
          | Some r =>
              match skipWs r with
              | EmptyString => None
              | String d r' =>
                  if isChar d "," then parse fuel' Elements r'
                  else if isChar d "]" then Some r' else None
              end
          | None => None
          end
      | Members =>
          match skipWs s with
          | EmptyString => None
          | String q r =>
              if Ascii.eqb q (ascii_of_nat 34) then
                match stringBody r with
                | Some r1 =>
                    match skipWs r1 with
                    | EmptyString => None
                    | String d r2 =>
                        if isChar d ":" then
                          match parse fuel' AValue r2 with
                          | Some r3 =>
                              match skipWs r3 with
                              | EmptyString => None
                              | String e r4 =>
                                  if isChar e "," then parse fuel' Members r4
                                  else if isChar e "}" then Some r4 else None
                              end
                          | None => None
                          end
                        else None
                    end
                | None => None
                end
              else None
          end
      end
  end.

(** [true] when [JSON.parse(text)] returns. *)
Definition accepts (text : string) : bool :=
  match parse (2 * String.length text + 2) AValue text with
  | Some rest => negb (nonEmpty (skipWs rest))
  | None => false
  end.

End JSONText.

(** ** Sample data *)

Module Sample.

Definition text (s : string) : value := Prim (PStr s).
Definition num (z : Z) : value := Prim (PNum (Int z)).

Definition store (cs ws ts : list doc) : DataTabProps :=
  {| clients := cs; workers := ws; tasks := ts |}.

Definition idle : DataTabState := {| errors := []; aiSuggestions := [] |}.

(** A client with a domain id and a priority level. *)
Definition client (id ClientID : string) (PriorityLevel : Z) : doc :=
  {[ "id" := text id; "ClientID" := text ClientID; "PriorityLevel" := num PriorityLevel ]}.

(** A worker with its slots and its MaxConcurrent. *)
Definition worker (id WorkerID : string) (AvailableSlots : list string) (MaxConcurrent : Z)
    : doc :=
  {[ "id" := text id; "WorkerID" := text WorkerID;
     "AvailableSlots" := Arr (map PStr AvailableSlots);
     "MaxConcurrent" := num MaxConcurrent ]}.

(** A task with its required skills. *)
Definition task (id TaskID : string) (RequiredSkills : list string) : doc :=
  {[ "id" := text id; "TaskID" := text TaskID;
     "RequiredSkills" := Arr (map PStr RequiredSkills) ]}.

(** Two clients with the same domain id. *)
Definition twins : DataTabProps := store [client "i1" "C1" 3; client "i2" "C1" 3] [] [].

(** A client without a domain id and one whose domain id is the empty text,
    after the twins. *)
Definition nameless : doc := {[ "id" := text "i3"; "PriorityLevel" := num 3 ]}.
Definition blank : doc := client "i4" "" 3.
Definition scanned : DataTabProps :=
  store [client "i1" "C1" 3; client "i2" "C1" 3; nameless; blank] [] [].

(** A task that requires a skill no worker offers. *)
Definition rust : doc := task "i2" "T1" ["Rust"].
Definition uncoveredSkill : DataTabProps := store [] [worker "i1" "W1" ["1"] 1] [rust].

(** Workers with slots that are not numbers. *)
Definition slotsOf (l : list string) : doc := worker "i1" "W1" l 1.
Definition badSlots (l : list string) : DataTabProps := store [] [slotsOf l] [].

(** A client with requested tasks, held as an array and held as a text. *)
Definition requesting (RequestedTaskIDs : value) : doc :=
  {[ "id" := text "i1"; "ClientID" := text "C1"; "RequestedTaskIDs" := RequestedTaskIDs ]}.

(** The state of the rules tab with a rule typed in, and a candidate without
    [params]. *)
Definition typed : Rules.RulesTabState :=
  {| Rules.naturalLanguageRule := "T1 and T2 run together"; Rules.isConverting := false |}.
Definition noParams : Rules.json := Rules.JObject [("type", Rules.JString "CO_RUN")].

End Sample.

(** ** The uploader: [mapHeader] and the rows of [onDrop] *)

Module Upload.

(** [/[\s_-]/] *)
Definition isSeparator (c : ascii) : bool :=
  isWhiteSpace c || Ascii.eqb c (ascii_of_nat 95) || Ascii.eqb c (ascii_of_nat 45).

(** [s.replace(/[\s_-]/g, '')] *)
Fixpoint removeSeparators (s : string) : string :=
  match s with
  | EmptyString => EmptyString
  | String c r => if isSeparator c then removeSeparators r else String c (removeSeparators r)
  end.

(** line 29 *)
Definition normalize (header : string) : string :=
  removeSeparators (Rules.Rev1.toLowerCase header).

(** lines 30-34: the own properties of [map] *)
Definition map : list (string * string) :=
  [("clientid", "ClientID"); ("clientgroup", "ClientGroup");
   ("prioritylevel", "PriorityLevel"); ("requestedtaskids", "RequestedTaskIDs");
   ("attributesjson", "AttributesJSON");
   ("workerid", "WorkerID"); ("workergroup", "WorkerGroup"); ("skills", "Skills");
   ("availableslots", "AvailableSlots"); ("maxloadperphase", "MaxLoadPerPhase");
   ("maxconcurrent", "MaxConcurrent");
   ("taskid", "TaskID"); ("requiredskills", "RequiredSkills");
   ("preferredphases", "PreferredPhases"); ("duration", "Duration");
   ("coruntaskids", "CoRunTaskIDs")].

Fixpoint own (key : string) (properties : list (string * string)) : option string :=
  match properties with
  | [] => None
  | (k, v) :: r => if String.eqb k key then Some v else own key r
  end.

(** The names of the properties of [Object.prototype], which an object
    literal inherits: those of the language and the four of its annex on
    browsers. *)
Definition prototype : list string :=
  ["constructor"; "hasOwnProperty"; "isPrototypeOf"; "propertyIsEnumerable";
   "toLocaleString"; "toString"; "valueOf"; "__proto__";
   "__defineGetter__"; "__defineSetter__"; "__lookupGetter__"; "__lookupSetter__"].

(** [map[normalized]]: an own property of [map], else a property that it
    inherits, each of them an object or a function and so truthy, else
    [undefined]. *)
Inductive found := Own (canonical : string) | Inherited (name : string) | Undefined.

Definition get (normalized : string) : found :=
  match own normalized map with
  | Some canonical => Own canonical
  | None => if includes prototype normalized then Inherited normalized else Undefined
  end.

(** What [mapHeader] returns: a text, or the function [Object], which an
    object literal inherits under the name [constructor]. *)
Inductive mapped := Name (s : string) | ObjectFunction.

(** lines 28-36.  [map[normalized]] reads an own property of [map], or, for
    the one inherited name that is written in lower case without separators,
    the inherited property: that it is the only one that [get] can find for
    a normalized header is proved with the uploader. *)
Definition mapHeader (header : string) : mapped :=
  let normalized := normalize header in
  match own normalized map with
  | Some canonical => Name canonical
  | None => if String.eqb normalized "constructor" then ObjectFunction else Name header
  end.

(** A row of [parsedData]: its own properties in the order of [for...in],
    each a text or a number. *)
Definition row := list (string * prim).

(** [s.replace(/[\[\]]/g, '')] *)
Fixpoint removeBrackets (s : string) : string :=
  match s with
  | EmptyString => EmptyString
  | String c r =>
      if Ascii.eqb c (ascii_of_nat 91) || Ascii.eqb c (ascii_of_nat 93)
      then removeBrackets r else String c (removeBrackets r)
  end.

(** lines 198-205: the value stored for a cell *)
Definition coerce (mappedKey : mapped) (raw : prim) : value :=
  match mappedKey with
  | Name k =>
      if includes ["RequestedTaskIDs"; "Skills"; "RequiredSkills"; "CoRunTaskIDs"] k then
        Arr (List.map PStr (List.filter nonEmpty
                         (List.map trim (split "," (Value.primToString raw)))))
      else if includes ["AvailableSlots"; "PreferredPhases"] k then
        Arr (List.map PStr (List.filter nonEmpty
                         (List.map trim (split "," (removeBrackets (Value.primToString raw))))))
      else if includes ["PriorityLevel"; "Duration"; "MaxLoadPerPhase"; "MaxConcurrent"] k then
        Prim (PNum (parseInt (Value.primToString raw)))
      else Prim raw
  | ObjectFunction => Prim raw
  end.

Section Rows.

(** The property key that the function [Object] converts to: its source
    text, which the engine chooses. *)
Variable objectKey : string.

(** line 206, [newRow[mappedKey] = value].  A text or a number assigned to
    [__proto__] is ignored. *)
Definition assign (newRow : doc) (mappedKey : mapped) (v : value) : doc :=
  match mappedKey with
  | Name k => if String.eqb k "__proto__" then newRow else <[k := v]> newRow
  | ObjectFunction => <[objectKey := v]> newRow
  end.

(** lines 195-208: the body of [parsedData.map], [id] being the identifier
    drawn for the row *)
Definition transformRow (id : string) (r : row) : doc :=
  fold_left (fun (newRow : doc) '(key, raw) =>
               let mappedKey := mapHeader key in
               assign newRow mappedKey (coerce mappedKey raw))
            r {[ "id" := Prim (PStr id) ]}.

(** line 209 *)
Definition hasDomainId (d : doc) : bool :=
  Value.truthy (d !! "ClientID") || Value.truthy (d !! "WorkerID")
  || Value.truthy (d !! "TaskID").

(** lines 194-209: [transformedData], [generateUniqueId i] being the
    identifier drawn for the row of index [i] *)
Definition transformedData (generateUniqueId : nat -> string) (parsedData : list row)
    : list doc :=
  List.filter hasDomainId
    (imap (fun i r => transformRow (generateUniqueId i) r) parsedData).

End Rows.

End Upload.

(** ** The table: what a cell shows and the error it looks up
    (src/unnamed/part_002, [EditableTable]) *)

Module Table.

(** line 84: [defaultValue] of the input of a cell *)
Definition cellText (v : option value) : string :=
  match v with
  | Some (Arr l) => join ", " (map Value.primToString l)
  | Some (Prim p) => Value.primToString p
  | None => ""
  end.

(** [a === b].  [NaN] is not equal to itself; an array is compared by
    identity and an error never holds the array of a row. *)
Definition strictEquals (a b : option value) : bool :=
  match a, b with
  | None, None => true
  | Some (Prim (PStr s)), Some (Prim (PStr t)) => String.eqb s t
  | Some (Prim (PNum (Int x))), Some (Prim (PNum (Int y))) => Z.eqb x y
  | _, _ => false
  end.

(** lines 59-64 *)
Definition getCellError (errors : list ValidationError) (row_id : option value)
    (header : string) : option string :=
  match List.find (fun err => strictEquals (rowId err) row_id && String.eqb (field err) header)
                  errors with
  | Some error => Some (message error)
  | None => None
  end.

(** What follows [prefix] in [s], when [s] starts with it. *)
Fixpoint dropPrefix (prefix s : string) : option string :=
  match prefix, s with
  | EmptyString, _ => Some s
  | String a p, String b r => if Ascii.eqb a b then dropPrefix p r else None
  | String _ _, EmptyString => None
  end.

Definition isOperator (c : ascii) : bool :=
  Ascii.eqb c ">" || Ascii.eqb c "<" || Ascii.eqb c "=".

(** [/(duration|prioritylevel)\s*(>|<|=)\s*(\d+)/] at the start of [s]: the
    key, the operator and the digits.  White space is never an operator nor
    a digit, so that the greedy [\s*] needs no backtracking. *)
Definition comparisonAt (s : string) : option (string * ascii * string) :=
  let key :=
    match dropPrefix "duration" s with
    | Some r => Some ("duration", r)
    | None =>
        match dropPrefix "prioritylevel" s with
        | Some r => Some ("prioritylevel", r)
        | None => None
        end
    end in
  match key with
  | Some (k, r) =>
      match trimStart r with
      | String operator r' =>
          if isOperator operator then
            match spanDigits (trimStart r') with
            | (String a d, _) => Some (k, operator, String a d)
            | _ => None
            end
          else None
      | EmptyString => None
      end
  | None => None
  end.

(** [s.match(...)] for the expression above: the leftmost match. *)
Fixpoint matchComparison (s : string) : option (string * ascii * string) :=
  match comparisonAt s with
  | Some m => Some m
  | None =>
      match s with
      | String _ r => matchComparison r
      | EmptyString => None
      end
  end.

(** [/phase\s*(\d+)/] at the start of [s], and its leftmost match. *)
Definition phaseAt (s : string) : option string :=
  match dropPrefix "phase" s with
  | Some r =>
      match spanDigits (trimStart r) with
      | (String a d, _) => Some (String a d)
      | _ => None
      end
  | None => None
  end.

Fixpoint matchPhase (s : string) : option string :=
  match phaseAt s with
  | Some m => Some m
  | None =>
      match s with
      | String _ r => matchPhase r
      | EmptyString => None
      end
  end.

(** [v?.includes(n)] for a number [n]: [undefined] on [undefined], the
    membership under SameValueZero on an array, the search of the text of
    [n] in a text, and a TypeError on a number, which has no [includes]. *)
Definition optIncludes (v : option value) (n : number) : outcome (option bool) :=
  match v with
  | None => Ok None
  | Some (Arr l) => Ok (Some (existsb (fun q => Value.prim_eqb q (PNum n)) l))
  | Some (Prim (PStr s)) => Ok (Some (Rules.Rev1.includesText (numberToString n) s))
  | Some (Prim (PNum _)) => Throw (TypeError "includes is not a function")
  end.

(** [Object.values(row)] *)
Definition values (row : doc) : list value := List.map snd (map_to_list row).

(** lines 32-57: the callback of [data.filter], up to the truthiness of what
    it returns *)
Definition keeps (searchTerm : string) (row : doc) : outcome bool :=
  if negb (nonEmpty searchTerm) then Ok true
  else
    let lowerSearchTerm := Rules.Rev1.toLowerCase searchTerm in
    match matchComparison lowerSearchTerm with
    | Some (key, operator, digits) =>
        let rowValue := row !! key in
        if negb (Value.truthy rowValue) then Ok false
        else
          match parseInt digits with
          | Int numValue =>
              if Ascii.eqb operator ">" then Ok (Value.gt rowValue numValue)
              else if Ascii.eqb operator "<" then Ok (Value.lt rowValue numValue)
              else Ok (Value.strictEq rowValue numValue)
          | NaN => Ok false
          end
    | None =>
        match matchPhase lowerSearchTerm with
        | Some phase =>
            let numPhase := parseInt phase in
            match optIncludes (row !! "PreferredPhases") numPhase with
            | Throw e => Throw e
            | Ok (Some true) => Ok true
            | Ok _ =>
                match optIncludes (row !! "AvailableSlots") numPhase with
                | Throw e => Throw e
                | Ok (Some true) => Ok true
                | Ok _ => Ok false
                end
            end
        | None =>
            Ok (existsb (fun val =>
                           Rules.Rev1.includesText lowerSearchTerm
                             (Rules.Rev1.toLowerCase (Value.toString (Some val))))
                        (values row))
        end
    end.

(** lines 32-57: [filteredData], or the exception that leaves the
    component *)
Fixpoint filteredData (searchTerm : string) (data : list doc) : outcome (list doc) :=
  match data with
  | [] => Ok []
  | row :: rest =>
      match keeps searchTerm row with
      | Throw e => Throw e
      | Ok keep =>
          match filteredData searchTerm rest with
          | Throw e => Throw e
          | Ok l => Ok (if keep then row :: l else l)
          end
      end
  end.

End Table.

(** ** The task ids of a rule card (src/unnamed/part_003, lines 192-211) *)

Module RuleCard.

(** line 198, [rule.params.taskIds?.join(', ') || '']: what the controlled
    input shows for the task ids [taskIds] *)
Definition shown (taskIds : list string) : string := join ", " taskIds.

(** lines 199-207: the task ids that a change of the input to [text]
    stores *)
Definition typed (text : string) : list string := splitTrimmed text.

Definition onChange (id text : string) (rules : list Rules.json) : list Rules.json :=
  Rules.updateRuleParams id
    (Rules.JObject [("taskIds", Rules.JArray (List.map Rules.JString (typed text)))])
    rules.

End RuleCard.

(** ** The panel of the errors (src/components/validation-panel.tsx) *)

Module Panel.

(** lines 81-94: the button [Apply Fix] is shown for [err]; [onFix] tells
    whether the panel was given the handler *)
Definition offersFix (onFix : bool) (err : ValidationError) : bool :=
  match suggestion err with
  | Some s => nonEmpty s && onFix
  | None => false
  end.

End Panel.

(** ** The loading bar (src/app/page.tsx) *)

Module Page.

(** line 34: what the interval does to [loadingProgress] while the
    authentication is pending *)
Definition tick (prev : Z) : Z := if 90 <=? prev then 90 else prev + 10.

(** [n] ticks from the initial state [0] *)
Definition pending (n : nat) : Z := Nat.iter n tick 0.

(** line 42: the loading screen is shown *)
Definition loading (isAuthReady : bool) (loadingProgress : Z) : bool :=
  negb isAuthReady || (loadingProgress <? 100).

End Page.

(** ** Texts that survive a cell edit *)

(** A text without a comma that [trim] leaves as it is. *)
Fixpoint commaFree (s : string) : bool :=
  match s with
  | EmptyString => true
  | String c r => negb (Ascii.eqb c ",") && commaFree r
  end.

Definition trimmed (s : string) : bool := String.eqb (trim s) s.

Definition piece (s : string) : bool := commaFree s && trimmed s.

(** A text of decimal digits only. *)
Fixpoint allDigits (s : string) : bool :=
  match s with
  | EmptyString => true
  | String c r => isDigit c && allDigits r
  end.

(** The rules of the registry that carry the identifier [id]. *)
Definition fresh (id : string) (rules : list Rules.json) : bool :=
  forallb (fun r => negb (Rules.hasId id r)) rules.

(** A document whose list-typed properties, the six of [listFields], are
    arrays or absent. *)
Definition listsAreArrays (d : doc) : bool :=
  forallb (fun f => arrayOrUndefined (d !! f)) listFields.

(** What [wellShaped] asks of a document of a collection; the pairs of a
    collection and a property that [validateAllData] iterates. *)
Definition shaped (entityType : EntityType.t) (d : doc) : bool :=
  match entityType with
  | EntityType.clients => arrayOrUndefined (d !! "RequestedTaskIDs")
  | EntityType.workers => arrayOrUndefined (d !! "AvailableSlots")
  | EntityType.tasks =>
      arrayOrUndefined (d !! "RequiredSkills") && arrayOrUndefined (d !! "PreferredPhases")
  end.

Definition iterated : list (EntityType.t * string) :=
  [(EntityType.clients, "RequestedTaskIDs"); (EntityType.workers, "AvailableSlots");
   (EntityType.tasks, "RequiredSkills"); (EntityType.tasks, "PreferredPhases")].

(** What the uploader leaves under a list-typed column, an array of texts,
    and under a numeric column, a number, when the row has the column. *)
Definition textArray (v : option value) : bool :=
  match v with
  | None => true
  | Some (Arr l) => forallb Value.isString l
  | Some (Prim _) => false
  end.

Definition numberOrUndefined (v : option value) : bool :=
  match v with
  | None | Some (Prim (PNum _)) => true
  | _ => false
  end.

Definition uploadedShape (d : doc) : bool :=
  forallb (fun f => textArray (d !! f)) listFields
  && forallb (fun f => numberOrUndefined (d !! f)) numericFields.

(** ** A sheet, a registry and documents for the examples *)

Module Sheet.

(** The text of the function [Object] in the common engines. *)
Definition native : string := "function Object() { [native code] }".

Definition newId (i : nat) : string := "r" +:+ numberToString (Int (Z.of_nat i)).

(** A task with its phases written as a list and a duration, under headers
    spelled in the manner of a spreadsheet. *)
Definition taskRow : Upload.row :=
  [("Task ID", PStr "T1"); ("Preferred Phases", PStr "[1,2,3]"); ("Duration", PStr "2")].

(** The rows of a sheet, the second without a domain id. *)
Definition taskRows : list Upload.row := [taskRow; [("note", PStr "no id")]].

(** A registry of one rule. *)
Definition registry : list Rules.json :=
  [Rules.rule "r1" (Rules.JString "CO_RUN")
     (Rules.JObject [("taskIds", Rules.JArray [Rules.JString "T1"])])].

(** A client that requests a task of the store and one that is not. *)
Definition requests : DataTabProps :=
  Sample.store [Sample.requesting (Arr [PStr "T1"; PStr "T7"])] []
               [Sample.task "i2" "T1" []].

(** A task with a range and with a word among its phases. *)
Definition phased : doc :=
  <["PreferredPhases" := Arr [PStr "1-3"; PStr "soon"]]> (Sample.task "i1" "T1" []).


Definition overloaded : doc :=
  <["MaxLoadPerPhase" := Sample.num (-2)]> (Sample.slotsOf ["1"]).

End Sheet.

(** * Properties *)

(** ** Runs *)

Lemma appAcc_empty_l a : appAcc emptyAcc a = a.
Proof. destruct a; reflexivity. Qed.

Lemma appAcc_empty_r a : appAcc a emptyAcc = a.
Proof. destruct a; unfold appAcc; simpl; rewrite !app_nil_r; reflexivity. Qed.

Lemma appAcc_assoc a b c : appAcc (appAcc a b) c = appAcc a (appAcc b c).
Proof. unfold appAcc; simpl; rewrite !app_assoc; reflexivity. Qed.

Lemma framed_ret {A} (x : A) : framed (ret x).
Proof. intros a; unfold ret, ending, emitted; simpl; now rewrite appAcc_empty_r. Qed.

Lemma framed_throw {A} e : framed (@throw A e).
Proof. intros a; unfold throw, ending, emitted; simpl; now rewrite appAcc_empty_r. Qed.

Lemma framed_pushError e : framed (pushError e).
Proof. intros a; unfold pushError, ending, emitted, appAcc; simpl; now rewrite app_nil_r. Qed.

Lemma framed_pushSuggestion t : framed (pushSuggestion t).
Proof. intros a; unfold pushSuggestion, ending, emitted, appAcc; simpl; now rewrite app_nil_r. Qed.

(** How a sequence runs, read off its two parts. *)
Lemma bind_run {A B} (m : M A) (k : A -> M B) a :
  framed m -> (forall x, framed (k x)) ->
  bind m k a =
    match ending m with
    | Ok x => (ending (k x), appAcc a (appAcc (emitted m) (emitted (k x))))
    | Throw e => (Throw e, appAcc a (emitted m))
    end.
Proof.
  intros Hm Hk. unfold bind. rewrite (Hm a).
  destruct (ending m) as [x|e]; [|reflexivity].
  rewrite (Hk x). now rewrite appAcc_assoc.
Qed.

Lemma framed_bind {A B} (m : M A) (k : A -> M B) :
  framed m -> (forall x, framed (k x)) -> framed (bind m k).
Proof.
  intros Hm Hk a. unfold ending, emitted.
  rewrite !(bind_run m k) by assumption.
  destruct (ending m); simpl; now rewrite !appAcc_empty_l.
Qed.

Lemma framed_tryCatch m h : framed m -> framed h -> framed (tryCatch m h).
Proof.
  intros Hm Hh a. unfold ending, emitted, tryCatch.
  rewrite (Hm a), (Hm emptyAcc).
  destruct (ending m); simpl.
  - now rewrite appAcc_empty_l.
  - rewrite (Hh (appAcc a _)), (Hh (appAcc emptyAcc _)); simpl.
    now rewrite appAcc_empty_l, appAcc_assoc.
Qed.

Lemma framed_when b m : framed m -> framed (when b m).
Proof. destruct b; simpl; [trivial | intros _; apply framed_ret]. Qed.

Lemma framed_foldM {A S} (body : S -> A -> M S) l :
  (forall s x, framed (body s x)) -> forall s, framed (foldM body l s).
Proof.
  intros Hb. induction l as [|x l IH]; intros s; simpl.
  - apply framed_ret.
  - apply framed_bind; auto.
Qed.

Lemma framed_forEach {A} (l : list A) body :
  (forall x, framed (body x)) -> framed (forEach l body).
Proof. intros Hb. apply framed_foldM. auto. Qed.

Lemma framed_optForEach v body :
  (forall x, framed (body x)) -> framed (optForEach v body).
Proof.
  intros Hb. destruct v as [[p|l]|]; simpl.
  - apply framed_throw.
  - now apply framed_forEach.
  - apply framed_ret.
Qed.

Lemma framed_optSome v p : framed (optSome v p).
Proof. destruct v as [[q|l]|]; simpl; auto using framed_throw, framed_ret. Qed.

Lemma framed_JSONparse J v : framed (JSONparse J v).
Proof. unfold JSONparse. destruct (J _); auto using framed_throw, framed_ret. Qed.

Create HintDb framed discriminated.
#[local] Hint Resolve framed_ret framed_throw framed_pushError framed_pushSuggestion
  framed_bind framed_tryCatch framed_when framed_forEach framed_optForEach
  framed_optSome framed_JSONparse framed_foldM : framed.

Lemma framed_checkDuplicate idKey et ids item : framed (checkDuplicate idKey et ids item).
Proof.
  unfold checkDuplicate. apply framed_bind; [|auto with framed].
  destruct (negb _); [auto with framed|]. destruct (JSSet.has _ _); auto with framed.
Qed.

Lemma framed_checkDuplicates items idKey et : framed (checkDuplicates items idKey et).
Proof.
  unfold checkDuplicates. apply framed_bind; [|auto with framed].
  apply framed_foldM. intros s x. apply framed_checkDuplicate.
Qed.

Lemma framed_validateClient J ids c : framed (validateClient J ids c).
Proof. unfold validateClient. repeat (apply framed_bind; [|intros ?]); auto 6 with framed. Qed.

Lemma framed_validateWorker w : framed (validateWorker w).
Proof. unfold validateWorker. repeat (apply framed_bind; [|intros ?]); auto 6 with framed. Qed.

Lemma framed_validateTask skills t : framed (validateTask skills t).
Proof. unfold validateTask. repeat (apply framed_bind; [|intros ?]); auto 6 with framed. Qed.

Lemma framed_skillCoverage skills s : framed (skillCoverage skills s).
Proof. unfold skillCoverage. auto with framed. Qed.

#[local] Hint Resolve framed_checkDuplicates framed_validateClient framed_validateWorker
  framed_validateTask framed_skillCoverage : framed.

Lemma ending_bind {A B} (m : M A) (k : A -> M B) :
  framed m -> (forall x, framed (k x)) ->
  ending (bind m k) = match ending m with Ok x => ending (k x) | Throw e => Throw e end.
Proof.
  intros Hm Hk. unfold ending at 1. rewrite bind_run by assumption.
  now destruct (ending m).
Qed.

Lemma emitted_bind {A B} (m : M A) (k : A -> M B) :
  framed m -> (forall x, framed (k x)) ->
  emitted (bind m k) =
    match ending m with
    | Ok x => appAcc (emitted m) (emitted (k x))
    | Throw _ => emitted m
    end.
Proof.
  intros Hm Hk. unfold emitted at 1. rewrite bind_run by assumption.
  destruct (ending m); simpl; now rewrite appAcc_empty_l.
Qed.

(** A statement without a result returns or throws. *)
Lemma ending_unit (m : M unit) : ending m = Ok tt \/ exists e, ending m = Throw e.
Proof. destruct (ending m) as [[]|e]; eauto. Qed.

(** A loop whose every iteration returns: it returns, and it emits what the
    iterations emit, in order. *)
Lemma forEach_returns {A} (l : list A) body :
  (forall x, framed (body x)) ->
  Forall (fun x => ending (body x) = Ok tt) l ->
  ending (forEach l body) = Ok tt
  /\ emittedErrors (forEach l body) = flat_map (fun x => emittedErrors (body x)) l
  /\ emittedSuggestions (forEach l body) = flat_map (fun x => emittedSuggestions (body x)) l.
Proof.
  intros Hb Hl. unfold forEach, emittedErrors, emittedSuggestions.
  induction Hl as [|x l Hx Hl IH]; simpl.
  - now split.
  - destruct IH as (IH1 & IH2 & IH3).
    rewrite ending_bind, emitted_bind, Hx by auto with framed.
    simpl. rewrite IH2, IH3. now split.
Qed.

(** A loop with an iteration that throws: the loop throws. *)
Lemma forEach_throws {A} (l : list A) body :
  (forall x, framed (body x)) ->
  Exists (fun x => exists e, ending (body x) = Throw e) l ->
  exists e, ending (forEach l body) = Throw e.
Proof.
  intros Hb Hl. unfold forEach.
  induction l as [|x l IH]; [inversion Hl|].
  simpl. rewrite ending_bind by auto with framed.
  destruct (ending_unit (body x)) as [Hx|[e Hx]]; rewrite Hx; [|eauto].
  apply IH. inversion Hl as [? ? [e He]|]; subst; [congruence|assumption].
Qed.

(** *** The scan for duplicates *)

Section Duplicates.

Variables (idKey : string) (et : EntityType.t).

Local Abbreviation flagged := (flagged idKey et).
Local Abbreviation seen := (seen idKey).
Local Abbreviation scan := (scan idKey et).

Lemma flagged_eq ids item :
  flagged ids item =
    if negb (Value.truthy (item !! idKey)) then [Err.missingId et idKey item]
    else if JSSet.has ids (item !! idKey) then [Err.duplicateId et idKey (item !! idKey)]
    else [].
Proof.
  unfold flagged, emittedErrors, emitted, checkDuplicate, bind.
  destruct (negb _); [reflexivity|]. now destruct (JSSet.has _ _).
Qed.

Lemma scan_app ids l1 l2 : scan ids (l1 ++ l2) = scan ids l1 ++ scan (seen ids l1) l2.
Proof.
  revert ids. induction l1 as [|x l1 IH]; intros ids; simpl; [reflexivity|].
  unfold seen in *; simpl. now rewrite IH, app_assoc.
Qed.

Lemma checkDuplicate_run ids item a :
  checkDuplicate idKey et ids item a =
    (Ok (JSSet.add ids (item !! idKey)),
     appAcc a {| allErrors := flagged ids item; allSuggestions := [] |}).
Proof.
  rewrite flagged_eq. destruct a. unfold checkDuplicate, bind, appAcc.
  destruct (negb _); [|destruct (JSSet.has _ _)]; simpl; rewrite ?app_nil_r; reflexivity.
Qed.

Lemma foldM_checkDuplicate_run items ids a :
  foldM (checkDuplicate idKey et) items ids a =
    (Ok (seen ids items), appAcc a {| allErrors := scan ids items; allSuggestions := [] |}).
Proof.
  revert ids a. induction items as [|x items IH]; intros ids a; simpl.
  - unfold ret. now rewrite appAcc_empty_r.
  - unfold bind. rewrite checkDuplicate_run, IH.
    unfold seen, appAcc; simpl. rewrite ?app_nil_r, <- ?app_assoc. reflexivity.
Qed.

Lemma checkDuplicates_run items a :
  checkDuplicates items idKey et a =
    (Ok tt, appAcc a {| allErrors := scan [] items; allSuggestions := [] |}).
Proof.
  unfold checkDuplicates, bind. now rewrite foldM_checkDuplicate_run.
Qed.

Lemma checkDuplicates_emitted items :
  ending (checkDuplicates items idKey et) = Ok tt
  /\ emittedErrors (checkDuplicates items idKey et) = scan [] items
  /\ emittedSuggestions (checkDuplicates items idKey et) = [].
Proof.
  unfold ending, emittedErrors, emittedSuggestions, emitted.
  rewrite checkDuplicates_run. now split.
Qed.

(** The set of the ids seen holds exactly the ids of the items scanned. *)
Lemma has_add ids x y :
  JSSet.has (JSSet.add ids x) y = JSSet.has ids y || Value.sameValueZero y x.
Proof.
  unfold JSSet.add, JSSet.has.
  destruct (existsb (Value.sameValueZero x) ids) eqn:Hx.
  - destruct (Value.sameValueZero y x) eqn:Hyx; [|now rewrite orb_false_r].
    rewrite orb_true_r.
  apply existsb_exists in Hx as (z & Hz & Hxz). apply existsb_exists. exists z. split; [assumption|].
    destruct y as [[[s|n]|l]|], x as [[[s'|n']|l']|]; try discriminate;
    destruct z as [[[s''|n'']|l'']|]; try discriminate; simpl in *.
    + apply String.eqb_eq in Hyx, Hxz. subst. apply String.eqb_refl.
    + destruct n, n', n''; try discriminate; simpl in *; [reflexivity|].
      apply Z.eqb_eq in Hyx, Hxz. subst. apply Z.eqb_refl.
    + reflexivity.
  - rewrite existsb_app. simpl. now rewrite orb_false_r.
Qed.

Lemma has_seen ids items y :
  JSSet.has (seen ids items) y
  = JSSet.has ids y || existsb (fun item : doc => Value.sameValueZero y (item !! idKey)) items.
Proof.
  revert ids. unfold seen. induction items as [|x items IH]; intros ids; simpl.
  - now rewrite orb_false_r.
  - rewrite IH, has_add. now rewrite orb_assoc.
Qed.

End Duplicates.

(** *** When a run returns *)

Lemma ending_when_pushError b e : ending (when b (pushError e)) = Ok tt.
Proof. now destruct b. Qed.

Lemma ending_when_pushSuggestion b t : ending (when b (pushSuggestion t)) = Ok tt.
Proof. now destruct b. Qed.

Lemma ending_optForEach_push v (c : prim -> bool) (e : prim -> ValidationError) :
  ending (optForEach v (fun x => when (c x) (pushError (e x))))
  = if arrayOrUndefined v then Ok tt else Throw (TypeError "forEach is not a function").
Proof.
  destruct v as [[q|l]|]; simpl; try reflexivity.
  apply forEach_returns; [auto with framed|].
  apply Forall_forall. intros x _. apply ending_when_pushError.
Qed.

Lemma ending_validateClient J ids c :
  ending (validateClient J ids c)
  = if arrayOrUndefined (c !! "RequestedTaskIDs") then Ok tt
    else Throw (TypeError "forEach is not a function").
Proof.
  unfold validateClient.
  rewrite ending_bind, ending_when_pushError by auto 6 with framed.
  rewrite ending_bind by auto 6 with framed.
  replace (ending (when _ (tryCatch _ _))) with (@Ok unit tt)
    by (destruct (Value.truthy _); [|reflexivity];
        unfold ending, tryCatch, JSONparse; now destruct (J _)).
  rewrite ending_bind, ending_optForEach_push by auto 6 with framed.
  destruct (arrayOrUndefined _); [|reflexivity].
  apply ending_when_pushSuggestion.
Qed.

Lemma ending_validateWorker w :
  ending (validateWorker w)
  = if arrayOrUndefined (w !! "AvailableSlots") then Ok tt
    else Throw (TypeError "some is not a function").
Proof.
  unfold validateWorker.
  rewrite ending_bind, ending_when_pushError by auto 6 with framed.
  rewrite ending_bind, ending_when_pushError by auto 6 with framed.
  rewrite ending_bind by auto 6 with framed.
  destruct (w !! "AvailableSlots") as [[q|l]|]; simpl; try reflexivity.
  apply ending_when_pushError.
Qed.

Lemma ending_validateTask skills t :
  ending (validateTask skills t)
  = if arrayOrUndefined (t !! "RequiredSkills") then
      if arrayOrUndefined (t !! "PreferredPhases") then Ok tt
      else Throw (TypeError "some is not a function")
    else Throw (TypeError "forEach is not a function").
Proof.
  unfold validateTask.
  rewrite ending_bind, ending_when_pushError by auto 6 with framed.
  rewrite ending_bind, ending_optForEach_push by auto 6 with framed.
  destruct (arrayOrUndefined (t !! "RequiredSkills")); [|reflexivity].
  rewrite ending_bind by auto 6 with framed.
  destruct (t !! "PreferredPhases") as [[q|l]|]; simpl; try reflexivity.
  apply ending_when_pushError.
Qed.

Lemma ending_skillCoverage skills s : ending (skillCoverage skills s) = Ok tt.
Proof. apply ending_when_pushError. Qed.

(** *** What each iteration emits *)

Lemma emitted_when_pushError b e :
  emitted (when b (pushError e))
  = {| allErrors := if b then [e] else []; allSuggestions := [] |}.
Proof. now destruct b. Qed.

Lemma emitted_optForEach_push v (c : prim -> bool) (e : prim -> ValidationError) :
  arrayOrUndefined v = true ->
  emitted (optForEach v (fun x => when (c x) (pushError (e x))))
  = {| allErrors := flat_map (fun x => if c x then [e x] else []) (Value.elements v);
       allSuggestions := [] |}.
Proof.
  destruct v as [[q|l]|]; simpl; try discriminate; intros _; [|reflexivity].
  destruct (forEach_returns l (fun x => when (c x) (pushError (e x)))) as (_ & H1 & H2).
  - auto with framed.
  - apply Forall_forall. intros x _. apply ending_when_pushError.
  - unfold emittedErrors, emittedSuggestions in *.
    destruct (emitted _) as [es ss]; simpl in *. subst. f_equal.
    + apply flat_map_ext. intros x. now rewrite emitted_when_pushError.
    + induction l as [|x l IH]; simpl; [reflexivity|].
      now rewrite emitted_when_pushError.
Qed.

Lemma emitted_validateClient J ids c :
  arrayOrUndefined (c !! "RequestedTaskIDs") = true ->
  emitted (validateClient J ids c) =
    {| allErrors :=
         (if Value.truthy (c !! "PriorityLevel")
             && (Value.lt (c !! "PriorityLevel") 1 || Value.gt (c !! "PriorityLevel") 5)
          then [Err.priorityLevel c] else [])
         ++ (if Value.truthy (c !! "AttributesJSON")
                && negb (J (Value.toString (c !! "AttributesJSON")))
             then [Err.attributesJSON c] else [])
         ++ flat_map (fun tid => if negb (JSSet.has ids (Some (Prim tid)))
                                 then [Err.unknownTask c tid] else [])
                     (Value.elements (c !! "RequestedTaskIDs"));
       allSuggestions :=
         if Value.strictEq (c !! "PriorityLevel") 1
            && (5 <? default 0 (Value.length (c !! "RequestedTaskIDs")))%nat
         then [Err.manyTasks c] else [] |}.
Proof.
  intros Hs. unfold validateClient.
  rewrite emitted_bind, ending_when_pushError, emitted_when_pushError by auto 6 with framed.
  rewrite emitted_bind by auto 6 with framed.
  assert (Hj : forall b v e,
    ending (when b (tryCatch (JSONparse J v) (pushError e))) = Ok tt
    /\ emitted (when b (tryCatch (JSONparse J v) (pushError e)))
       = {| allErrors := if b && negb (J (Value.toString v)) then [e] else [];
            allSuggestions := [] |}).
  { intros b v e. destruct b; [|now split].
    unfold ending, emitted, when, tryCatch, JSONparse. now destruct (J _). }
  destruct (Hj (Value.truthy (c !! "AttributesJSON")) (c !! "AttributesJSON")
              (Err.attributesJSON c)) as [-> ->].
  rewrite emitted_bind, ending_optForEach_push, Hs by auto 6 with framed.
  rewrite emitted_optForEach_push by assumption.
  unfold appAcc; simpl. f_equal.
  - destruct (Value.strictEq _ _ && _); simpl; now rewrite ?app_nil_r.
  - now destruct (Value.strictEq _ _ && _).
Qed.

Lemma emitted_validateWorker w :
  arrayOrUndefined (w !! "AvailableSlots") = true ->
  emitted (validateWorker w) =
    {| allErrors :=
         (if Value.truthy (w !! "MaxLoadPerPhase") && Value.lt (w !! "MaxLoadPerPhase") 0
          then [Err.maxLoadPerPhase w] else [])
         ++ (if Value.truthy (w !! "MaxConcurrent") && Value.lt (w !! "MaxConcurrent") 1
             then [Err.maxConcurrent w] else [])
         ++ (if existsb (fun s => isNaN (Value.primToNumber s))
                        (Value.elements (w !! "AvailableSlots"))
             then [Err.availableSlots w] else []);
       allSuggestions := [] |}.
Proof.
  intros Hs. unfold validateWorker.
  rewrite emitted_bind, ending_when_pushError, emitted_when_pushError by auto 6 with framed.
  rewrite emitted_bind, ending_when_pushError, emitted_when_pushError by auto 6 with framed.
  rewrite emitted_bind by auto 6 with framed.
  destruct (w !! "AvailableSlots") as [[q|l]|]; try discriminate; simpl.
  - rewrite emitted_when_pushError. reflexivity.
  - unfold appAcc; simpl. now rewrite !app_nil_r.
Qed.

Lemma emitted_validateTask skills t :
  arrayOrUndefined (t !! "RequiredSkills") = true ->
  arrayOrUndefined (t !! "PreferredPhases") = true ->
  emitted (validateTask skills t) =
    {| allErrors :=
         (if Value.truthy (t !! "Duration") && Value.lt (t !! "Duration") 1
          then [Err.duration t] else [])
         ++ flat_map (fun skill => if negb (JSSet.has skills (Some (Prim skill)))
                                   then [Err.requiredSkill t skill] else [])
                     (Value.elements (t !! "RequiredSkills"))
         ++ (if existsb (fun p => Value.isString p && negb (isRange (Value.primToString p)))
                        (Value.elements (t !! "PreferredPhases"))
             then [Err.preferredPhases t] else []);
       allSuggestions := [] |}.
Proof.
  intros Hs Hp. unfold validateTask.
  rewrite emitted_bind, ending_when_pushError, emitted_when_pushError by auto 6 with framed.
  rewrite emitted_bind, ending_optForEach_push, Hs by auto 6 with framed.
  rewrite emitted_optForEach_push by assumption.
  rewrite emitted_bind by auto 6 with framed.
  destruct (t !! "PreferredPhases") as [[q|l]|]; try discriminate; simpl.
  - rewrite emitted_when_pushError. reflexivity.
  - unfold appAcc; simpl. now rewrite !app_nil_r.
Qed.

Lemma emitted_skillCoverage skills s :
  emitted (skillCoverage skills s)
  = {| allErrors := if negb (JSSet.has skills s) then [Err.skillCoverage s] else [];
       allSuggestions := [] |}.
Proof. apply emitted_when_pushError. Qed.

(** *** The run as a whole *)

Lemma seq_returns (m k : M unit) :
  framed m -> framed k -> ending m = Ok tt -> ending k = Ok tt ->
  ending (bind m (fun _ => k)) = Ok tt
  /\ emittedErrors (bind m (fun _ => k)) = emittedErrors m ++ emittedErrors k
  /\ emittedSuggestions (bind m (fun _ => k)) = emittedSuggestions m ++ emittedSuggestions k.
Proof.
  intros Hm Hk Em Ek. unfold emittedErrors, emittedSuggestions.
  rewrite ending_bind, emitted_bind, Em by auto. now split.
Qed.

Tactic Notation "seq_returns" constr(Em) constr(Ek)
    "as" ident(H) ident(He) ident(Hs) :=
  lazymatch type of Em with
  | ending ?m = _ =>
      lazymatch type of Ek with
      | ending ?k = _ =>
          assert (H := seq_returns m k ltac:(auto 12 with framed)
                         ltac:(auto 12 with framed) Em Ek);
          destruct H as (H & He & Hs)
      end
  end.

Lemma seq_throws (m k : M unit) :
  framed m -> framed k ->
  (exists e, ending m = Throw e) \/ (exists e, ending k = Throw e) ->
  exists e, ending (bind m (fun _ => k)) = Throw e.
Proof.
  intros Hm Hk H. rewrite ending_bind by auto.
  destruct H as [[e He]|H]; [rewrite He; eauto|].
  destruct (ending_unit m) as [->|[e ->]]; eauto.
Qed.

Lemma flat_map_nil {A B} (f : A -> list B) l :
  (forall x, In x l -> f x = []) -> flat_map f l = [].
Proof.
  induction l as [|x l IH]; simpl; intros H; [reflexivity|].
  rewrite (H x), IH by auto. reflexivity.
Qed.

Lemma wellShaped_spec p :
  wellShaped p = true <->
    Forall (fun c : doc => arrayOrUndefined (c !! "RequestedTaskIDs") = true) (clients p)
    /\ Forall (fun w : doc => arrayOrUndefined (w !! "AvailableSlots") = true) (workers p)
    /\ Forall (fun t : doc => arrayOrUndefined (t !! "RequiredSkills") = true
                              /\ arrayOrUndefined (t !! "PreferredPhases") = true) (tasks p).
Proof.
  unfold wellShaped. rewrite !andb_true_iff, !forallb_forall, !List.Forall_forall.
  split.
  - intros [[Hc Hw] Ht]. split; [|split]; auto.
    intros t Hin. apply andb_true_iff. now apply Ht.
  - intros (Hc & Hw & Ht). repeat split; auto.
    intros t Hin. apply andb_true_iff. now apply Ht.
Qed.

Lemma validationPasses_wellShaped J p :
  wellShaped p = true ->
  ending (validationPasses J p) = Ok tt
  /\ emittedErrors (validationPasses J p) = passErrors J p
  /\ emittedSuggestions (validationPasses J p) = passSuggestions J p.
Proof.
  intros Hp. apply wellShaped_spec in Hp as (Hc & Hw & Ht).
  assert (Ec : Forall (fun c => ending (validateClient J (allTaskIds p) c) = Ok tt) (clients p)).
  { eapply List.Forall_impl; [|exact Hc]. intros c H. now rewrite ending_validateClient, H. }
  assert (Ew : Forall (fun w => ending (validateWorker w) = Ok tt) (workers p)).
  { eapply List.Forall_impl; [|exact Hw]. intros w H. now rewrite ending_validateWorker, H. }
  assert (Et : Forall (fun t => ending (validateTask (allWorkerSkills p) t) = Ok tt) (tasks p)).
  { eapply List.Forall_impl; [|exact Ht]. intros t [H1 H2]. now rewrite ending_validateTask, H1, H2. }
  assert (Es : Forall (fun s => ending (skillCoverage (allWorkerSkills p) s) = Ok tt)
                      (allRequiredSkills p)).
  { apply List.Forall_forall. intros s _. apply ending_skillCoverage. }
  apply forEach_returns in Ec as (Ec1 & Ec2 & Ec3); [|auto with framed].
  apply forEach_returns in Ew as (Ew1 & Ew2 & Ew3); [|auto with framed].
  apply forEach_returns in Et as (Et1 & Et2 & Et3); [|auto with framed].
  apply forEach_returns in Es as (Es1 & Es2 & Es3); [|auto with framed].
  destruct (checkDuplicates_emitted "ClientID" EntityType.clients (clients p)) as (D1 & _ & D1s).
  destruct (checkDuplicates_emitted "WorkerID" EntityType.workers (workers p)) as (D2 & _ & D2s).
  destruct (checkDuplicates_emitted "TaskID" EntityType.tasks (tasks p)) as (D3 & _ & D3s).
  unfold validationPasses, passErrors, passSuggestions.
  rewrite <- Ec2, <- Ew2, <- Et2, <- Es2, <- Ec3.
  assert (Ws : emittedSuggestions (forEach (workers p) validateWorker) = []).
  { rewrite Ew3. apply flat_map_nil. intros w Hin.
    rewrite List.Forall_forall in Hw. unfold emittedSuggestions.
    now rewrite emitted_validateWorker by auto. }
  assert (Ts : emittedSuggestions (forEach (tasks p) (validateTask (allWorkerSkills p))) = []).
  { rewrite Et3. apply flat_map_nil. intros t Hin.
    rewrite List.Forall_forall in Ht. destruct (Ht t Hin). unfold emittedSuggestions.
    now rewrite emitted_validateTask by auto. }
  assert (Ss : emittedSuggestions
                 (forEach (allRequiredSkills p) (skillCoverage (allWorkerSkills p))) = []).
  { rewrite Es3. apply flat_map_nil. intros s _. unfold emittedSuggestions.
    now rewrite emitted_skillCoverage. }
  seq_returns Et1 Es1 as S6 S6e S6s.
  seq_returns Ew1 S6 as S5 S5e S5s.
  seq_returns Ec1 S5 as S4 S4e S4s.
  seq_returns D3 S4 as S3 S3e S3s.
  seq_returns D2 S3 as S2 S2e S2s.
  seq_returns D1 S2 as S1 S1e S1s.
  split; [exact S1|]. split.
  - rewrite S1e, S2e, S3e, S4e, S5e, S6e. reflexivity.
  - rewrite S1s, S2s, S3s, S4s, S5s, S6s, D1s, D2s, D3s, Ws, Ts, Ss. simpl.
    now rewrite app_nil_r.
Qed.

Lemma forallb_false_Exists {A} (f : A -> bool) l :
  forallb f l = false -> Exists (fun x => f x = false) l.
Proof.
  induction l as [|x l IH]; simpl; [discriminate|].
  destruct (f x) eqn:Hx; simpl; intros H.
  - apply Exists_cons_tl. auto.
  - now apply Exists_cons_hd.
Qed.

Lemma validationPasses_illShaped J p :
  wellShaped p = false -> exists e, ending (validationPasses J p) = Throw e.
Proof.
  intros Hp. unfold validationPasses.
  do 3 (apply seq_throws; [auto with framed | auto 12 with framed | right]).
  unfold wellShaped in Hp. apply andb_false_iff in Hp as [Hp|Ht].
  - apply andb_false_iff in Hp as [Hc|Hw].
    + apply seq_throws; [auto with framed | auto 12 with framed | left].
      apply forEach_throws; [auto with framed|].
      apply forallb_false_Exists in Hc.
      eapply List.Exists_impl; [|exact Hc]. simpl. intros c H.
      rewrite ending_validateClient, H. eauto.
    + apply seq_throws; [auto with framed | auto 12 with framed | right].
      apply seq_throws; [auto with framed | auto 12 with framed | left].
      apply forEach_throws; [auto with framed|].
      apply forallb_false_Exists in Hw.
      eapply List.Exists_impl; [|exact Hw]. simpl. intros w H.
      rewrite ending_validateWorker, H. eauto.
  - do 2 (apply seq_throws; [auto with framed | auto 12 with framed | right]).
    apply seq_throws; [auto with framed | auto 12 with framed | left].
    apply forEach_throws; [auto with framed|].
    apply forallb_false_Exists in Ht.
    eapply List.Exists_impl; [|exact Ht]. simpl. intros t H.
    rewrite ending_validateTask.
    apply andb_false_iff in H as [->| ->]; [eauto|].
    destruct (arrayOrUndefined (t !! "RequiredSkills")); eauto.
Qed.

(** On a well-shaped store the run returns and publishes the errors and the
    suggestions of the seven passes. *)
Lemma validateAllData_wellShaped J p st :
  wellShaped p = true ->
  validateAllData J p st
  = (Ok tt, {| errors := passErrors J p; aiSuggestions := passSuggestions J p |}).
Proof.
  intros Hp. destruct (validationPasses_wellShaped J p Hp) as (H1 & H2 & H3).
  unfold validateAllData. fold emptyAcc.
  unfold ending, emittedErrors, emittedSuggestions, emitted in *.
  destruct (validationPasses J p emptyAcc) as [o a]; simpl in *. subst o.
  now rewrite H2, H3.
Qed.

(** On any other store the run throws and the component keeps its state. *)
Lemma validateAllData_illShaped J p st :
  wellShaped p = false -> exists e, validateAllData J p st = (Throw e, st).
Proof.
  intros Hp. destruct (validationPasses_illShaped J p Hp) as [e He].
  unfold validateAllData. fold emptyAcc. unfold ending in He.
  destruct (validationPasses J p emptyAcc) as [o a]; simpl in *. subst. eauto.
Qed.


(** *** The fields that the passes after the scan write *)

Lemma Forall_if {A} (P : A -> Prop) (b : bool) (x : A) :
  P x -> Forall P (if b then [x] else []).
Proof. destruct b; auto. Qed.

Lemma Forall_flat_map_if {A B} (P : B -> Prop) (c : A -> bool) (e : A -> B) l :
  (forall x, P (e x)) -> Forall P (flat_map (fun x => if c x then [e x] else []) l).
Proof.
  intros H. induction l as [|x l IH]; simpl; [constructor|].
  apply Forall_app. split; [apply Forall_if; auto | assumption].
Qed.

Ltac not_id_field :=
  unfold notIdField, idFields; simpl;
  intros H; repeat (destruct H as [H|H]; [discriminate H|]); exact H.

Lemma notIdField_validateClient J ids c :
  arrayOrUndefined (c !! "RequestedTaskIDs") = true ->
  Forall notIdField (emittedErrors (validateClient J ids c)).
Proof.
  intros Hs. unfold emittedErrors. rewrite emitted_validateClient by assumption. simpl.
  repeat (apply Forall_app; split);
    [apply Forall_if | apply Forall_if | apply Forall_flat_map_if; intros tid]; not_id_field.
Qed.

Lemma notIdField_validateWorker w :
  arrayOrUndefined (w !! "AvailableSlots") = true ->
  Forall notIdField (emittedErrors (validateWorker w)).
Proof.
  intros Hs. unfold emittedErrors. rewrite emitted_validateWorker by assumption. simpl.
  repeat (apply Forall_app; split); apply Forall_if; not_id_field.
Qed.

Lemma notIdField_validateTask skills t :
  arrayOrUndefined (t !! "RequiredSkills") = true ->
  arrayOrUndefined (t !! "PreferredPhases") = true ->
  Forall notIdField (emittedErrors (validateTask skills t)).
Proof.
  intros Hs Hp. unfold emittedErrors. rewrite emitted_validateTask by assumption. simpl.
  repeat (apply Forall_app; split);
    [apply Forall_if | apply Forall_flat_map_if; intros s | apply Forall_if]; not_id_field.
Qed.

Lemma notIdField_skillCoverage skills s :
  Forall notIdField (emittedErrors (skillCoverage skills s)).
Proof.
  unfold emittedErrors. rewrite emitted_skillCoverage. simpl. apply Forall_if. not_id_field.
Qed.

Lemma Forall_flat_map_in {A B} (P : B -> Prop) (f : A -> list B) l :
  (forall x, In x l -> Forall P (f x)) -> Forall P (flat_map f l).
Proof.
  induction l as [|x l IH]; simpl; intros H; [constructor|].
  apply Forall_app. split; auto.
Qed.

Lemma notIdField_laterErrors J p :
  wellShaped p = true -> Forall notIdField (laterErrors J p).
Proof.
  intros Hp. apply wellShaped_spec in Hp as (Hc & Hw & Ht).
  rewrite List.Forall_forall in Hc, Hw, Ht. unfold laterErrors.
  repeat (apply Forall_app; split); apply Forall_flat_map_in.
  - intros c Hin. apply notIdField_validateClient. auto.
  - intros w Hin. apply notIdField_validateWorker. auto.
  - intros t Hin. destruct (Ht t Hin). now apply notIdField_validateTask.
  - intros s _. apply notIdField_skillCoverage.
Qed.

(** ** The scan for duplicates *)

(** C1.  On a store whose list-typed properties are arrays or absent,
    [validateAllData] returns, and its errors start with the scan of the
    clients, then of the workers, then of the tasks; no later pass writes an
    error on a domain-id field.  In each scan, in store order, the item that
    follows [pre] adds exactly this to the errors of [pre]: the one error of
    message "Required ID is missing." when its domain id is missing or empty
    (falsy), whatever [pre] holds; nothing when its id is not the id of an
    item of [pre] (a first occurrence); and the one error of message
    "Duplicate ID found: <id>." when it is (a second or later occurrence).
    Both errors carry the collection and, as field, the name of the domain
    id; the first carries the document id of the item, the second the
    duplicated id; neither has a suggestion or a row. *)
Theorem C1_duplicate_scan (J : string -> bool) (p : DataTabProps) (st : DataTabState) :
  wellShaped p = true ->
  validateAllData J p st
  = (Ok tt,
     {| errors :=
          emittedErrors (checkDuplicates (clients p) "ClientID" EntityType.clients)
          ++ emittedErrors (checkDuplicates (workers p) "WorkerID" EntityType.workers)
          ++ emittedErrors (checkDuplicates (tasks p) "TaskID" EntityType.tasks)
          ++ laterErrors J p;
        aiSuggestions := passSuggestions J p |})
  /\ Forall notIdField (laterErrors J p)
  /\ forall idKey et pre item suf,
       emittedErrors (checkDuplicates (pre ++ item :: suf) idKey et)
       = emittedErrors (checkDuplicates pre idKey et)
         ++ flagged idKey et (seen idKey [] pre) item
         ++ scan idKey et (seen idKey [] (pre ++ [item])) suf
       /\ flagged idKey et (seen idKey [] pre) item
          = if negb (Value.truthy (item !! idKey))
            then [{| entityType := et; id := item !! "id"; field := idKey;
                     message := "Required ID is missing.";
                     suggestion := None; rowId := None |}]
            else if existsb (fun earlier : doc =>
                               Value.sameValueZero (item !! idKey) (earlier !! idKey)) pre
                 then [{| entityType := et; id := item !! idKey; field := idKey;
                          message := "Duplicate ID found: "
                                     +:+ Value.toString (item !! idKey) +:+ ".";
                          suggestion := None; rowId := None |}]
                 else [].
Proof.
  intros Hp. split; [|split].
  - now rewrite validateAllData_wellShaped.
  - now apply notIdField_laterErrors.
  - intros idKey et pre item suf. split.
    + destruct (checkDuplicates_emitted idKey et (pre ++ item :: suf)) as (_ & -> & _).
      destruct (checkDuplicates_emitted idKey et pre) as (_ & -> & _).
      rewrite scan_app. simpl. f_equal. f_equal.
      unfold seen. rewrite map_app, fold_left_app. reflexivity.
    + rewrite flagged_eq, has_seen. reflexivity.
Qed.

(** ** Sets of texts and numbers *)







(** ** Selecting the errors of one field *)

Lemma filter_if_keep {A} (f : A -> bool) (b : bool) x :
  f x = true -> List.filter f (if b then [x] else []) = if b then [x] else [].
Proof. intros H. destruct b; simpl; [now rewrite H | reflexivity]. Qed.

Lemma filter_if_drop {A} (f : A -> bool) (b : bool) x :
  f x = false -> List.filter f (if b then [x] else []) = [].
Proof. intros H. destruct b; simpl; [now rewrite H | reflexivity]. Qed.

Lemma flat_map_if {A B} (c : A -> bool) (e : A -> B) l :
  flat_map (fun x => if c x then [e x] else []) l = map e (List.filter c l).
Proof.
  induction l as [|x l IH]; simpl; [reflexivity|].
  rewrite IH. now destruct (c x).
Qed.


Lemma filter_map_drop {A B} (f : B -> bool) (e : A -> B) l :
  (forall x, f (e x) = false) -> List.filter f (map e l) = [].
Proof.
  intros H. induction l as [|x l IH]; simpl; [reflexivity|]. now rewrite H, IH.
Qed.

(** A segment of a concatenation of per-item lists. *)
Lemma flat_map_split {A B} (f : A -> list B) pre x suf :
  flat_map f (pre ++ x :: suf) = flat_map f pre ++ f x ++ flat_map f suf.
Proof. rewrite flat_map_app. reflexivity. Qed.

(** ** Skill coverage *)


(** ** Determinism *)

(** C4.  [validateAllData] is a function of the store alone: how it ends does
    not depend on what the component held, the errors and the suggestions it
    publishes do not either, in content or in order, and a second run on the
    unchanged store leaves the component exactly as the first run left it. *)
Theorem C4_validate_deterministic (J : string -> bool) (p : DataTabProps)
    (st st' : DataTabState) :
  fst (validateAllData J p st) = fst (validateAllData J p st')
  /\ (fst (validateAllData J p st) = Ok tt ->
      errors (snd (validateAllData J p st)) = errors (snd (validateAllData J p st'))
      /\ aiSuggestions (snd (validateAllData J p st))
         = aiSuggestions (snd (validateAllData J p st')))
  /\ validateAllData J p (snd (validateAllData J p st)) = validateAllData J p st.
Proof.
  unfold validateAllData.
  destruct (validationPasses J p _) as [[[]|e] a]; simpl.
  - repeat split; reflexivity.
  - repeat split; try reflexivity; discriminate.
Qed.

(** In the later revision the errors are the same function of the store;
    the suggestions are the lines of the reply of the external service. *)
Lemma Rev2_validateAllData_errors J reply reply' p st st' :
  fst (fst (Rev2.validateAllData J reply p st)) = Ok tt ->
  errors (snd (fst (Rev2.validateAllData J reply p st)))
  = errors (snd (fst (Rev2.validateAllData J reply' p st')))
  /\ aiSuggestions (snd (fst (Rev2.validateAllData J reply p st)))
     = allSuggestions (emitted (Rev2.validationPasses J p))
       ++ fst (Rev2.geminiSuggestions reply p).
Proof.
  unfold Rev2.validateAllData, emitted. fold emptyAcc.
  destruct (Rev2.validationPasses J p emptyAcc) as [[[]|e] a]; simpl; [|discriminate].
  intros _. destruct (Rev2.geminiSuggestions reply p), (Rev2.geminiSuggestions reply' p).
  now split.
Qed.

(** ** Available slots *)

Lemma validateWorker_segment J p st pre w suf :
  wellShaped p = true ->
  workers p = pre ++ w :: suf ->
  arrayOrUndefined (w !! "AvailableSlots") = true
  /\ exists before after,
       validateAllData J p st
       = (Ok tt, {| errors := before ++ emittedErrors (validateWorker w) ++ after;
                    aiSuggestions := passSuggestions J p |}).
Proof.
  intros Hp Hw. split.
  - apply wellShaped_spec in Hp as (_ & Hws & _). rewrite List.Forall_forall in Hws.
    apply Hws. rewrite Hw. apply in_elt.
  - rewrite validateAllData_wellShaped by assumption. unfold passErrors.
    rewrite Hw. rewrite flat_map_split.
    exists (emittedErrors (checkDuplicates (clients p) "ClientID" EntityType.clients)
            ++ emittedErrors (checkDuplicates (pre ++ w :: suf) "WorkerID" EntityType.workers)
            ++ emittedErrors (checkDuplicates (tasks p) "TaskID" EntityType.tasks)
            ++ flat_map (fun c => emittedErrors (validateClient J (allTaskIds p) c))
                        (clients p)
            ++ flat_map (fun w0 => emittedErrors (validateWorker w0)) pre).
    exists (flat_map (fun w0 => emittedErrors (validateWorker w0)) suf
            ++ flat_map (fun t => emittedErrors (validateTask (allWorkerSkills p) t)) (tasks p)
            ++ flat_map (fun s => emittedErrors (skillCoverage (allWorkerSkills p) s))
                        (allRequiredSkills p)).
    rewrite <- !app_assoc. reflexivity.
Qed.

Lemma availableSlots_errors w l :
  w !! "AvailableSlots" = Some (Arr l) ->
  List.filter (hasField "AvailableSlots") (emittedErrors (validateWorker w))
  = if existsb (fun s => isNaN (Value.primToNumber s)) l then [Err.availableSlots w] else [].
Proof.
  intros Hl. unfold emittedErrors. rewrite emitted_validateWorker by now rewrite Hl.
  simpl. rewrite Hl. simpl.
  rewrite !List.filter_app, filter_if_drop, filter_if_drop, filter_if_keep by reflexivity.
  reflexivity.
Qed.

(** C5.  On a store whose list-typed properties are arrays or absent,
    [validateAllData] returns; for a worker [w] of the store whose
    AvailableSlots is the array [l] with an element that [Number] turns into
    [NaN], what the worker pass pushes for [w] is a segment of the errors and
    holds one AvailableSlots error, whose suggestion is the elements of [l],
    each with its characters other than digits removed, joined with ", ". *)
Theorem C5_availableSlots_suggestion (J : string -> bool) (p : DataTabProps)
    (st : DataTabState) (pre suf : list doc) (w : doc) (l : list prim) :
  wellShaped p = true ->
  workers p = pre ++ w :: suf ->
  w !! "AvailableSlots" = Some (Arr l) ->
  existsb (fun s => isNaN (Value.primToNumber s)) l = true ->
  (exists before after,
     validateAllData J p st
     = (Ok tt, {| errors := before ++ emittedErrors (validateWorker w) ++ after;
                  aiSuggestions := passSuggestions J p |}))
  /\ List.filter (hasField "AvailableSlots") (emittedErrors (validateWorker w))
     = [Err.availableSlots w]
  /\ message (Err.availableSlots w) = "Contains non-numeric values."
  /\ suggestion (Err.availableSlots w)
     = Some (join ", " (map (fun s => stripNonDigits (Value.primToString s)) l)).
Proof.
  intros Hp Hw Hl Hn. split; [|split; [|split]].
  - now apply (validateWorker_segment J p st pre w suf).
  - now rewrite (availableSlots_errors w l), Hn.
  - reflexivity.
  - unfold Err.availableSlots. simpl. now rewrite Hl.
Qed.


(** ** Range checks *)

Lemma signed_abs z : (if z <? 0 then - Z.of_N (Z.abs_N z) else Z.of_N (Z.abs_N z)) = z.
Proof. rewrite N2Z.inj_abs_N. destruct (Z.ltb_spec z 0); lia. Qed.

Lemma lt_number z k : Value.lt (Some (Prim (PNum (Int z)))) k = (z <? k).
Proof.
  unfold Value.lt, Value.toNumber, Value.primToNumber, numberValue, ltZ. simpl.
  now rewrite signed_abs, Z.mul_1_r.
Qed.

Lemma gt_number z k : Value.gt (Some (Prim (PNum (Int z)))) k = (k <? z).
Proof.
  unfold Value.gt, Value.toNumber, Value.primToNumber, numberValue, gtZ. simpl.
  now rewrite signed_abs, Z.mul_1_r.
Qed.

(** The PriorityLevel errors of a client whose PriorityLevel is the number
    [z]: one error when [z] is outside 1..5 and is not [0], none otherwise. *)
Lemma priorityLevel_errors J ids (c : doc) z :
  arrayOrUndefined (c !! "RequestedTaskIDs") = true ->
  c !! "PriorityLevel" = Some (Prim (PNum (Int z))) ->
  List.filter (hasField "PriorityLevel") (emittedErrors (validateClient J ids c))
  = if negb (z =? 0) && ((z <? 1) || (5 <? z)) then [Err.priorityLevel c] else [].
Proof.
  intros Hs Hz. unfold emittedErrors. rewrite emitted_validateClient by assumption. simpl.
  rewrite !List.filter_app, filter_if_keep, filter_if_drop by reflexivity.
  rewrite flat_map_if, filter_map_drop by reflexivity.
  rewrite Hz, lt_number, gt_number. simpl. now rewrite app_nil_r.
Qed.

(** C2, at [PriorityLevel = 0].  The guard of line 78 reads the number [0] as
    an absent value: a client whose PriorityLevel is the number [0] gets no
    error at all, where one PriorityLevel error is expected.  The values [6]
    and [-1] get their one error and [3] gets none; and the text "0", which
    is what the cell editor stores for [0], is flagged as well. *)
Theorem C2_priorityLevel_zero_passes (J : string -> bool) (st : DataTabState) :
  validateAllData J (Sample.store [Sample.client "i1" "C1" 0] [] []) st
  = (Ok tt, {| errors := []; aiSuggestions := [] |})
  /\ validateAllData J (Sample.store [Sample.client "i1" "C1" 6] [] []) st
     = (Ok tt, {| errors := [Err.priorityLevel (Sample.client "i1" "C1" 6)];
                  aiSuggestions := [] |})
  /\ validateAllData J (Sample.store [Sample.client "i1" "C1" (-1)] [] []) st
     = (Ok tt, {| errors := [Err.priorityLevel (Sample.client "i1" "C1" (-1))];
                  aiSuggestions := [] |})
  /\ validateAllData J (Sample.store [Sample.client "i1" "C1" 3] [] []) st
     = (Ok tt, {| errors := []; aiSuggestions := [] |})
  /\ itemToUpdate (Sample.client "i1" "C1" 3) "PriorityLevel" (Sample.text "0")
     = <["PriorityLevel" := Sample.text "0"]> (Sample.client "i1" "C1" 3)
  /\ validateAllData J
       (Sample.store [<["PriorityLevel" := Sample.text "0"]> (Sample.client "i1" "C1" 3)] [] [])
       st
     = (Ok tt,
        {| errors := [Err.priorityLevel
                        (<["PriorityLevel" := Sample.text "0"]> (Sample.client "i1" "C1" 3))];
           aiSuggestions := [] |}).
Proof. repeat split; vm_compute; reflexivity. Qed.

(** The MaxLoadPerPhase and MaxConcurrent errors of a worker whose two
    properties are numbers: [MaxLoadPerPhase < 0] is flagged; a
    [MaxConcurrent] below 1 is flagged unless it is [0]. *)
Lemma maxLoadPerPhase_errors (w : doc) z :
  arrayOrUndefined (w !! "AvailableSlots") = true ->
  w !! "MaxLoadPerPhase" = Some (Prim (PNum (Int z))) ->
  List.filter (hasField "MaxLoadPerPhase") (emittedErrors (validateWorker w))
  = if z <? 0 then [Err.maxLoadPerPhase w] else [].
Proof.
  intros Hs Hz. unfold emittedErrors. rewrite emitted_validateWorker by assumption. simpl.
  rewrite !List.filter_app, filter_if_keep, filter_if_drop, filter_if_drop by reflexivity.
  rewrite Hz, lt_number. simpl. rewrite app_nil_r.
  destruct (Z.eqb_spec z 0) as [->|]; [reflexivity|]. reflexivity.
Qed.

Lemma maxConcurrent_errors (w : doc) z :
  arrayOrUndefined (w !! "AvailableSlots") = true ->
  w !! "MaxConcurrent" = Some (Prim (PNum (Int z))) ->
  List.filter (hasField "MaxConcurrent") (emittedErrors (validateWorker w))
  = if negb (z =? 0) && (z <? 1) then [Err.maxConcurrent w] else [].
Proof.
  intros Hs Hz. unfold emittedErrors. rewrite emitted_validateWorker by assumption. simpl.
  rewrite !List.filter_app, filter_if_drop, filter_if_keep, filter_if_drop by reflexivity.
  rewrite Hz, lt_number. simpl. now rewrite app_nil_r.
Qed.

(** C6, at [MaxConcurrent = 0].  The guard of line 112 reads the number [0]
    as an absent value: a worker whose MaxConcurrent is the number [0] gets
    no error at all, where a MaxConcurrent error is expected.  A negative
    MaxConcurrent gets its error, and so does the text "0", which is what
    the cell editor stores for [0]. *)
Theorem C6_maxConcurrent_zero_passes (J : string -> bool) (st : DataTabState) :
  validateAllData J (Sample.store [] [Sample.worker "i1" "W1" ["1"; "2"] 0] []) st
  = (Ok tt, {| errors := []; aiSuggestions := [] |})
  /\ validateAllData J (Sample.store [] [Sample.worker "i1" "W1" ["1"; "2"] (-1)] []) st
     = (Ok tt, {| errors := [Err.maxConcurrent (Sample.worker "i1" "W1" ["1"; "2"] (-1))];
                  aiSuggestions := [] |})
  /\ itemToUpdate (Sample.worker "i1" "W1" ["1"; "2"] 1) "MaxConcurrent" (Sample.text "0")
     = <["MaxConcurrent" := Sample.text "0"]> (Sample.worker "i1" "W1" ["1"; "2"] 1)
  /\ validateAllData J
       (Sample.store []
          [<["MaxConcurrent" := Sample.text "0"]> (Sample.worker "i1" "W1" ["1"; "2"] 1)] [])
       st
     = (Ok tt,
        {| errors := [Err.maxConcurrent
                        (<["MaxConcurrent" := Sample.text "0"]>
                           (Sample.worker "i1" "W1" ["1"; "2"] 1))];
           aiSuggestions := [] |}).
Proof. repeat split; vm_compute; reflexivity. Qed.

(** ** Returning and throwing *)

(** [validateAllData] returns exactly on the stores whose iterated
    properties are arrays or absent. *)
Lemma validateAllData_returns_iff J p st :
  fst (validateAllData J p st) = Ok tt <-> wellShaped p = true.
Proof.
  split.
  - intros H. destruct (wellShaped p) eqn:Hp; [reflexivity|].
    destruct (validateAllData_illShaped J p st Hp) as [e He].
    rewrite He in H. discriminate.
  - intros Hp. now rewrite validateAllData_wellShaped.
Qed.


(** Empty collections: no error, no suggestion. *)
Lemma validateAllData_empty J st :
  validateAllData J {| clients := []; workers := []; tasks := [] |} st
  = (Ok tt, {| errors := []; aiSuggestions := [] |}).
Proof. reflexivity. Qed.

(** C7, on a store with a list-typed property held as a text.  The store
    [good] validates without error.  The cell editor of lines 224-238, on an
    edit of its RequestedTaskIDs cell, stores the text of the pieces: the
    store [bad]; the cell editor of lines 560-580 keeps that text a text.  On
    [bad], [forEach] is not a function of a text: [validateAllData] throws a
    TypeError and the component keeps the state it had, where a result is
    expected for every store. *)
Theorem C7_validate_throws_on_text (J : string -> bool) (st : DataTabState) :
  let good := Sample.store [Sample.requesting (Arr [PStr "T1"])] []
                           [Sample.task "i2" "T1" []] in
  let bad := Sample.store [Sample.requesting (Sample.text "T1")] []
                          [Sample.task "i2" "T1" []] in
  validateAllData J good st = (Ok tt, {| errors := []; aiSuggestions := [] |})
  /\ Rev1.handleUpdateCell good 0 "RequestedTaskIDs" (Sample.text "T1") EntityType.clients
     = (Ok tt, bad)
  /\ handleUpdateCell bad 0 "RequestedTaskIDs" (Sample.text "T1") EntityType.clients
     = (Ok tt, bad)
  /\ validateAllData J bad st = (Throw (TypeError "forEach is not a function"), st).
Proof. repeat split; vm_compute; reflexivity. Qed.

(** ** The translated rule *)

(** C8.  [handleNaturalLanguageConvert] of part_003, given the candidate [j]
    that the translator returned: either [j] has a [type] and a [params]
    (both truthy), the rule [{id, type, params}] is appended and the success
    is shown; or the registry is left as it was and a failure is shown.  When
    [type] or [params] is missing the second case applies, with the failure
    "Invalid rule format from AI"; the registry changes only when both are
    present.  In the earlier revision (part_002) the translator is the
    function of the file, whose candidates always have both, and the rule is
    always appended. *)
Theorem C8_translated_rule_shape (translate : string -> outcome Rules.json)
    (newId : string) (rules : list Rules.json) (st : Rules.RulesTabState)
    (j : Rules.json) :
  nonEmpty (trim (Rules.naturalLanguageRule st)) = true ->
  translate (Rules.naturalLanguageRule st) = Ok j ->
  let r := Rules.handleNaturalLanguageConvert translate newId rules st in
  ((exists type params,
      Rules.get j "type" = Ok (Some type) /\ Rules.get j "params" = Ok (Some params)
      /\ Rules.truthy (Some type) = true /\ Rules.truthy (Some params) = true
      /\ r = (rules ++ [Rules.rule newId type params],
              {| Rules.naturalLanguageRule := ""; Rules.isConverting := false |},
              ToastSuccess "Rule successfully generated"))
   \/ (fst (fst r) = rules
       /\ exists msg, snd r = ToastError ("Failed to generate rule: " +:+ msg)))
  /\ (Rules.get j "type" = Ok None \/ Rules.get j "params" = Ok None ->
      fst (fst r) = rules
      /\ snd r = ToastError "Failed to generate rule: Invalid rule format from AI")
  /\ (fst (fst r) <> rules ->
      exists type params,
        Rules.get j "type" = Ok (Some type) /\ Rules.get j "params" = Ok (Some params))
  /\ (forall rules1 st1, nonEmpty (Rules.naturalLanguageRule st1) = true ->
      exists type params,
        Rules.truthy (Some type) = true /\ Rules.truthy (Some params) = true
        /\ Rules.Rev1.handleNaturalLanguageConvert newId rules1 st1
           = (rules1 ++ [Rules.rule newId type params],
              {| Rules.naturalLanguageRule := ""; Rules.isConverting := false |})).
Proof.
  intros Hin Hj r. subst r. unfold Rules.handleNaturalLanguageConvert.
  rewrite Hin, Hj. change (negb true) with false. cbv iota.
  split; [|split; [|split]].
  - destruct (Rules.get j "type") as [[type|]|e] eqn:Gt;
      [|right; simpl; eauto|right; simpl; eauto].
    destruct (Rules.truthy (Some type)) eqn:Tt; [|right; simpl; eauto].
    destruct (Rules.get j "params") as [[params|]|e] eqn:Gp;
      [|right; simpl; eauto|right; simpl; eauto].
    destruct (Rules.truthy (Some params)) eqn:Tp; [|right; simpl; eauto].
    left. exists type, params. repeat split; auto.
  - intros [Ht|Hq].
    + rewrite Ht. simpl. now split.
    + destruct (Rules.get j "type") as [[type|]|e] eqn:Gt.
      * destruct (Rules.truthy (Some type)); [|simpl; now split].
        rewrite Hq. simpl. now split.
      * simpl. now split.
      * destruct j; simpl in Gt, Hq; discriminate.
  - destruct (Rules.get j "type") as [[type|]|e] eqn:Gt; [|simpl; congruence..].
    destruct (Rules.truthy (Some type)); [|simpl; congruence].
    destruct (Rules.get j "params") as [[params|]|e] eqn:Gp; [|simpl; congruence..].
    intros _. eauto.
  - intros rules1 st1 Hne. unfold Rules.Rev1.handleNaturalLanguageConvert.
    rewrite Hne. change (negb true) with false. cbv iota.
    unfold Rules.Rev1.generateRuleFromAI.
    destruct (_ || _); eexists; eexists; repeat split; reflexivity.
Qed.

(** ** The cell editor *)

Lemma numeric_not_list field :
  includes numericFields field = true -> includes listFields field = false.
Proof.
  unfold includes, numericFields. simpl. rewrite !orb_true_iff.
  intros [H|[H|[H|[H|H]]]]; try discriminate; apply String.eqb_eq in H; now subst.
Qed.

(** C9.  The three places that rewrite a field read the new value alike: a
    list-typed value is split on commas, each piece trimmed and the empty
    pieces dropped; a numeric value that [parseInt] cannot read becomes the
    text of [0]; no other field of the item changes; none of them raises,
    and the save that follows fails only when the authentication is not
    ready or the store refuses the write.  They differ in what they store
    for a list-typed field.  The later revision of the cell editor (lines
    560-580) and the fix applier (lines 665-677), which computes the same
    item from the same text, store the pieces as a text joined with ", "
    when the field held a text and as an array otherwise: the representation
    of the field is kept.  The earlier revision of the cell editor (lines
    224-238) stores the pieces as a text joined with ",", whatever the field
    held: a field held as an array becomes a text, where the representation
    is to be kept. *)
Theorem C9_uniform_coercion (item : doc) (field : string) (value : value) :
  let text := Value.toString (Some value) in
  let pieces := List.filter nonEmpty (map trim (split "," text)) in
  (includes listFields field = true ->
     itemToUpdate item field value !! field
     = Some (if isText (item !! field) then Prim (PStr (join ", " pieces))
             else Arr (map PStr pieces))
     /\ isText (itemToUpdate item field value !! field) = isText (item !! field)
     /\ Rev1.itemToUpdate item field value !! field
        = Some (Prim (PStr (join "," pieces)))
     /\ isText (Rev1.itemToUpdate item field value !! field) = true)
  /\ (includes numericFields field = true -> parseInt text = NaN ->
      itemToUpdate item field value !! field = Some (Prim (PStr "0"))
      /\ Rev1.itemToUpdate item field value !! field = Some (Prim (PStr "0")))
  /\ (forall k, k <> field ->
        itemToUpdate item field value !! k = item !! k
        /\ Rev1.itemToUpdate item field value !! k = item !! k)
  /\ (forall s, updatedItem item field s = itemToUpdate item field (Prim (PStr s)))
  /\ (forall p rowIndex entityType,
        dataMap p entityType !! rowIndex = Some item ->
        Value.truthy (item !! "id") = true -> field <> "id" ->
        fst (handleUpdateCell p rowIndex field value entityType) = Ok tt
        /\ fst (Rev1.handleUpdateCell p rowIndex field value entityType) = Ok tt
        /\ forall ready write,
             (fst (saveSingleDocToFirestore ready write p entityType
                     (itemToUpdate item field value)) = Ok tt
              <-> ready = true /\ write = Ok tt)
             /\ (fst (saveSingleDocToFirestore ready write p entityType
                        (Rev1.itemToUpdate item field value)) = Ok tt
                 <-> ready = true /\ write = Ok tt)).
Proof.
  intros text pieces.
  assert (Hother : forall k, k <> field ->
            itemToUpdate item field value !! k = item !! k
            /\ Rev1.itemToUpdate item field value !! k = item !! k).
  { intros k Hk. unfold itemToUpdate, Rev1.itemToUpdate.
    destruct (includes listFields field); [destruct (isText _)|
      destruct (includes numericFields field)]; now rewrite !lookup_insert_ne. }
  split; [|split; [|split; [|split]]].
  - intros Hl. unfold itemToUpdate, Rev1.itemToUpdate. rewrite Hl. fold text. fold pieces.
    unfold splitTrimmed. fold text. fold pieces. rewrite (lookup_insert_eq item).
    destruct (isText (item !! field)) eqn:Ht; rewrite lookup_insert_eq; now repeat split.
  - intros Hn Hp. unfold itemToUpdate, Rev1.itemToUpdate.
    rewrite (numeric_not_list field Hn), Hn. fold text.
    unfold parseIntOr0. rewrite Hp. simpl. now rewrite lookup_insert_eq.
  - exact Hother.
  - intros s. unfold updatedItem, itemToUpdate, splitTrimmed, parseIntOr0.
    change (Value.toString (Some (Prim (PStr s)))) with s.
    assert (Hn : includes ["PriorityLevel"; "MaxLoadPerPhase"; "MaxConcurrent"; "Duration"] field
                 = includes numericFields field).
    { unfold includes, numericFields. simpl.
      destruct (String.eqb field "PriorityLevel"), (String.eqb field "MaxLoadPerPhase"),
        (String.eqb field "MaxConcurrent"), (String.eqb field "Duration"); reflexivity. }
    rewrite Hn. reflexivity.
  - intros p rowIndex entityType Hrow Hid Hf.
    destruct (Hother "id" (not_eq_sym Hf)) as [H2 H1].
    assert (Hsave : forall X : doc, X !! "id" = item !! "id" ->
              fst (saveSingleDoc p entityType X) = Ok tt
              /\ forall ready write,
                   fst (saveSingleDocToFirestore ready write p entityType X) = Ok tt
                   <-> ready = true /\ write = Ok tt).
    { intros X HX.
      assert (Hs : fst (saveSingleDoc p entityType X) = Ok tt)
        by (unfold saveSingleDoc; now rewrite HX, Hid).
      split; [exact Hs|]. intros ready write. unfold saveSingleDocToFirestore.
      rewrite HX, Hid. destruct ready; simpl.
      - destruct write as [[]|e]; simpl.
        + rewrite Hs. tauto.
        + split; [discriminate|]. intros [_ H]. discriminate H.
      - split; [discriminate|]. intros [H _]. discriminate H. }
    unfold handleUpdateCell, Rev1.handleUpdateCell. rewrite Hrow.
    change (default ∅ (Some item)) with item.
    destruct (Hsave _ H2) as [S2 F2]. destruct (Hsave _ H1) as [S1 F1].
    split; [exact S2|]. split; [exact S1|]. intros ready write. split; auto.
Qed.

(** The earlier revision (lines 224-238) stores a list-typed field as the
    text of the pieces joined with ",", whatever the field held. *)
Lemma Rev1_itemToUpdate_list (item : doc) (field : string) (value : value) :
  includes listFields field = true ->
  Rev1.itemToUpdate item field value !! field
  = Some (Prim (PStr (join "," (splitTrimmed (Value.toString (Some value)))))).
Proof. intros Hl. unfold Rev1.itemToUpdate. rewrite Hl. apply lookup_insert_eq. Qed.

(** ** Instances *)

Lemma C1_duplicate_scan_witness :
  wellShaped Sample.scanned = true
  /\ validateAllData JSONText.accepts Sample.scanned Sample.idle
     = (Ok tt,
        {| errors :=
             [{| entityType := EntityType.clients; id := Some (Sample.text "C1");
                 field := "ClientID"; message := "Duplicate ID found: C1.";
                 suggestion := None; rowId := None |};
              {| entityType := EntityType.clients; id := Some (Sample.text "i3");
                 field := "ClientID"; message := "Required ID is missing.";
                 suggestion := None; rowId := None |};
              {| entityType := EntityType.clients; id := Some (Sample.text "i4");
                 field := "ClientID"; message := "Required ID is missing.";
                 suggestion := None; rowId := None |}];
           aiSuggestions := [] |})
  /\ flagged "ClientID" EntityType.clients (seen "ClientID" [] []) (Sample.client "i1" "C1" 3)
     = []
  /\ flagged "ClientID" EntityType.clients
       (seen "ClientID" [] [Sample.client "i1" "C1" 3]) (Sample.client "i2" "C1" 3)
     = [{| entityType := EntityType.clients; id := Some (Sample.text "C1");
           field := "ClientID"; message := "Duplicate ID found: C1.";
           suggestion := None; rowId := None |}]
  /\ flagged "ClientID" EntityType.clients
       (seen "ClientID" [] [Sample.client "i1" "C1" 3; Sample.client "i2" "C1" 3])
       Sample.nameless
     = [{| entityType := EntityType.clients; id := Some (Sample.text "i3");
           field := "ClientID"; message := "Required ID is missing.";
           suggestion := None; rowId := None |}]
  /\ flagged "ClientID" EntityType.clients
       (seen "ClientID" []
          [Sample.client "i1" "C1" 3; Sample.client "i2" "C1" 3; Sample.nameless])
       Sample.blank
     = [{| entityType := EntityType.clients; id := Some (Sample.text "i4");
           field := "ClientID"; message := "Required ID is missing.";
           suggestion := None; rowId := None |}].
Proof.
  destruct (C1_duplicate_scan JSONText.accepts Sample.scanned Sample.idle) as (Hv & _ & Hs);
    [reflexivity|].
  split; [reflexivity|]. split; [rewrite Hv; vm_compute; reflexivity|].
  split; [|split; [|split]].
  - rewrite (proj2 (Hs "ClientID" EntityType.clients [] (Sample.client "i1" "C1" 3) [])).
    reflexivity.
  - rewrite (proj2 (Hs "ClientID" EntityType.clients [Sample.client "i1" "C1" 3]
                       (Sample.client "i2" "C1" 3) [])).
    reflexivity.
  - rewrite (proj2 (Hs "ClientID" EntityType.clients
                       [Sample.client "i1" "C1" 3; Sample.client "i2" "C1" 3]
                       Sample.nameless [])).
    reflexivity.
  - rewrite (proj2 (Hs "ClientID" EntityType.clients
                       [Sample.client "i1" "C1" 3; Sample.client "i2" "C1" 3; Sample.nameless]
                       Sample.blank [])).
    reflexivity.
Defined.


Lemma C4_validate_deterministic_witness :
  fst (validateAllData JSONText.accepts Sample.twins Sample.idle) = Ok tt
  /\ validateAllData JSONText.accepts Sample.twins
       (snd (validateAllData JSONText.accepts Sample.twins Sample.idle))
     = validateAllData JSONText.accepts Sample.twins Sample.idle.
Proof.
  split; [reflexivity|].
  apply (C4_validate_deterministic JSONText.accepts Sample.twins Sample.idle Sample.idle).
Defined.

Lemma C5_availableSlots_suggestion_witness :
  wellShaped (Sample.badSlots ["1"; "x2"; "3"]) = true
  /\ workers (Sample.badSlots ["1"; "x2"; "3"]) = [] ++ Sample.slotsOf ["1"; "x2"; "3"] :: []
  /\ Sample.slotsOf ["1"; "x2"; "3"] !! "AvailableSlots"
     = Some (Arr [PStr "1"; PStr "x2"; PStr "3"])
  /\ existsb (fun s => isNaN (Value.primToNumber s)) [PStr "1"; PStr "x2"; PStr "3"] = true
  /\ List.filter (hasField "AvailableSlots")
       (emittedErrors (validateWorker (Sample.slotsOf ["1"; "x2"; "3"])))
     = [Err.availableSlots (Sample.slotsOf ["1"; "x2"; "3"])]
  /\ suggestion (Err.availableSlots (Sample.slotsOf ["1"; "x2"; "3"])) = Some "1, 2, 3".
Proof.
  destruct (C5_availableSlots_suggestion JSONText.accepts (Sample.badSlots ["1"; "x2"; "3"])
              Sample.idle [] [] (Sample.slotsOf ["1"; "x2"; "3"])
              [PStr "1"; PStr "x2"; PStr "3"])
    as (_ & Hf & _ & Hs); [reflexivity..|].
  do 4 (split; [reflexivity|]). split; [exact Hf|].
  rewrite Hs. reflexivity.
Defined.


Lemma C8_translated_rule_shape_witness :
  nonEmpty (trim (Rules.naturalLanguageRule Sample.typed)) = true
  /\ (fun _ : string => Ok Sample.noParams) (Rules.naturalLanguageRule Sample.typed)
     = Ok Sample.noParams
  /\ Rules.get Sample.noParams "params" = Ok None
  /\ fst (fst (Rules.handleNaturalLanguageConvert (fun _ => Ok Sample.noParams) "id_1" []
                 Sample.typed)) = []
  /\ snd (Rules.handleNaturalLanguageConvert (fun _ => Ok Sample.noParams) "id_1" []
            Sample.typed)
     = ToastError "Failed to generate rule: Invalid rule format from AI".
Proof.
  pose proof (C8_translated_rule_shape (fun _ => Ok Sample.noParams) "id_1" [] Sample.typed
                Sample.noParams eq_refl eq_refl) as H.
  cbv zeta in H. destruct H as (_ & Hm & _).
  do 3 (split; [reflexivity|]). apply Hm. right. reflexivity.
Defined.

Lemma C9_uniform_coercion_witness :
  includes listFields "RequestedTaskIDs" = true
  /\ itemToUpdate (Sample.requesting (Arr [PStr "T9"])) "RequestedTaskIDs"
       (Sample.text " T1 , ,T2,") !! "RequestedTaskIDs"
     = Some (Arr [PStr "T1"; PStr "T2"])
  /\ itemToUpdate (Sample.requesting (Sample.text "T9")) "RequestedTaskIDs"
       (Sample.text " T1 , ,T2,") !! "RequestedTaskIDs"
     = Some (Sample.text "T1, T2")
  /\ Rev1.itemToUpdate (Sample.requesting (Arr [PStr "T9"])) "RequestedTaskIDs"
       (Sample.text " T1 , ,T2,") !! "RequestedTaskIDs"
     = Some (Sample.text "T1,T2")
  /\ includes numericFields "PriorityLevel" = true
  /\ parseInt (Value.toString (Some (Sample.text "high"))) = NaN
  /\ itemToUpdate (Sample.client "i1" "C1" 3) "PriorityLevel" (Sample.text "high")
       !! "PriorityLevel"
     = Some (Sample.text "0")
  /\ Rev1.itemToUpdate (Sample.client "i1" "C1" 3) "PriorityLevel" (Sample.text "high")
       !! "PriorityLevel"
     = Some (Sample.text "0").
Proof.
  split; [reflexivity|].
  split; [|split; [|split; [|split; [reflexivity|split; [reflexivity|]]]]].
  - pose proof (C9_uniform_coercion (Sample.requesting (Arr [PStr "T9"])) "RequestedTaskIDs"
                  (Sample.text " T1 , ,T2,")) as H.
    cbv zeta in H. destruct H as (Hl & _).
    rewrite (proj1 (Hl eq_refl)). reflexivity.
  - pose proof (C9_uniform_coercion (Sample.requesting (Sample.text "T9")) "RequestedTaskIDs"
                  (Sample.text " T1 , ,T2,")) as H.
    cbv zeta in H. destruct H as (Hl & _).
    rewrite (proj1 (Hl eq_refl)). reflexivity.
  - pose proof (C9_uniform_coercion (Sample.requesting (Arr [PStr "T9"])) "RequestedTaskIDs"
                  (Sample.text " T1 , ,T2,")) as H.
    cbv zeta in H. destruct H as (Hl & _).
    rewrite (proj1 (proj2 (proj2 (Hl eq_refl)))). reflexivity.
  - pose proof (C9_uniform_coercion (Sample.client "i1" "C1" 3) "PriorityLevel"
                  (Sample.text "high")) as H.
    cbv zeta in H. destruct H as (_ & Hn & _).
    split; apply Hn; reflexivity.
Defined.

(** * Further properties *)

(** ** The rule registry *)

Lemma member_app key l k v :
  Rules.member key (l ++ [(k, v)])
  = if String.eqb k key then Some v else Rules.member key l.
Proof. unfold Rules.member. now rewrite fold_left_app. Qed.

Lemma hasId_rule id type params : Rules.hasId id (Rules.rule id type params) = true.
Proof. unfold Rules.rule, Rules.hasId, Rules.member. simpl. apply String.eqb_refl. Qed.

Lemma filter_forallb {A} (f : A -> bool) l : forallb f l = true -> List.filter f l = l.
Proof.
  induction l as [|x l IH]; simpl; [reflexivity|].
  intros [Hx Hl]%andb_prop. now rewrite Hx, IH.
Qed.

(** A rule added under an identifier that no rule carries and then deleted
    leaves the registry as it was. *)
Theorem deleteRule_addRule (id type : string) (rules : list Rules.json) :
  fresh id rules = true ->
  Rules.deleteRule id (Rules.addRule id type rules) = rules.
Proof.
  intros Hf. unfold Rules.deleteRule, Rules.addRule.
  rewrite List.filter_app. cbn [List.filter]. rewrite hasId_rule. cbn [negb].
  rewrite app_nil_r. now apply filter_forallb.
Qed.

(** [deleteRule] removes every rule that carries the identifier and no other
    rule, keeps the order of the rest, and a second deletion changes
    nothing. *)
Theorem deleteRule_removes (id : string) (rules : list Rules.json) :
  fresh id (Rules.deleteRule id rules) = true
  /\ (forall r, In r (Rules.deleteRule id rules) <-> In r rules /\ Rules.hasId id r = false)
  /\ (forall l1 l2, rules = l1 ++ l2 ->
        Rules.deleteRule id rules = Rules.deleteRule id l1 ++ Rules.deleteRule id l2)
  /\ Rules.deleteRule id (Rules.deleteRule id rules) = Rules.deleteRule id rules.
Proof.
  assert (Hfresh : fresh id (Rules.deleteRule id rules) = true).
  { unfold fresh, Rules.deleteRule. apply forallb_forall.
    intros r [_ Hr]%List.filter_In. exact Hr. }
  split; [exact Hfresh|]. split; [|split].
  - intros r. unfold Rules.deleteRule. rewrite List.filter_In.
    now rewrite negb_true_iff.
  - intros l1 l2 ->. apply List.filter_app.
  - apply filter_forallb. exact Hfresh.
Qed.

Lemma member_withParams_other newParams members key :
  String.eqb key "params" = false ->
  Rules.get (Rules.withParams newParams (Rules.JObject members)) key
  = Rules.get (Rules.JObject members) key.
Proof.
  intros Hk. unfold Rules.withParams.
  destruct (existsb _ members) eqn:He; simpl; f_equal.
  - clear He. induction members as [|[k v] l IH] using rev_ind; [reflexivity|].
    rewrite map_app. simpl. destruct (String.eqb_spec k "params") as [->|Hp].
    + rewrite !member_app. rewrite String.eqb_sym, Hk. exact IH.
    + rewrite !member_app. now rewrite IH.
  - rewrite member_app. now rewrite String.eqb_sym, Hk.
Qed.

Lemma member_withParams newParams members :
  Rules.get (Rules.withParams newParams (Rules.JObject members)) "params"
  = Ok (Some newParams).
Proof.
  unfold Rules.withParams.
  destruct (existsb _ members) eqn:He; simpl; f_equal.
  - induction members as [|[k v] l IH] using rev_ind; [discriminate|].
    rewrite map_app. simpl. rewrite existsb_app in He. simpl in He.
    destruct (String.eqb_spec k "params") as [->|Hp].
    + now rewrite member_app.
    + rewrite member_app. apply String.eqb_neq in Hp. rewrite Hp.
      apply IH. now rewrite orb_false_r in He.
  - now rewrite member_app.
Qed.

Lemma hasId_withParams id newParams r :
  Rules.hasId id (Rules.withParams newParams r) = Rules.hasId id r.
Proof.
  destruct r as [| | | | |members]; try reflexivity.
  pose proof (member_withParams_other newParams members "id" eq_refl) as H.
  unfold Rules.withParams in *.
  destruct (existsb _ members); simpl in *; now injection H as ->.
Qed.

(** [updateRuleParams] keeps the number and the order of the rules; a rule
    with another identifier is left as it is; a rule that carries the
    identifier gets the new [params] and keeps every other member, its
    identifier and its type among them.  An identifier that no rule carries
    changes nothing. *)
Theorem updateRuleParams_spec (id : string) (newParams : Rules.json)
    (rules : list Rules.json) :
  List.length (Rules.updateRuleParams id newParams rules) = List.length rules
  /\ (forall i r, rules !! i = Some r ->
        exists r', Rules.updateRuleParams id newParams rules !! i = Some r'
        /\ Rules.hasId id r' = Rules.hasId id r
        /\ (Rules.hasId id r = false -> r' = r)
        /\ (Rules.hasId id r = true ->
              Rules.get r' "params" = Ok (Some newParams)
              /\ forall key, String.eqb key "params" = false ->
                   Rules.get r' key = Rules.get r key))
  /\ (fresh id rules = true -> Rules.updateRuleParams id newParams rules = rules).
Proof.
  unfold Rules.updateRuleParams. split; [apply length_map|]. split.
  - intros i r Hi. eexists. split; [rewrite list_lookup_fmap_Some; eauto|]. simpl.
    destruct (Rules.hasId id r) eqn:Hid.
    + split; [now rewrite hasId_withParams|]. split; [discriminate|]. intros _.
      destruct r as [| | | | |members]; try discriminate.
      split; [apply member_withParams|]. intros key Hk.
      now apply member_withParams_other.
    + now repeat split.
  - unfold fresh. intros Hf. induction rules as [|r l IH]; [reflexivity|].
    simpl in *. apply andb_prop in Hf as [Hr Hl]. apply negb_true_iff in Hr.
    now rewrite Hr, IH.
Qed.

Lemma spanDigits_digits s : allDigits (fst (spanDigits s)) = true.
Proof.
  induction s as [|c r IH]; [reflexivity|]. simpl.
  destruct (isDigit c) eqn:Hc; [|reflexivity].
  destruct (spanDigits r) as [d t]. simpl in *. now rewrite Hc.
Qed.

Lemma spanDigits_length s :
  (String.length (snd (spanDigits s)) <= String.length s)%nat.
Proof.
  induction s as [|c r IH]; [reflexivity|]. simpl.
  destruct (isDigit c); [|simpl; lia].
  destruct (spanDigits r) as [d t]. simpl in *. lia.
Qed.

Lemma matchTaskIds_fuel n s k :
  (String.length s <= n)%nat ->
  Rules.Rev1.matchTaskIds (n + k) s = Rules.Rev1.matchTaskIds n s.
Proof.
  revert s. induction n as [|n IH]; intros s Hn.
  - destruct s; [|simpl in Hn; lia]. now destruct k.
  - destruct s as [|c r]; [reflexivity|]. simpl in *.
    pose proof (spanDigits_length r) as Hl.
    destruct (Ascii.eqb c "T").
    + destruct (spanDigits r) as [[|a d] t]; simpl in *.
      * apply IH. lia.
      * f_equal. apply IH. lia.
    + apply IH. lia.
Qed.

(** The scan for task names of the earlier rules tab ([/T\d+/g]) is complete
    with the length of the text as its bound, and each of its matches is a
    [T] followed by at least one digit and by digits only. *)
Theorem matchTaskIds_matches (s : string) (k : nat) :
  Rules.Rev1.matchTaskIds (String.length s + k) s
  = Rules.Rev1.matchTaskIds (String.length s) s
  /\ Forall (fun m => exists a d, m = String "T" (String a d)
                                 /\ allDigits (String a d) = true)
            (Rules.Rev1.matchTaskIds (String.length s) s).
Proof.
  split; [now apply matchTaskIds_fuel|].
  generalize (String.length s) as n. intros n. revert s.
  induction n as [|n IH]; intros s; [constructor|].
  destruct s as [|c r]; [constructor|]. simpl.
  destruct (Ascii.eqb_spec c "T") as [->|]; [|apply IH].
  pose proof (spanDigits_digits r) as Hd.
  destruct (spanDigits r) as [[|a d] t]; [apply IH|].
  constructor; [|apply IH]. now exists a, d.
Qed.

(** ** The loading bar *)

(** While the authentication is pending, the bar stands at ten times the
    number of ticks, capped at 90: it never reaches 100 and the loading
    screen stays. *)
Theorem pending_progress (n : nat) :
  Page.pending n = Z.min (10 * Z.of_nat n) 90
  /\ Page.loading false (Page.pending n) = true
  /\ forall isAuthReady, Page.loading isAuthReady (Page.pending n) = true.
Proof.
  assert (H : Page.pending n = Z.min (10 * Z.of_nat n) 90).
  { induction n as [|n IH]; [reflexivity|].
    unfold Page.pending in *. rewrite Nat.iter_succ, IH. unfold Page.tick.
    destruct (Z.leb_spec 90 (Z.min (10 * Z.of_nat n) 90)); lia. }
  split; [exact H|]. split; [reflexivity|].
  intros r. unfold Page.loading. rewrite H.
  destruct (Z.ltb_spec (Z.min (10 * Z.of_nat n) 90) 100); [apply orb_true_r|lia].
Qed.

(** ** The fields of the errors, pass by pass *)

Lemma filter_none {A} (f : A -> bool) l :
  Forall (fun x => f x = false) l -> List.filter f l = [].
Proof. induction 1 as [|x l Hx _ IH]; simpl; [reflexivity|]. now rewrite Hx. Qed.

Lemma filter_flat_map {A B} (f : B -> bool) (g : A -> list B) l :
  List.filter f (flat_map g l) = flat_map (fun x => List.filter f (g x)) l.
Proof.
  induction l as [|x l IH]; simpl; [reflexivity|]. now rewrite List.filter_app, IH.
Qed.

Lemma flat_map_ext_in {A B} (f g : A -> list B) l :
  (forall x, In x l -> f x = g x) -> flat_map f l = flat_map g l.
Proof.
  induction l as [|x l IH]; simpl; intros H; [reflexivity|].
  rewrite H by now left. rewrite IH; [reflexivity|]. intros y Hy. apply H. now right.
Qed.

Lemma Forall_scan (P : ValidationError -> Prop) idKey et ids items :
  (forall item, P (Err.missingId et idKey item)) ->
  (forall id, P (Err.duplicateId et idKey id)) ->
  Forall P (scan idKey et ids items).
Proof.
  intros Hm Hd. revert ids. induction items as [|x items IH]; intros ids; simpl.
  - constructor.
  - apply Forall_app. split; [|apply IH]. rewrite flagged_eq.
    destruct (negb _); [|destruct (JSSet.has _ _)]; repeat constructor; auto.
Qed.

Lemma Forall_scans (P : ValidationError -> Prop) p :
  (forall et idKey item, In idKey idFields -> P (Err.missingId et idKey item)) ->
  (forall et idKey id, In idKey idFields -> P (Err.duplicateId et idKey id)) ->
  Forall P (emittedErrors (checkDuplicates (clients p) "ClientID" EntityType.clients)
            ++ emittedErrors (checkDuplicates (workers p) "WorkerID" EntityType.workers)
            ++ emittedErrors (checkDuplicates (tasks p) "TaskID" EntityType.tasks)).
Proof.
  intros Hm Hd.
  repeat (apply Forall_app; split);
    match goal with
    | |- Forall _ (emittedErrors (checkDuplicates ?l ?k ?et)) =>
        destruct (checkDuplicates_emitted k et l) as (_ & -> & _)
    end; apply Forall_scan; intros; (apply Hm || apply Hd); simpl; tauto.
Qed.

Lemma Forall_workerErrors (P : ValidationError -> Prop) p :
  wellShaped p = true ->
  (forall w, P (Err.maxLoadPerPhase w)) ->
  (forall w, P (Err.maxConcurrent w)) ->
  (forall w, P (Err.availableSlots w)) ->
  Forall P (flat_map (fun w => emittedErrors (validateWorker w)) (workers p)).
Proof.
  intros Hp H1 H2 H3. apply wellShaped_spec in Hp as (_ & Hw & _).
  rewrite List.Forall_forall in Hw. apply Forall_flat_map_in.
  intros w Hin. unfold emittedErrors. rewrite emitted_validateWorker by auto. simpl.
  repeat (apply Forall_app; split); apply Forall_if; auto.
Qed.

Lemma Forall_clientErrors (P : ValidationError -> Prop) J p :
  wellShaped p = true ->
  (forall c, P (Err.priorityLevel c)) ->
  (forall c, P (Err.attributesJSON c)) ->
  (forall c tid, P (Err.unknownTask c tid)) ->
  Forall P (flat_map (fun c => emittedErrors (validateClient J (allTaskIds p) c))
                     (clients p)).
Proof.
  intros Hp H1 H2 H3. apply wellShaped_spec in Hp as (Hc & _ & _).
  rewrite List.Forall_forall in Hc. apply Forall_flat_map_in.
  intros c Hin. unfold emittedErrors. rewrite emitted_validateClient by auto. simpl.
  repeat (apply Forall_app; split);
    [apply Forall_if | apply Forall_if | apply Forall_flat_map_if]; auto.
Qed.

Lemma Forall_taskErrors (P : ValidationError -> Prop) p :
  wellShaped p = true ->
  (forall t, P (Err.duration t)) ->
  (forall t s, P (Err.requiredSkill t s)) ->
  (forall t, P (Err.preferredPhases t)) ->
  Forall P (flat_map (fun t => emittedErrors (validateTask (allWorkerSkills p) t))
                     (tasks p)).
Proof.
  intros Hp H1 H2 H3. apply wellShaped_spec in Hp as (_ & _ & Ht).
  rewrite List.Forall_forall in Ht. apply Forall_flat_map_in.
  intros t Hin. destruct (Ht t Hin). unfold emittedErrors.
  rewrite emitted_validateTask by auto. simpl.
  repeat (apply Forall_app; split);
    [apply Forall_if | apply Forall_flat_map_if | apply Forall_if]; auto.
Qed.

Lemma Forall_coverageErrors (P : ValidationError -> Prop) p :
  (forall s, P (Err.skillCoverage s)) ->
  Forall P (flat_map (fun s => emittedErrors (skillCoverage (allWorkerSkills p) s))
                     (allRequiredSkills p)).
Proof.
  intros H. apply Forall_flat_map_in.
  intros s _. unfold emittedErrors. rewrite emitted_skillCoverage. simpl.
  apply Forall_if; auto.
Qed.

(** A property of every error that a pass can push holds of every error of a
    run. *)
Lemma Forall_passErrors (P : ValidationError -> Prop) J p :
  wellShaped p = true ->
  (forall et idKey item, In idKey idFields -> P (Err.missingId et idKey item)) ->
  (forall et idKey id, In idKey idFields -> P (Err.duplicateId et idKey id)) ->
  (forall c, P (Err.priorityLevel c)) ->
  (forall c, P (Err.attributesJSON c)) ->
  (forall c tid, P (Err.unknownTask c tid)) ->
  (forall w, P (Err.maxLoadPerPhase w)) ->
  (forall w, P (Err.maxConcurrent w)) ->
  (forall w, P (Err.availableSlots w)) ->
  (forall t, P (Err.duration t)) ->
  (forall t s, P (Err.requiredSkill t s)) ->
  (forall t, P (Err.preferredPhases t)) ->
  (forall s, P (Err.skillCoverage s)) ->
  Forall P (passErrors J p).
Proof.
  intros Hp H1 H2 H3 H4 H5 H6 H7 H8 H9 H10 H11 H12.
  pose proof (Forall_scans P p H1 H2) as H.
  apply Forall_app in H as [Ha H]. apply Forall_app in H as [Hb Hs].
  unfold passErrors.
  repeat (apply Forall_app; split); try assumption.
  - now apply Forall_clientErrors.
  - now apply Forall_workerErrors.
  - now apply Forall_taskErrors.
  - now apply Forall_coverageErrors.
Qed.

Lemma find_none {A} (f : A -> bool) l :
  Forall (fun x => f x = false) l -> List.find f l = None.
Proof. induction 1 as [|x l Hx _ IH]; simpl; [reflexivity|]. now rewrite Hx. Qed.

(** No error of a run names a row: the table, which looks an error up by the
    value of the first column of the row, finds none for a row that has one,
    whatever the column; a row without that column is shown the message of
    the first error of the run on the column, whichever item it is about. *)
Theorem getCellError_published (J : string -> bool) (p : DataTabProps)
    (st : DataTabState) (header : string) :
  wellShaped p = true ->
  let published := errors (snd (validateAllData J p st)) in
  (forall v, Table.getCellError published (Some v) header = None)
  /\ Table.getCellError published None header
     = option_map message (List.find (hasField header) published).
Proof.
  intros Hp published. subst published.
  rewrite validateAllData_wellShaped by assumption. cbn [snd errors].
  assert (H : Forall (fun e => rowId e = None) (passErrors J p))
    by (apply Forall_passErrors; auto).
  unfold Table.getCellError. split.
  - intros v. rewrite find_none; [reflexivity|].
    eapply List.Forall_impl; [|exact H]. intros e He. cbv beta in He. now rewrite He.
  - induction H as [|e l He _ IH]; [reflexivity|]. simpl.
    rewrite He. simpl. unfold hasField at 1.
    destruct (String.eqb (field e) header); [reflexivity|]. exact IH.
Qed.

Ltac other_field :=
  intros; try (match goal with H : In _ idFields |- _ =>
                 simpl in H; repeat (destruct H as [<-|H]; [reflexivity|]); destruct H end);
  reflexivity.



(** The phases of the tasks.  On such a store the errors of a run on the
    field PreferredPhases are one error for each task, in order, one of whose
    phases is a text that is not of the form digits, hyphen, digits; a phase
    held as a number is never flagged, and no other pass writes an error on
    that field. *)
Theorem preferredPhases_report (J : string -> bool) (p : DataTabProps)
    (st : DataTabState) :
  wellShaped p = true ->
  List.filter (hasField "PreferredPhases") (errors (snd (validateAllData J p st)))
  = map Err.preferredPhases
      (List.filter
         (fun t : doc =>
            existsb (fun q => Value.isString q && negb (isRange (Value.primToString q)))
                    (Value.elements (t !! "PreferredPhases")))
         (tasks p)).
Proof.
  intros Hp. rewrite validateAllData_wellShaped by assumption. cbn [snd errors].
  unfold passErrors.
  rewrite (app_assoc (emittedErrors _)), (app_assoc (emittedErrors _ ++ _)).
  rewrite <- (app_assoc (emittedErrors _)).
  pose proof (Forall_scans (fun e => hasField "PreferredPhases" e = false) p
                ltac:(other_field) ltac:(other_field)) as Fs.
  pose proof (Forall_clientErrors (fun e => hasField "PreferredPhases" e = false)
                J p Hp ltac:(other_field) ltac:(other_field) ltac:(other_field)) as Fl.
  pose proof (Forall_workerErrors (fun e => hasField "PreferredPhases" e = false)
                p Hp ltac:(other_field) ltac:(other_field) ltac:(other_field)) as Fw.
  pose proof (Forall_coverageErrors (fun e => hasField "PreferredPhases" e = false)
                p ltac:(other_field)) as Fc.
  rewrite List.filter_app, (filter_none _ _ Fs), !List.filter_app.
  rewrite (filter_none _ _ Fl), (filter_none _ _ Fw), (filter_none _ _ Fc).
  rewrite !app_nil_r. cbn [app]. rewrite filter_flat_map, <- flat_map_if.
  apply wellShaped_spec in Hp as (_ & _ & Ht). rewrite List.Forall_forall in Ht.
  apply flat_map_ext_in. intros t Hin. destruct (Ht t Hin). unfold emittedErrors.
  rewrite emitted_validateTask by auto. cbn [allErrors].
  rewrite !List.filter_app, filter_if_drop by reflexivity.
  rewrite flat_map_if, filter_map_drop by reflexivity.
  rewrite filter_if_keep by reflexivity. reflexivity.
Qed.

(** ** Texts: pieces, [split], [join] and [trim] *)

Lemma split_commaFree s : commaFree s = true -> split "," s = [s].
Proof.
  induction s as [|c r IH]; [reflexivity|]. simpl.
  intros [Hc Hr]%andb_prop. apply negb_true_iff in Hc. now rewrite Hc, IH.
Qed.

Lemma split_append_comma x t :
  commaFree x = true -> split "," (x +:+ String "," t) = x :: split "," t.
Proof.
  induction x as [|c r IH]; [reflexivity|]. simpl.
  intros [Hc Hr]%andb_prop. apply negb_true_iff in Hc. now rewrite Hc, IH.
Qed.

Lemma split_join l :
  Forall (fun x => commaFree x = true) l ->
  split "," (join ", " l)
  = match l with [] => [EmptyString] | x :: r => x :: map (String " ") r end.
Proof.
  induction 1 as [|x l Hx Hl IH]; [reflexivity|].
  destruct l as [|y r]; [now apply split_commaFree|].
  change (join ", " (x :: y :: r)) with (x +:+ String "," (String " " (join ", " (y :: r)))).
  rewrite split_append_comma by assumption.
  change (split "," (String " " (join ", " (y :: r))))
    with (match split "," (join ", " (y :: r)) with
          | w :: ws => String " " w :: ws
          | [] => [String " " EmptyString]
          end).
  now rewrite IH.
Qed.

Lemma trim_space y : trim (String " " y) = trim y.
Proof. reflexivity. Qed.

Lemma piece_spec x : piece x = true <-> commaFree x = true /\ trim x = x.
Proof.
  unfold piece, trimmed. rewrite andb_true_iff, String.eqb_eq. reflexivity.
Qed.

(** The text that the table shows for an array of pieces splits back into
    the pieces that are not empty. *)
Lemma splitTrimmed_join l :
  Forall (fun x => piece x = true) l ->
  splitTrimmed (join ", " l) = List.filter nonEmpty l.
Proof.
  intros Hl. unfold splitTrimmed. rewrite split_join.
  2:{ eapply List.Forall_impl; [|exact Hl]. intros x Hx. now apply piece_spec in Hx. }
  destruct Hl as [|x l Hx Hl]; [reflexivity|]. cbn [map].
  apply piece_spec in Hx as [_ Hx]. rewrite Hx. f_equal. f_equal.
  rewrite map_map. induction Hl as [|y r Hy _ IH]; [reflexivity|]. cbn [map].
  rewrite trim_space. apply piece_spec in Hy as [_ ->]. now rewrite IH.
Qed.

Lemma commaFree_split s : Forall (fun x => commaFree x = true) (split "," s).
Proof.
  induction s as [|c r IH]; [now repeat constructor|]. simpl.
  destruct (Ascii.eqb c ",") eqn:Hc; [now constructor|].
  destruct (split "," r) as [|w ws]; [repeat constructor; simpl; now rewrite Hc|].
  inversion IH; subst. constructor; [|assumption]. simpl. now rewrite Hc.
Qed.

Lemma commaFree_trimStart s : commaFree s = true -> commaFree (trimStart s) = true.
Proof.
  induction s as [|c r IH]; [reflexivity|]. intros H. simpl.
  destruct (isWhiteSpace c); [|exact H]. simpl in H. apply andb_prop in H as [_ H]. auto.
Qed.

Lemma commaFree_trimEnd s : commaFree s = true -> commaFree (trimEnd s) = true.
Proof.
  induction s as [|c r IH]; [reflexivity|]. simpl.
  intros [Hc Hr]%andb_prop. specialize (IH Hr).
  destruct (trimEnd r) as [|a e].
  - destruct (isWhiteSpace c); simpl; [reflexivity|]. now rewrite Hc.
  - simpl in *. now rewrite Hc, IH.
Qed.

Lemma trimEnd_idem s : trimEnd (trimEnd s) = trimEnd s.
Proof.
  induction s as [|c r IH]; [reflexivity|]. simpl.
  destruct (trimEnd r) as [|a e] eqn:He.
  - destruct (isWhiteSpace c) eqn:Hc; [reflexivity|]. simpl. now rewrite Hc.
  - change (trimEnd (String c (String a e)))
      with (match trimEnd (String a e) with
            | EmptyString => if isWhiteSpace c then EmptyString else String c EmptyString
            | r' => String c r'
            end).
    now rewrite IH.
Qed.

(** A text that does not start with white space. *)
Lemma trimStart_head s :
  match trimStart s with
  | EmptyString => True
  | String c _ => isWhiteSpace c = false
  end.
Proof.
  induction s as [|c r IH]; [exact I|]. simpl.
  destruct (isWhiteSpace c) eqn:Hc; [exact IH | exact Hc].
Qed.

Lemma trim_idem s : trim (trim s) = trim s.
Proof.
  unfold trim. pose proof (trimStart_head s) as H.
  destruct (trimStart s) as [|c r]; [reflexivity|].
  assert (E : exists r', trimEnd (String c r) = String c r').
  { simpl. destruct (trimEnd r); [rewrite H|]; eauto. }
  destruct E as [r' E]. rewrite E. cbn [trimStart]. rewrite H, <- E.
  apply trimEnd_idem.
Qed.

Lemma splitTrimmed_pieces s :
  Forall (fun x => piece x = true) (splitTrimmed s)
  /\ forallb nonEmpty (splitTrimmed s) = true.
Proof.
  unfold splitTrimmed. split.
  - apply List.Forall_forall. intros x [Hx _]%List.filter_In.
    apply in_map_iff in Hx as (y & <- & Hy). apply piece_spec. split; [|apply trim_idem].
    pose proof (commaFree_split s) as H. rewrite List.Forall_forall in H.
    unfold trim. apply commaFree_trimEnd, commaFree_trimStart. now apply H.
  - apply forallb_forall. now intros x [_ Hx]%List.filter_In.
Qed.

(** Splitting the shown text of what a split produced gives it back. *)
Lemma splitTrimmed_settles s :
  splitTrimmed (join ", " (splitTrimmed s)) = splitTrimmed s.
Proof.
  destruct (splitTrimmed_pieces s) as [Hp Hn].
  rewrite splitTrimmed_join by assumption. now apply filter_forallb.
Qed.

(** ** The cell editor *)

Lemma map_primToString_PStr l : map Value.primToString (map PStr l) = l.
Proof. rewrite map_map. simpl. apply map_id. Qed.

(** Leaving a list-typed cell stores what leaving it again, with the text
    the table then shows, stores: the second edit changes nothing, whether
    the property is held as an array or as a text. *)
Theorem itemToUpdate_settles (item : doc) (field s : string) :
  includes listFields field = true ->
  let item' := itemToUpdate item field (Prim (PStr s)) in
  itemToUpdate item' field (Prim (PStr (Table.cellText (item' !! field)))) = item'.
Proof.
  intros Hf item'. subst item'. unfold itemToUpdate. rewrite Hf.
  cbn [Value.toString Value.primToString].
  destruct (isText (item !! field)) eqn:Ht.
  - rewrite lookup_insert_eq. cbn [isText Table.cellText Value.primToString].
    rewrite splitTrimmed_settles. apply insert_insert_eq.
  - rewrite lookup_insert_eq. cbn [isText Table.cellText].
    rewrite map_primToString_PStr, splitTrimmed_settles. apply insert_insert_eq.
Qed.

Lemma arrayOrUndefined_itemToUpdate item field value key :
  includes listFields key = true ->
  arrayOrUndefined (item !! key) = true ->
  arrayOrUndefined (itemToUpdate item field value !! key) = true.
Proof.
  intros Hk Ha. unfold itemToUpdate. cbv zeta.
  destruct (String.eqb_spec field key) as [->|Hne].
  - rewrite Hk. destruct (item !! key) as [[q|l]|]; try discriminate;
      cbn [isText]; cbv iota; now rewrite lookup_insert_eq.
  - destruct (includes listFields field);
      [destruct (isText _) | destruct (includes numericFields field)];
      now rewrite lookup_insert_ne.
Qed.

Lemma shaped_itemToUpdate et item field value :
  shaped et item = true -> shaped et (itemToUpdate item field value) = true.
Proof.
  destruct et; simpl; rewrite ?andb_true_iff;
    [intros H | intros H | intros [H1 H2]; split];
    now apply arrayOrUndefined_itemToUpdate.
Qed.

Lemma arrayOrUndefined_union (a b : doc) key :
  arrayOrUndefined (a !! key) = true -> arrayOrUndefined (b !! key) = true ->
  arrayOrUndefined ((a ∪ b) !! key) = true.
Proof.
  intros Ha Hb. rewrite lookup_union. destruct (a !! key), (b !! key); assumption.
Qed.

Lemma shaped_union et (a b : doc) :
  shaped et a = true -> shaped et b = true -> shaped et (a ∪ b) = true.
Proof.
  destruct et; simpl; rewrite ?andb_true_iff;
    [intros Ha Hb | intros Ha Hb | intros [Ha1 Ha2] [Hb1 Hb2]; split];
    now apply arrayOrUndefined_union.
Qed.

Lemma wellShaped_shaped p :
  wellShaped p = true <-> forall et, forallb (shaped et) (dataMap p et) = true.
Proof.
  unfold wellShaped. rewrite !andb_true_iff. split.
  - intros [[Hc Hw] Ht] []; assumption.
  - intros H. repeat split;
      [apply (H EntityType.clients) | apply (H EntityType.workers) | apply (H EntityType.tasks)].
Qed.

Lemma wellShaped_saveSingleDoc p et item :
  wellShaped p = true -> shaped et item = true ->
  wellShaped (snd (saveSingleDoc p et item)) = true.
Proof.
  intros Hp Hi. unfold saveSingleDoc.
  destruct (Value.truthy (item !! "id")); [|exact Hp]. cbn [snd].
  pose proof (proj1 (wellShaped_shaped p) Hp) as H.
  assert (Hl : forallb (shaped et)
                 (if existsb (sameDocument item) (dataMap p et)
                  then map (fun d : doc => if sameDocument item d then item ∪ d else d)
                           (dataMap p et)
                  else dataMap p et ++ [item]) = true).
  { pose proof (H et) as He. rewrite forallb_forall in He.
    destruct (existsb _ _); apply forallb_forall; intros d Hd.
    - apply in_map_iff in Hd as (d0 & <- & Hd0).
      destruct (sameDocument item d0); [apply shaped_union|]; auto.
    - apply in_app_iff in Hd as [Hd|[<-|[]]]; auto. }
  apply wellShaped_shaped. intros et'.
  destruct et, et'; try exact Hl;
    first [apply (H EntityType.clients) | apply (H EntityType.workers)
          | apply (H EntityType.tasks)].
Qed.

(** The later cell editor keeps a store on which [validateAllData] returns
    such a store, whatever the row, the column and the text: an iterated
    list property that is an array or absent is stored as an array. *)
Theorem handleUpdateCell_wellShaped (p : DataTabProps) (rowIndex : nat)
    (field : string) (value : value) (entityType : EntityType.t) :
  wellShaped p = true ->
  wellShaped (snd (handleUpdateCell p rowIndex field value entityType)) = true.
Proof.
  intros Hp. unfold handleUpdateCell. apply wellShaped_saveSingleDoc; [assumption|].
  apply shaped_itemToUpdate.
  destruct (dataMap p entityType !! rowIndex) as [item|] eqn:Hi; simpl.
  - pose proof (proj1 (wellShaped_shaped p) Hp entityType) as H.
    rewrite forallb_forall in H. apply H.
    apply list_elem_of_In. eapply list_elem_of_lookup_2. exact Hi.
  - now destruct entityType.
Qed.

Lemma iterated_listField et field :
  In (et, field) iterated -> includes listFields field = true /\ field <> "id".
Proof.
  intros H. simpl in H.
  repeat (destruct H as [H|H]; [injection H as <- <-; now split|]). destruct H.
Qed.

Lemma iterated_shaped et field (d : doc) q :
  In (et, field) iterated -> d !! field = Some (Prim q) -> shaped et d = false.
Proof.
  intros H Hd. simpl in H.
  repeat (destruct H as [H|H];
          [injection H as <- <-; simpl; rewrite Hd; simpl; now rewrite ?andb_false_r|]).
  destruct H.
Qed.

Lemma dataMap_setCollection p et l : dataMap (setCollection p et l) et = l.
Proof. now destruct et. Qed.

(** The earlier cell editor, on any row that has a document id and for any
    text: leaving a cell of a list property that [validateAllData] iterates
    stores a text there, after which [validateAllData] throws and the
    component keeps the state it had. *)
Theorem Rev1_edit_halts (J : string -> bool) (p : DataTabProps) (st : DataTabState)
    (rowIndex : nat) (item : doc) (entityType : EntityType.t) (field : string)
    (value : value) :
  In (entityType, field) iterated ->
  dataMap p entityType !! rowIndex = Some item ->
  Value.truthy (item !! "id") = true ->
  exists p' e,
    Rev1.handleUpdateCell p rowIndex field value entityType = (Ok tt, p')
    /\ wellShaped p' = false
    /\ validateAllData J p' st = (Throw e, st).
Proof.
  intros Hin Hi Hid. destruct (iterated_listField _ _ Hin) as [Hl Hne].
  unfold Rev1.handleUpdateCell. rewrite Hi.
  change (default ∅ (Some item)) with item.
  unfold Rev1.itemToUpdate. rewrite Hl. cbv iota.
  set (t := join "," (splitTrimmed (Value.toString (Some value)))).
  set (X := <[field := Prim (PStr t)]> item).
  assert (Hx : X !! "id" = item !! "id") by (subst X; now rewrite lookup_insert_ne).
  unfold saveSingleDoc. rewrite Hx, Hid.
  assert (Hitem : In item (dataMap p entityType)).
  { apply list_elem_of_In. eapply list_elem_of_lookup_2. exact Hi. }
  assert (Hsame : sameDocument X item = true).
  { unfold sameDocument. rewrite Hx. apply String.eqb_refl. }
  assert (He : existsb (sameDocument X) (dataMap p entityType) = true).
  { apply existsb_exists. eauto. }
  rewrite He.
  set (p' := setCollection p entityType _).
  assert (Hw : wellShaped p' = false).
  { destruct (wellShaped p') eqn:Hp'; [|reflexivity]. exfalso.
    pose proof (proj1 (wellShaped_shaped p') Hp' entityType) as H.
    subst p'. rewrite dataMap_setCollection, forallb_forall in H.
    specialize (H (X ∪ item)).
    rewrite (iterated_shaped entityType field (X ∪ item) (PStr t) Hin) in H.
    - apply diff_false_true, H. apply in_map_iff. exists item. now rewrite Hsame.
    - apply lookup_union_Some_l. subst X. apply lookup_insert_eq. }
  destruct (validateAllData_illShaped J p' st Hw) as [e E].
  exists p', e. now repeat split.
Qed.

(** A priority level that went through the cell editor is a text, and a
    client whose priority level is a text is never one of the high-priority
    clients: with such clients only, the later [validateAllData] does not
    ask the external service and adds no suggestion. *)
Theorem edited_priority_not_high (reply : outcome string) (p : DataTabProps) :
  (forall item value,
     isText (itemToUpdate item "PriorityLevel" value !! "PriorityLevel") = true
     /\ isText (Rev1.itemToUpdate item "PriorityLevel" value !! "PriorityLevel") = true)
  /\ (forallb (fun c : doc => isText (c !! "PriorityLevel")) (clients p) = true ->
      Rev2.highPriorityClients p = []
      /\ Rev2.geminiSuggestions reply p = ([], [])).
Proof.
  split.
  - intros item v. unfold itemToUpdate, Rev1.itemToUpdate.
    change (includes listFields "PriorityLevel") with false.
    change (includes numericFields "PriorityLevel") with true. cbv iota.
    now rewrite lookup_insert_eq.
  - intros H. assert (E : Rev2.highPriorityClients p = []).
    { unfold Rev2.highPriorityClients. apply filter_none.
      rewrite forallb_forall in H. apply List.Forall_forall. intros c Hc.
      specialize (H c Hc). now destruct (c !! "PriorityLevel") as [[[s|n]|l]|]. }
    split; [exact E|]. unfold Rev2.geminiSuggestions. now rewrite E.
Qed.

(** ** The fix applier *)

(** [applyAIFix] changes the store only when it shows the success.  A
    failing service, a domain id that no row of the collection holds as a
    text, an authentication that is not ready, a row without a document id
    and a write that the store refuses each leave the store as it was, with
    a failure shown.  The success is shown exactly when the service answers,
    a row is found, the authentication is ready, the updated item has a
    document id and the store accepts the write; [applyAIFix] above is the
    case of a ready authentication and an accepted write. *)
Theorem applyAIFix_outcome (ready : bool) (write : outcome unit) (reply : outcome string)
    (p : DataTabProps) (entityType : EntityType.t) (id field : string) :
  let r := Saving.applyAIFix ready write reply p entityType id field in
  let found := List.find (fun row : doc =>
                            Value.sameValueZero (row !! idKeyOf entityType)
                                                (Some (Prim (PStr id))))
                         (dataMap p entityType) in
  (forall msg, snd r = ToastError msg -> fst r = p)
  /\ (found = None -> forall text, reply = Ok text ->
        r = (p, ToastError (EntityType.name entityType +:+ " with ID " +:+ id
                            +:+ " not found.")))
  /\ ((exists msg, snd r = ToastSuccess msg) <->
      exists text item,
        reply = Ok text /\ found = Some item /\ ready = true
        /\ Value.truthy (updatedItem item field text !! "id") = true
        /\ write = Ok tt)
  /\ (forall text item, reply = Ok text -> found = Some item ->
        (ready = false ->
           r = (p, ToastError "Error applying AI fix: Auth not ready."))
        /\ (ready = true ->
            Value.truthy (updatedItem item field text !! "id") = false ->
            r = (p, ToastError "Error applying AI fix: Item must have an ID to be saved."))
        /\ (forall e, ready = true ->
              Value.truthy (updatedItem item field text !! "id") = true ->
              write = Throw e ->
              r = (p, ToastError ("Error applying AI fix: " +:+ exnMessage e)))
        /\ (ready = true ->
            Value.truthy (updatedItem item field text !! "id") = true ->
            write = Ok tt ->
            r = (snd (saveSingleDoc p entityType (updatedItem item field text)),
                 ToastSuccess ("Applied fix for " +:+ EntityType.name entityType
                               +:+ " " +:+ id))))
  /\ applyAIFix reply p entityType id field
     = Saving.applyAIFix true (Ok tt) reply p entityType id field.
Proof.
  intros r found. subst r found.
  assert (Hsave : forall X : doc,
            Value.truthy (X !! "id") = true ->
            saveSingleDoc p entityType X = (Ok tt, snd (saveSingleDoc p entityType X))).
  { intros X HX. unfold saveSingleDoc. now rewrite HX. }
  split; [|split; [|split; [|split]]].
  - intros msg. unfold Saving.applyAIFix, saveSingleDocToFirestore.
    destruct reply as [text|e]; [|reflexivity].
    destruct (List.find _ _) as [item|]; [|reflexivity].
    destruct ready; [|reflexivity]. cbn [negb].
    destruct (Value.truthy (updatedItem item field text !! "id")) eqn:Hid; [|reflexivity].
    cbn [negb]. destruct write as [[]|e]; [|reflexivity].
    rewrite (Hsave _ Hid). discriminate.
  - intros Hf text ->. unfold Saving.applyAIFix. now rewrite Hf.
  - unfold Saving.applyAIFix, saveSingleDocToFirestore. split.
    + destruct reply as [text|e]; [|intros [msg H]; discriminate H].
      destruct (List.find _ _) as [item|]; [|intros [msg H]; discriminate H].
      destruct ready; [|intros [msg H]; discriminate H]. cbn [negb].
      destruct (Value.truthy (updatedItem item field text !! "id")) eqn:Hid;
        [|intros [msg H]; discriminate H].
      cbn [negb]. destruct write as [[]|e]; [|intros [msg H]; discriminate H].
      intros _. exists text, item. now repeat split.
    + intros (text & item & -> & -> & -> & Hid & ->). rewrite Hid. cbn [negb].
      rewrite (Hsave _ Hid). eauto.
  - intros text item -> Hf. unfold Saving.applyAIFix, saveSingleDocToFirestore.
    rewrite Hf. split; [|split; [|split]].
    + now intros ->.
    + intros -> Hid. now rewrite Hid.
    + intros e -> Hid ->. now rewrite Hid.
    + intros -> Hid ->. rewrite Hid. cbn [negb]. now rewrite (Hsave _ Hid).
  - unfold applyAIFix, Saving.applyAIFix, saveSingleDocToFirestore.
    destruct reply as [text|e]; [|reflexivity].
    destruct (List.find _ _) as [item|]; [|reflexivity]. cbn [negb].
    destruct (Value.truthy (updatedItem item field text !! "id")) eqn:Hid.
    + reflexivity.
    + unfold saveSingleDoc. now rewrite Hid.
Qed.

(** ** Texts of digits *)

Lemma isDigit_cases c :
  isDigit c = true ->
  isWhiteSpace c = false /\ forall a, isDigit a = false -> Ascii.eqb c a = false.
Proof.
  intros Hc. split.
  - unfold isDigit, isWhiteSpace in *.
    destruct (nat_of_ascii c) as [|n]; [discriminate|].
    apply andb_prop in Hc as [H1 H2]. apply Nat.leb_le in H1, H2.
    repeat (apply orb_false_intro); [apply andb_false_intro2| |];
      [apply Nat.leb_gt | apply Nat.eqb_neq | apply Nat.eqb_neq]; lia.
  - intros a Ha. destruct (Ascii.eqb_spec c a) as [->|]; [congruence | reflexivity].
Qed.

Lemma stripNonDigits_digits s : allDigits (stripNonDigits s) = true.
Proof.
  induction s as [|c r IH]; [reflexivity|]. simpl.
  destruct (isDigit c) eqn:Hc; [simpl; now rewrite Hc | exact IH].
Qed.

Lemma spanDigits_allDigits d : allDigits d = true -> spanDigits d = (d, EmptyString).
Proof.
  induction d as [|c r IH]; [reflexivity|]. simpl.
  intros [Hc Hr]%andb_prop. now rewrite Hc, IH.
Qed.

Lemma trimEnd_digits d : allDigits d = true -> trimEnd d = d.
Proof.
  induction d as [|c r IH]; [reflexivity|]. simpl.
  intros [Hc Hr]%andb_prop. rewrite IH by assumption.
  destruct r; [|reflexivity]. now rewrite (proj1 (isDigit_cases c Hc)).
Qed.

Lemma trim_digits d : allDigits d = true -> trim d = d.
Proof.
  intros H. unfold trim. destruct d as [|c r]; [reflexivity|].
  pose proof H as [Hc _]%andb_prop. cbn [trimStart].
  rewrite (proj1 (isDigit_cases c Hc)). now apply trimEnd_digits.
Qed.

Lemma piece_digits d : allDigits d = true -> piece d = true.
Proof.
  intros H. apply piece_spec. split; [|now apply trim_digits].
  induction d as [|c r IH]; [reflexivity|]. simpl in *.
  apply andb_prop in H as [Hc Hr].
  rewrite (proj2 (isDigit_cases c Hc) ","%char) by reflexivity. now apply IH.
Qed.

Lemma unsignedDecimal_digits neg d :
  allDigits d = true -> nonEmpty d = true -> isNaN (unsignedDecimal neg d) = false.
Proof.
  intros Hd Hn. unfold unsignedDecimal.
  destruct d as [|c r]; [discriminate|]. pose proof Hd as [Hc _]%andb_prop.
  change (String.eqb (String c r) "Infinity")
    with (if Ascii.eqb c "I" then String.eqb r "nfinity" else false).
  rewrite (proj2 (isDigit_cases c Hc) "I"%char) by reflexivity.
  rewrite spanDigits_allDigits by assumption. reflexivity.
Qed.

(** [Number] of a text of digits is a number. *)
Lemma stringToNumber_digits d :
  allDigits d = true -> nonEmpty d = true -> isNaN (stringToNumber d) = false.
Proof.
  intros Hd Hn. unfold stringToNumber. rewrite trim_digits by assumption.
  destruct d as [|c r]; [discriminate|].
  pose proof Hd as [Hc Hr]%andb_prop.
  pose proof (unsignedDecimal_digits false (String c r) Hd Hn) as U.
  destruct c as [[] [] [] [] [] [] [] []]; try discriminate Hc; try exact U.
  destruct r as [|c' r']; [exact U|].
  pose proof Hr as [Hc' _]%andb_prop.
  rewrite !(proj2 (isDigit_cases c' Hc')) by reflexivity. exact U.
Qed.

(** The suggestion of an AvailableSlots error, applied as the fix: when the
    fix-sanity service returns the suggestion as it is, the worker gets, as
    its slots, the array of the digits of each former slot, the slots without
    a digit dropped, and the worker pass no longer writes an AvailableSlots
    error for it. *)
Theorem availableSlots_fix (w : doc) (l : list prim) :
  w !! "AvailableSlots" = Some (Arr l) ->
  let digits := map (fun s => stripNonDigits (Value.primToString s)) l in
  let w' := updatedItem w "AvailableSlots" (join ", " digits) in
  suggestion (Err.availableSlots w) = Some (join ", " digits)
  /\ w' !! "AvailableSlots" = Some (Arr (map PStr (List.filter nonEmpty digits)))
  /\ List.filter (hasField "AvailableSlots") (emittedErrors (validateWorker w')) = [].
Proof.
  intros Hl digits w'.
  assert (Hd : Forall (fun d => allDigits d = true) digits).
  { subst digits. apply List.Forall_forall. intros d (s & <- & _)%in_map_iff.
    apply stripNonDigits_digits. }
  assert (Hw : w' !! "AvailableSlots"
               = Some (Arr (map PStr (List.filter nonEmpty digits)))).
  { subst w'. unfold updatedItem.
    match goal with
    | |- context [includes ?fields "AvailableSlots"] =>
        replace (includes fields "AvailableSlots") with true by reflexivity
    end. cbv iota zeta.
    rewrite Hl. cbn [isText]. cbv iota. rewrite lookup_insert_eq.
    change (List.filter nonEmpty (map trim (split "," (join ", " digits))))
      with (splitTrimmed (join ", " digits)).
    rewrite splitTrimmed_join; [reflexivity|].
    eapply List.Forall_impl; [|exact Hd]. intros d. apply piece_digits. }
  split; [|split].
  - unfold Err.availableSlots. simpl. now rewrite Hl.
  - exact Hw.
  - rewrite (availableSlots_errors w' _ Hw).
    replace (existsb _ _) with false; [reflexivity|]. symmetry.
    apply not_true_is_false. intros (q & Hq & Hnan)%existsb_exists.
    apply in_map_iff in Hq as (d & <- & [Hin Hne]%List.filter_In).
    rewrite List.Forall_forall in Hd. simpl in Hnan.
    rewrite stringToNumber_digits in Hnan; auto. discriminate.
Qed.

(** ** The uploader *)

Lemma includes_In l x : includes l x = true <-> In x l.
Proof.
  unfold includes. rewrite existsb_exists. split.
  - intros (y & Hy & ->%String.eqb_eq). exact Hy.
  - intros H. exists x. split; [exact H | apply String.eqb_refl].
Qed.

Lemma own_values key properties c :
  Upload.own key properties = Some c -> In c (map snd properties).
Proof.
  induction properties as [|[k v] l IH]; [discriminate|]. simpl.
  destruct (String.eqb k key); [intros [= ->]; now left | auto].
Qed.

(** A header that [mapHeader] turns into a text is turned into a text that
    [mapHeader] leaves as it is: mapping twice is mapping once. *)
Theorem mapHeader_canonical (header k : string) :
  Upload.mapHeader header = Upload.Name k ->
  Upload.mapHeader k = Upload.Name k.
Proof.
  unfold Upload.mapHeader at 1. cbv zeta.
  destruct (Upload.own (Upload.normalize header) Upload.map) as [c|] eqn:E.
  - intros [= <-]. apply own_values in E.
    assert (H : Forall (fun c => Upload.mapHeader c = Upload.Name c)
                       (map snd Upload.map)) by (repeat constructor).
    rewrite List.Forall_forall in H. now apply H.
  - destruct (String.eqb (Upload.normalize header) "constructor") eqn:Ec; [discriminate|].
    intros [= <-]. unfold Upload.mapHeader. cbv zeta. now rewrite E, Ec.
Qed.

Lemma lowerCase_idem c :
  Rules.Rev1.lowerCase (Rules.Rev1.lowerCase c) = Rules.Rev1.lowerCase c.
Proof. destruct c as [[] [] [] [] [] [] [] []]; reflexivity. Qed.

(** A text as [normalize] leaves it: no character that [toLowerCase]
    changes and none that the expression [/[\s_-]/] removes. *)
Lemma normalize_plain header :
  forallb (fun c => Ascii.eqb (Rules.Rev1.lowerCase c) c && negb (Upload.isSeparator c))
          (list_ascii_of_string (Upload.normalize header)) = true.
Proof.
  unfold Upload.normalize. induction header as [|c r IH]; [reflexivity|].
  cbn [Rules.Rev1.toLowerCase Upload.removeSeparators].
  destruct (Upload.isSeparator (Rules.Rev1.lowerCase c)) eqn:Hs; [exact IH|].
  cbn [list_ascii_of_string forallb]. rewrite IH, Hs, lowerCase_idem, Ascii.eqb_refl.
  reflexivity.
Qed.

(** Among the properties that the object literal [map] inherits, the only
    one that a normalized header can name is [constructor]: every other
    name of [Object.prototype] has a capital letter or an underscore, which
    [normalize] never leaves.  So [map[normalized]] is an own property of
    [map], the canonical name that [mapHeader] returns; or the function
    [Object], for the headers that read [constructor] once in lower case and
    without white space, underscores and hyphens, and for no other header;
    or [undefined], and [mapHeader] returns the header as it is. *)
Theorem mapHeader_inherited (header : string) :
  match Upload.get (Upload.normalize header) with
  | Upload.Own canonical => Upload.mapHeader header = Upload.Name canonical
  | Upload.Inherited name =>
      name = "constructor" /\ Upload.mapHeader header = Upload.ObjectFunction
  | Upload.Undefined => Upload.mapHeader header = Upload.Name header
  end
  /\ (forall name, Upload.get (Upload.normalize header) = Upload.Inherited name ->
        name = "constructor")
  /\ (Upload.mapHeader header = Upload.ObjectFunction
      <-> Upload.normalize header = "constructor").
Proof.
  assert (Hp : includes Upload.prototype (Upload.normalize header) = true ->
               Upload.normalize header = "constructor").
  { intros Hin%includes_In. pose proof (normalize_plain header) as Hn.
    simpl in Hin.
    destruct Hin as [<-|Hin]; [reflexivity|]. exfalso.
    repeat (destruct Hin as [Hin|Hin]; [rewrite <- Hin in Hn; discriminate Hn|]).
    destruct Hin. }
  assert (Hc : Upload.own "constructor" Upload.map = None) by reflexivity.
  unfold Upload.get, Upload.mapHeader. cbv zeta.
  destruct (Upload.own (Upload.normalize header) Upload.map) as [c|] eqn:E.
  - split; [reflexivity|]. split; [discriminate|]. split; [discriminate|].
    intros H. rewrite H, Hc in E. discriminate E.
  - destruct (includes Upload.prototype (Upload.normalize header)) eqn:Hi.
    + rewrite (Hp eq_refl). cbn [String.eqb]. simpl. repeat split; auto.
      intros name [= <-]. reflexivity.
    + assert (Hne : String.eqb (Upload.normalize header) "constructor" = false).
      { apply String.eqb_neq. intros H. rewrite H in Hi. discriminate Hi. }
      rewrite Hne. split; [reflexivity|]. split; [discriminate|].
      split; [discriminate|]. intros H. apply String.eqb_neq in Hne. contradiction.
Qed.

Lemma mapHeader_id key : Upload.mapHeader key = Upload.Name "id" -> key = "id".
Proof.
  unfold Upload.mapHeader. cbv zeta.
  destruct (Upload.own (Upload.normalize key) Upload.map) as [c|] eqn:E.
  - intros [= ->]. apply own_values in E. simpl in E.
    repeat (destruct E as [E|E]; [discriminate E|]). destruct E.
  - destruct (String.eqb _ "constructor"); [discriminate|]. now intros [= ->].
Qed.

Lemma function_not_column objectKey f :
  startsWith "function" objectKey = true ->
  In f (listFields ++ numericFields ++ ["id"]) -> objectKey <> f.
Proof.
  intros Hs Hf ->. simpl in Hf.
  repeat (destruct Hf as [<-|Hf]; [discriminate Hs|]). destruct Hf.
Qed.

Lemma coerce_list k raw :
  includes listFields k = true ->
  exists l, Upload.coerce (Upload.Name k) raw = Arr (map PStr l).
Proof.
  intros Hk. unfold Upload.coerce.
  destruct (includes ["RequestedTaskIDs"; "Skills"; "RequiredSkills"; "CoRunTaskIDs"] k)
    eqn:E1; [eauto|].
  destruct (includes ["AvailableSlots"; "PreferredPhases"] k) eqn:E2; [eauto|].
  exfalso. unfold includes in *.
  change listFields
    with (["RequestedTaskIDs"; "Skills"; "RequiredSkills"; "CoRunTaskIDs"]
          ++ ["AvailableSlots"; "PreferredPhases"]) in Hk.
  rewrite existsb_app, E1, E2 in Hk. discriminate.
Qed.

Lemma coerce_numeric k raw :
  includes numericFields k = true ->
  exists n, Upload.coerce (Upload.Name k) raw = Prim (PNum n).
Proof.
  intros Hk. pose proof (numeric_not_list k Hk) as Hl. unfold Upload.coerce.
  change listFields
    with (["RequestedTaskIDs"; "Skills"; "RequiredSkills"; "CoRunTaskIDs"]
          ++ ["AvailableSlots"; "PreferredPhases"]) in Hl.
  unfold includes in Hl. rewrite existsb_app in Hl.
  apply orb_false_elim in Hl as [E1 E2].
  fold (includes ["RequestedTaskIDs"; "Skills"; "RequiredSkills"; "CoRunTaskIDs"] k) in E1.
  fold (includes ["AvailableSlots"; "PreferredPhases"] k) in E2.
  rewrite E1, E2. change (includes _ k) with (includes numericFields k).
  rewrite Hk. eauto.
Qed.

Lemma uploadedShape_spec d :
  uploadedShape d = true <->
  (forall f, includes listFields f = true -> textArray (d !! f) = true)
  /\ (forall f, includes numericFields f = true -> numberOrUndefined (d !! f) = true).
Proof.
  unfold uploadedShape. rewrite andb_true_iff, !forallb_forall.
  split; intros [H1 H2]; split; intros f Hf; first [apply H1 | apply H2];
    now apply includes_In.
Qed.

Lemma forallb_isString_PStr l : forallb Value.isString (map PStr l) = true.
Proof. induction l; simpl; auto. Qed.

Lemma uploadedShape_assign objectKey newRow key raw :
  startsWith "function" objectKey = true ->
  uploadedShape newRow = true ->
  uploadedShape (Upload.assign objectKey newRow (Upload.mapHeader key)
                   (Upload.coerce (Upload.mapHeader key) raw)) = true.
Proof.
  intros Hs [H1 H2]%uploadedShape_spec. apply uploadedShape_spec.
  destruct (Upload.mapHeader key) as [k|]; unfold Upload.assign.
  - destruct (String.eqb k "__proto__"); [now split|]. split; intros f Hf.
    + destruct (String.eqb_spec k f) as [->|Hne].
      * destruct (coerce_list f raw Hf) as [l ->]. rewrite lookup_insert_eq.
        apply forallb_isString_PStr.
      * rewrite lookup_insert_ne by assumption. auto.
    + destruct (String.eqb_spec k f) as [->|Hne].
      * destruct (coerce_numeric f raw Hf) as [n ->]. now rewrite lookup_insert_eq.
      * rewrite lookup_insert_ne by assumption. auto.
  - split; intros f Hf; (rewrite lookup_insert_ne; [auto|]);
      apply function_not_column; auto; apply includes_In in Hf;
      rewrite !in_app_iff; auto.
Qed.

Lemma transformRow_shape objectKey id r :
  startsWith "function" objectKey = true ->
  uploadedShape (Upload.transformRow objectKey id r) = true.
Proof.
  intros Hs. unfold Upload.transformRow.
  assert (G : forall d : doc, uploadedShape d = true ->
            uploadedShape
              (fold_left (fun (newRow : doc) '(key, raw) =>
                            let mappedKey := Upload.mapHeader key in
                            Upload.assign objectKey newRow mappedKey
                              (Upload.coerce mappedKey raw)) r d) = true).
  { induction r as [|[key raw] r IH]; intros d Hd; [exact Hd|]. simpl.
    apply IH. now apply uploadedShape_assign. }
  apply G. reflexivity.
Qed.

Lemma textArray_arrayOrUndefined v : textArray v = true -> arrayOrUndefined v = true.
Proof. now destruct v as [[q|l]|]. Qed.

Lemma uploadedShape_shaped et d : uploadedShape d = true -> shaped et d = true.
Proof.
  intros [H _]%uploadedShape_spec.
  destruct et; simpl; rewrite ?andb_true_iff; try split;
    apply textArray_arrayOrUndefined, H; reflexivity.
Qed.

Lemma wellShaped_setCollection p et l :
  wellShaped p = true -> forallb (shaped et) l = true ->
  wellShaped (setCollection p et l) = true.
Proof.
  intros Hp Hl. pose proof (proj1 (wellShaped_shaped p) Hp) as H.
  apply wellShaped_shaped. intros et'.
  destruct et, et'; try exact Hl;
    first [apply (H EntityType.clients) | apply (H EntityType.workers)
          | apply (H EntityType.tasks)].
Qed.

Lemma In_transformedData objectKey generateUniqueId parsedData d :
  In d (Upload.transformedData objectKey generateUniqueId parsedData) ->
  Upload.hasDomainId d = true
  /\ exists i r, parsedData !! i = Some r
                 /\ d = Upload.transformRow objectKey (generateUniqueId i) r.
Proof.
  unfold Upload.transformedData. intros [Hd Hk]%List.filter_In. split; [exact Hk|].
  apply list_elem_of_In, elem_of_lookup_imap_1 in Hd as (i & r & -> & Hr). eauto.
Qed.

(** Every document that the uploader hands over holds a domain id, and, for
    each column it has, an array of texts where the column is list-typed and
    a number where it is numeric, whatever the file held: the property is an
    array even for an empty cell, and [NaN] for a cell without a number. *)
Theorem uploaded_rows (objectKey : string) (generateUniqueId : nat -> string)
    (parsedData : list Upload.row) :
  startsWith "function" objectKey = true ->
  Forall (fun d => Upload.hasDomainId d = true /\ uploadedShape d = true
                   /\ listsAreArrays d = true)
         (Upload.transformedData objectKey generateUniqueId parsedData).
Proof.
  intros Hs. apply List.Forall_forall. intros d Hd.
  apply In_transformedData in Hd as (Hk & i & r & _ & ->).
  pose proof (transformRow_shape objectKey (generateUniqueId i) r Hs) as H.
  split; [exact Hk|]. split; [exact H|].
  apply uploadedShape_spec in H as [H _]. apply forallb_forall.
  intros f Hf%includes_In. now apply textArray_arrayOrUndefined, H.
Qed.

(** A store on which [validateAllData] returns is still one after any one of
    its collections is replaced by an upload. *)
Theorem upload_validates (J : string -> bool) (p : DataTabProps) (st : DataTabState)
    (entityType : EntityType.t) (objectKey : string) (generateUniqueId : nat -> string)
    (parsedData : list Upload.row) :
  startsWith "function" objectKey = true ->
  wellShaped p = true ->
  let p' := setCollection p entityType
              (Upload.transformedData objectKey generateUniqueId parsedData) in
  wellShaped p' = true /\ fst (validateAllData J p' st) = Ok tt.
Proof.
  intros Hs Hp p'. assert (H : wellShaped p' = true).
  { apply wellShaped_setCollection; [assumption|]. apply forallb_forall. intros d Hd.
    apply In_transformedData in Hd as (_ & i & r & _ & ->).
    apply uploadedShape_shaped. now apply transformRow_shape. }
  split; [exact H|]. now rewrite validateAllData_wellShaped.
Qed.

(** The identifier drawn for a row is the [id] of its document unless the
    row has a column named [id]. *)
Theorem transformRow_id (objectKey id : string) (r : Upload.row) :
  startsWith "function" objectKey = true ->
  Forall (fun kv => fst kv <> "id") r ->
  Upload.transformRow objectKey id r !! "id" = Some (Prim (PStr id)).
Proof.
  intros Hs Hr. unfold Upload.transformRow.
  assert (G : forall d : doc,
            fold_left (fun (newRow : doc) '(key, raw) =>
                         let mappedKey := Upload.mapHeader key in
                         Upload.assign objectKey newRow mappedKey
                           (Upload.coerce mappedKey raw)) r d !! "id" = d !! "id").
  { induction Hr as [|[key raw] r Hk _ IH]; intros d; [reflexivity|]. simpl.
    rewrite IH. simpl in Hk. unfold Upload.assign.
    destruct (Upload.mapHeader key) as [k|] eqn:Hm.
    - destruct (String.eqb k "__proto__"); [reflexivity|].
      apply lookup_insert_ne. intros ->. now apply Hk, mapHeader_id.
    - apply lookup_insert_ne. apply function_not_column; [assumption|].
      rewrite !in_app_iff. right. right. now left. }
  rewrite G. reflexivity.
Qed.

Lemma existsb_isString (g : prim -> bool) l :
  forallb Value.isString l = true ->
  existsb (fun q => Value.isString q && g q) l = existsb g l.
Proof.
  induction l as [|q l IH]; [reflexivity|]. simpl.
  intros [Hq Hl]%andb_prop. now rewrite Hq, IH.
Qed.

(** The phases of an uploaded task are texts, so that the task pass flags
    the task as soon as one of them is not of the form digits, hyphen,
    digits: a list of phase numbers, such as the pieces of [1,2,3], is
    flagged like any other text. *)
Theorem uploaded_phases (skills : JSSet.t) (objectKey id : string) (r : Upload.row) :
  startsWith "function" objectKey = true ->
  let t := Upload.transformRow objectKey id r in
  ending (validateTask skills t) = Ok tt
  /\ List.filter (hasField "PreferredPhases") (emittedErrors (validateTask skills t))
     = if existsb (fun q => negb (isRange (Value.primToString q)))
                  (Value.elements (t !! "PreferredPhases"))
       then [Err.preferredPhases t] else [].
Proof.
  intros Hs t. pose proof (transformRow_shape objectKey id r Hs) as H. fold t in H.
  apply uploadedShape_spec in H as [H _].
  pose proof (H "RequiredSkills" eq_refl) as Hr.
  pose proof (H "PreferredPhases" eq_refl) as Hp.
  pose proof (textArray_arrayOrUndefined _ Hr) as Ar.
  pose proof (textArray_arrayOrUndefined _ Hp) as Ap.
  split; [now rewrite ending_validateTask, Ar, Ap|].
  unfold emittedErrors. rewrite emitted_validateTask by assumption. cbn [allErrors].
  rewrite !List.filter_app, filter_if_drop by reflexivity.
  rewrite flat_map_if, filter_map_drop by reflexivity.
  rewrite filter_if_keep by reflexivity. cbn [app].
  rewrite existsb_isString; [reflexivity|]. revert Hp. clear.
  destruct (t !! "PreferredPhases") as [[q|l]|]; simpl; auto.
Qed.

(** ** Further instances *)

Lemma deleteRule_addRule_witness :
  fresh "r2" Sheet.registry = true
  /\ Rules.deleteRule "r2" (Rules.addRule "r2" "CO_RUN" Sheet.registry) = Sheet.registry.
Proof. split; [reflexivity | apply deleteRule_addRule; reflexivity]. Defined.

Lemma getCellError_published_witness :
  wellShaped Sample.twins = true
  /\ Table.getCellError
       (errors (snd (validateAllData JSONText.accepts Sample.twins Sample.idle)))
       (Some (Sample.text "C1")) "ClientID" = None
  /\ Table.getCellError
       (errors (snd (validateAllData JSONText.accepts Sample.twins Sample.idle)))
       None "ClientID" = Some "Duplicate ID found: C1.".
Proof.
  pose proof (getCellError_published JSONText.accepts Sample.twins Sample.idle "ClientID"
                eq_refl) as H.
  cbv zeta in H. destruct H as [H1 H2].
  split; [reflexivity|]. split; [apply H1|]. rewrite H2. vm_compute. reflexivity.
Defined.


Lemma preferredPhases_report_witness :
  wellShaped (Sample.store [] [] [Sheet.phased]) = true
  /\ List.filter (hasField "PreferredPhases")
       (errors (snd (validateAllData JSONText.accepts (Sample.store [] [] [Sheet.phased])
                       Sample.idle)))
     = [Err.preferredPhases Sheet.phased].
Proof.
  split; [reflexivity|].
  rewrite (preferredPhases_report JSONText.accepts (Sample.store [] [] [Sheet.phased])
             Sample.idle eq_refl).
  vm_compute. reflexivity.
Defined.

Lemma itemToUpdate_settles_witness :
  includes listFields "RequestedTaskIDs" = true
  /\ Table.cellText
       (itemToUpdate (Sample.requesting (Arr [PStr "T9"])) "RequestedTaskIDs"
          (Sample.text " T1 , ,T2,") !! "RequestedTaskIDs") = "T1, T2"
  /\ itemToUpdate
       (itemToUpdate (Sample.requesting (Arr [PStr "T9"])) "RequestedTaskIDs"
          (Sample.text " T1 , ,T2,"))
       "RequestedTaskIDs"
       (Prim (PStr (Table.cellText
                      (itemToUpdate (Sample.requesting (Arr [PStr "T9"])) "RequestedTaskIDs"
                         (Sample.text " T1 , ,T2,") !! "RequestedTaskIDs"))))
     = itemToUpdate (Sample.requesting (Arr [PStr "T9"])) "RequestedTaskIDs"
         (Sample.text " T1 , ,T2,").
Proof.
  split; [reflexivity|]. split; [vm_compute; reflexivity|].
  exact (itemToUpdate_settles (Sample.requesting (Arr [PStr "T9"])) "RequestedTaskIDs"
           " T1 , ,T2," eq_refl).
Defined.

Lemma handleUpdateCell_wellShaped_witness :
  wellShaped Sheet.requests = true
  /\ wellShaped (snd (handleUpdateCell Sheet.requests 0 "RequestedTaskIDs"
                        (Sample.text "T1, T2") EntityType.clients)) = true.
Proof. split; [reflexivity | apply handleUpdateCell_wellShaped; reflexivity]. Defined.

Lemma Rev1_edit_halts_witness :
  In (EntityType.clients, "RequestedTaskIDs") iterated
  /\ dataMap Sheet.requests EntityType.clients !! 0%nat
     = Some (Sample.requesting (Arr [PStr "T1"; PStr "T7"]))
  /\ Value.truthy (Sample.requesting (Arr [PStr "T1"; PStr "T7"]) !! "id") = true
  /\ exists p' e,
       Rev1.handleUpdateCell Sheet.requests 0 "RequestedTaskIDs" (Sample.text "T1")
         EntityType.clients = (Ok tt, p')
       /\ wellShaped p' = false
       /\ validateAllData JSONText.accepts p' Sample.idle = (Throw e, Sample.idle).
Proof.
  split; [simpl; auto|]. split; [reflexivity|]. split; [reflexivity|].
  apply (Rev1_edit_halts JSONText.accepts Sheet.requests Sample.idle 0
           (Sample.requesting (Arr [PStr "T1"; PStr "T7"])));
    [simpl; auto | reflexivity | reflexivity].
Defined.

Lemma availableSlots_fix_witness :
  Sample.slotsOf ["9am"; "2"; "x"] !! "AvailableSlots"
  = Some (Arr [PStr "9am"; PStr "2"; PStr "x"])
  /\ suggestion (Err.availableSlots (Sample.slotsOf ["9am"; "2"; "x"])) = Some "9, 2, "
  /\ updatedItem (Sample.slotsOf ["9am"; "2"; "x"]) "AvailableSlots" "9, 2, "
       !! "AvailableSlots" = Some (Arr [PStr "9"; PStr "2"])
  /\ List.filter (hasField "AvailableSlots")
       (emittedErrors
          (validateWorker
             (updatedItem (Sample.slotsOf ["9am"; "2"; "x"]) "AvailableSlots" "9, 2, ")))
     = [].
Proof.
  pose proof (availableSlots_fix (Sample.slotsOf ["9am"; "2"; "x"])
                [PStr "9am"; PStr "2"; PStr "x"] eq_refl) as H.
  cbv zeta in H. destruct H as (H1 & H2 & H3).
  split; [reflexivity|]. split; [exact H1|]. split; [exact H2 | exact H3].
Defined.

Lemma mapHeader_canonical_witness :
  Upload.mapHeader "Client_ID" = Upload.Name "ClientID"
  /\ Upload.mapHeader "ClientID" = Upload.Name "ClientID".
Proof. split; [reflexivity | apply (mapHeader_canonical "Client_ID"); reflexivity]. Defined.

Lemma uploaded_rows_witness :
  startsWith "function" Sheet.native = true
  /\ Forall (fun d => Upload.hasDomainId d = true /\ uploadedShape d = true
                      /\ listsAreArrays d = true)
            (Upload.transformedData Sheet.native Sheet.newId Sheet.taskRows).
Proof. split; [reflexivity | apply uploaded_rows; reflexivity]. Defined.

Lemma upload_validates_witness :
  startsWith "function" Sheet.native = true
  /\ wellShaped Sample.uncoveredSkill = true
  /\ wellShaped (setCollection Sample.uncoveredSkill EntityType.tasks
                   (Upload.transformedData Sheet.native Sheet.newId Sheet.taskRows)) = true
  /\ fst (validateAllData JSONText.accepts
            (setCollection Sample.uncoveredSkill EntityType.tasks
               (Upload.transformedData Sheet.native Sheet.newId Sheet.taskRows))
            Sample.idle) = Ok tt.
Proof.
  pose proof (upload_validates JSONText.accepts Sample.uncoveredSkill Sample.idle
                EntityType.tasks Sheet.native Sheet.newId Sheet.taskRows
                eq_refl eq_refl) as H.
  cbv zeta in H. split; [reflexivity|]. split; [reflexivity|]. exact H.
Defined.

Lemma transformRow_id_witness :
  startsWith "function" Sheet.native = true
  /\ Forall (fun kv : string * prim => fst kv <> "id") Sheet.taskRow
  /\ Upload.transformRow Sheet.native "r0" Sheet.taskRow !! "id" = Some (Prim (PStr "r0")).
Proof.
  assert (H : Forall (fun kv : string * prim => fst kv <> "id") Sheet.taskRow)
    by (repeat constructor; discriminate).
  split; [reflexivity|]. split; [exact H|].
  apply transformRow_id; [reflexivity | exact H].
Defined.

Lemma uploaded_phases_witness :
  startsWith "function" Sheet.native = true
  /\ Upload.transformRow Sheet.native "r0" Sheet.taskRow !! "PreferredPhases"
     = Some (Arr [PStr "1"; PStr "2"; PStr "3"])
  /\ List.filter (hasField "PreferredPhases")
       (emittedErrors (validateTask [] (Upload.transformRow Sheet.native "r0" Sheet.taskRow)))
     = [Err.preferredPhases (Upload.transformRow Sheet.native "r0" Sheet.taskRow)].
Proof.
  pose proof (uploaded_phases [] Sheet.native "r0" Sheet.taskRow eq_refl) as H.
  cbv zeta in H. destruct H as [_ H].
  split; [reflexivity|]. split; [vm_compute; reflexivity|].
  rewrite H. vm_compute. reflexivity.
Defined.


Lemma maxLoadPerPhase_errors_witness :
  arrayOrUndefined (Sheet.overloaded !! "AvailableSlots") = true
  /\ Sheet.overloaded !! "MaxLoadPerPhase" = Some (Prim (PNum (Int (-2))))
  /\ List.filter (hasField "MaxLoadPerPhase") (emittedErrors (validateWorker Sheet.overloaded))
     = [Err.maxLoadPerPhase Sheet.overloaded].
Proof.
  split; [reflexivity|]. split; [reflexivity|].
  rewrite (maxLoadPerPhase_errors Sheet.overloaded (-2) eq_refl eq_refl). reflexivity.
Defined.

(** ** The search of the table *)

Lemma comparisonAt_key s k operator digits :
  Table.comparisonAt s = Some (k, operator, digits) ->
  k = "duration" \/ k = "prioritylevel".
Proof.
  unfold Table.comparisonAt.
  destruct (Table.dropPrefix "duration" s) as [r|].
  - destruct (trimStart r) as [|c r']; [discriminate|].
    destruct (Table.isOperator c); [|discriminate].
    destruct (spanDigits (trimStart r')) as [[|a d] t]; [discriminate|].
    intros [= <- _ _]. now left.
  - destruct (Table.dropPrefix "prioritylevel" s) as [r|]; [|discriminate].
    destruct (trimStart r) as [|c r']; [discriminate|].
    destruct (Table.isOperator c); [|discriminate].
    destruct (spanDigits (trimStart r')) as [[|a d] t]; [discriminate|].
    intros [= <- _ _]. now right.
Qed.

Lemma matchComparison_key s k operator digits :
  Table.matchComparison s = Some (k, operator, digits) ->
  k = "duration" \/ k = "prioritylevel".
Proof.
  induction s as [|c r IH]; intros H; cbn [Table.matchComparison] in H;
    destruct (Table.comparisonAt _) as [m|] eqn:E.
  - injection H as ->. eapply comparisonAt_key, E.
  - discriminate H.
  - injection H as ->. eapply comparisonAt_key, E.
  - now apply IH.
Qed.

Lemma optIncludes_texts v n :
  textArray v = true ->
  Table.optIncludes v n = Ok None \/ Table.optIncludes v n = Ok (Some false).
Proof.
  destruct v as [[q|l]|]; simpl; try discriminate; [|now left].
  intros Hl. right. do 2 f_equal.
  induction l as [|q l IH]; [reflexivity|]. simpl in *.
  apply andb_prop in Hl as [Hq Hl]. rewrite IH by assumption.
  now destruct q.
Qed.

(** A row without the properties [duration] and [prioritylevel], spelled in
    lower case, and whose phases and slots are arrays of texts or absent, is
    hidden by every search that reads as a comparison or as a phase. *)
Lemma keeps_structured term (row : doc) :
  row !! "duration" = None -> row !! "prioritylevel" = None ->
  textArray (row !! "PreferredPhases") = true ->
  textArray (row !! "AvailableSlots") = true ->
  is_Some (Table.matchComparison (Rules.Rev1.toLowerCase term))
  \/ is_Some (Table.matchPhase (Rules.Rev1.toLowerCase term)) ->
  Table.keeps term row = Ok false.
Proof.
  intros Hd Hp Hph Hsl Hm. unfold Table.keeps.
  destruct term as [|c term'].
  { destruct Hm as [[m Hm]|[m Hm]]; discriminate Hm. }
  cbn [nonEmpty negb]. cbv zeta.
  destruct (Table.matchComparison _) as [[[k op] ds]|] eqn:E.
  - apply matchComparison_key in E as [-> | ->]; [rewrite Hd | rewrite Hp]; reflexivity.
  - destruct Hm as [[m Hm]|[m Hm]]; [discriminate Hm|]. rewrite Hm.
    destruct (optIncludes_texts _ (parseInt m) Hph) as [-> | ->];
      destruct (optIncludes_texts _ (parseInt m) Hsl) as [-> | ->]; reflexivity.
Qed.

Lemma mapHeader_never key k :
  In k ["duration"; "prioritylevel"] -> Upload.mapHeader key <> Upload.Name k.
Proof.
  intros Hk. unfold Upload.mapHeader. cbv zeta.
  destruct (Upload.own (Upload.normalize key) Upload.map) as [c|] eqn:E.
  - intros [= ->]. apply own_values in E. simpl in E, Hk.
    destruct Hk as [<-|[<-|[]]];
      repeat (destruct E as [E|E]; [discriminate E|]); destruct E.
  - destruct (String.eqb _ "constructor"); [discriminate|]. intros [= ->].
    simpl in Hk. destruct Hk as [<-|[<-|[]]]; vm_compute in E; discriminate E.
Qed.

Lemma transformRow_untouched objectKey id r k :
  startsWith "function" objectKey = true ->
  In k ["duration"; "prioritylevel"] ->
  Upload.transformRow objectKey id r !! k = None.
Proof.
  intros Hs Hk. unfold Upload.transformRow.
  assert (G : forall d : doc,
            fold_left (fun (newRow : doc) '(key, raw) =>
                         let mappedKey := Upload.mapHeader key in
                         Upload.assign objectKey newRow mappedKey
                           (Upload.coerce mappedKey raw)) r d !! k = d !! k).
  { induction r as [|[key raw] r IH]; intros d; [reflexivity|]. simpl.
    rewrite IH. unfold Upload.assign.
    pose proof (mapHeader_never key k Hk) as Hn.
    destruct (Upload.mapHeader key) as [k'|].
    - destruct (String.eqb k' "__proto__"); [reflexivity|].
      apply lookup_insert_ne. congruence.
    - apply lookup_insert_ne. intros ->. simpl in Hk.
      destruct Hk as [<-|[<-|[]]]; discriminate Hs. }
  rewrite G. simpl in Hk. destruct Hk as [<-|[<-|[]]]; reflexivity.
Qed.

(** After an upload, a search that reads as a comparison ([duration > 3],
    [PriorityLevel = 1]) or as a phase ([phase 2]) shows no row at all: the
    comparison looks the property up under its lower-case name, which no
    uploaded document has, and the phase is looked up as a number among
    phases and slots that the uploader stores as texts. *)
Theorem structured_search_hides_uploads (objectKey : string)
    (generateUniqueId : nat -> string) (parsedData : list Upload.row) (term : string) :
  startsWith "function" objectKey = true ->
  is_Some (Table.matchComparison (Rules.Rev1.toLowerCase term))
  \/ is_Some (Table.matchPhase (Rules.Rev1.toLowerCase term)) ->
  Table.filteredData term (Upload.transformedData objectKey generateUniqueId parsedData)
  = Ok [].
Proof.
  intros Hs Hm.
  assert (H : Forall (fun d => Table.keeps term d = Ok false)
                     (Upload.transformedData objectKey generateUniqueId parsedData)).
  { apply List.Forall_forall. intros d Hd.
    apply In_transformedData in Hd as (_ & i & r & _ & ->).
    pose proof (transformRow_shape objectKey (generateUniqueId i) r Hs) as Hu.
    apply uploadedShape_spec in Hu as [Hu _].
    apply keeps_structured; auto using transformRow_untouched, in_eq, in_cons. }
  induction H as [|d l Hd _ IH]; [reflexivity|]. simpl. now rewrite Hd, IH.
Qed.

(** ** The panel of the errors *)

(** On a store on which [validateAllData] returns, the only errors for which
    the panel offers [Apply Fix] are AvailableSlots errors of workers; and it
    offers none for a worker whose only slot has no digit, the suggestion
    being empty. *)
Theorem offersFix_availableSlots (J : string -> bool) (p : DataTabProps)
    (st : DataTabState) (onFix : bool) :
  wellShaped p = true ->
  Forall (fun e => Panel.offersFix onFix e = true -> exists w, e = Err.availableSlots w)
         (errors (snd (validateAllData J p st)))
  /\ forall (w : doc) s,
       w !! "AvailableSlots" = Some (Arr [s]) ->
       stripNonDigits (Value.primToString s) = EmptyString ->
       Panel.offersFix onFix (Err.availableSlots w) = false.
Proof.
  intros Hp. split.
  - rewrite validateAllData_wellShaped by assumption. cbn [snd errors].
    apply Forall_passErrors; try assumption; try (intros; discriminate).
    intros w _. now exists w.
  - intros w s Hw Hs. unfold Panel.offersFix, Err.availableSlots. cbn [suggestion].
    rewrite Hw. cbn [Value.elements map join]. now rewrite Hs.
Qed.

Lemma structured_search_hides_uploads_witness :
  startsWith "function" Sheet.native = true
  /\ Table.matchComparison (Rules.Rev1.toLowerCase "Duration > 1")
     = Some ("duration", ">"%char, "1")
  /\ Upload.transformedData Sheet.native Sheet.newId Sheet.taskRows
     = [Upload.transformRow Sheet.native "r0" Sheet.taskRow]
  /\ Upload.transformRow Sheet.native "r0" Sheet.taskRow !! "Duration"
     = Some (Prim (PNum (Int 2)))
  /\ Table.filteredData "Duration > 1"
       (Upload.transformedData Sheet.native Sheet.newId Sheet.taskRows) = Ok [].
Proof.
  split; [reflexivity|]. split; [reflexivity|].
  split; [vm_compute; reflexivity|]. split; [vm_compute; reflexivity|].
  apply structured_search_hides_uploads; [reflexivity|].
  left. eexists. reflexivity.
Defined.

Lemma offersFix_availableSlots_witness :
  wellShaped (Sample.badSlots ["9am"]) = true
  /\ Forall (fun e => Panel.offersFix true e = true -> exists w, e = Err.availableSlots w)
            (errors (snd (validateAllData JSONText.accepts (Sample.badSlots ["9am"])
                            Sample.idle)))
  /\ Panel.offersFix true (Err.availableSlots (Sample.slotsOf ["soon"])) = false.
Proof.
  destruct (offersFix_availableSlots JSONText.accepts (Sample.badSlots ["9am"]) Sample.idle
              true eq_refl) as [H1 H2].
  split; [reflexivity|]. split; [exact H1|].
  apply (H2 (Sample.slotsOf ["soon"]) (PStr "soon")); reflexivity.
Defined.

(** ** The task ids of a rule card *)

Lemma split_cons sep s : exists w ws, split sep s = w :: ws.
Proof.
  destruct s as [|c r]; simpl; [eauto|].
  destruct (Ascii.eqb c sep); [eauto|]. destruct (split sep r); eauto.
Qed.

Lemma split_append_sep s :
  split "," (s +:+ ",") = split "," s ++ [EmptyString].
Proof.
  induction s as [|c r IH]; [reflexivity|]. simpl.
  destruct (Ascii.eqb c ","); [now rewrite IH|].
  rewrite IH. destruct (split_cons "," r) as (w & ws & ->). reflexivity.
Qed.

Lemma split_append_space s :
  exists pre x, split "," s = pre ++ [x] /\ split "," (s +:+ " ") = pre ++ [x +:+ " "].
Proof.
  induction s as [|c r (pre & x & H1 & H2)].
  - exists [], EmptyString. now split.
  - simpl. rewrite H1, H2. destruct (Ascii.eqb c ",").
    + exists (EmptyString :: pre), x. now split.
    + destruct pre as [|w ws].
      * exists [], (String c x). now split.
      * exists (String c w :: ws), x. now split.
Qed.

Lemma trimEnd_append_space y : trimEnd (y +:+ " ") = trimEnd y.
Proof. induction y as [|c r IH]; [reflexivity|]. simpl. now rewrite IH. Qed.

Lemma trim_append_space x : trim (x +:+ " ") = trim x.
Proof.
  unfold trim. induction x as [|c r IH]; [reflexivity|]. simpl.
  destruct (isWhiteSpace c); [exact IH|].
  apply (trimEnd_append_space (String c r)).
Qed.

(** A comma or a space typed at the end of the input of the task ids is
    lost: the change stores the task ids that were stored, so that the
    controlled input shows the text it showed. *)
Theorem trailing_separator_lost (id text : string) (rules : list Rules.json) :
  RuleCard.onChange id (text +:+ ",") rules = RuleCard.onChange id text rules
  /\ RuleCard.onChange id (text +:+ " ") rules = RuleCard.onChange id text rules
  /\ RuleCard.shown (RuleCard.typed (RuleCard.shown (RuleCard.typed text) +:+ ","))
     = RuleCard.shown (RuleCard.typed text)
  /\ RuleCard.shown (RuleCard.typed (RuleCard.shown (RuleCard.typed text) +:+ " "))
     = RuleCard.shown (RuleCard.typed text).
Proof.
  assert (Hc : forall s, splitTrimmed (s +:+ ",") = splitTrimmed s).
  { intros s. unfold splitTrimmed. rewrite split_append_sep, map_app, List.filter_app.
    apply app_nil_r. }
  assert (Hs : forall s, splitTrimmed (s +:+ " ") = splitTrimmed s).
  { intros s. unfold splitTrimmed.
    destruct (split_append_space s) as (pre & x & -> & ->).
    rewrite !map_app. cbn [map]. now rewrite trim_append_space. }
  unfold RuleCard.onChange, RuleCard.typed, RuleCard.shown.
  rewrite !Hc, !Hs, splitTrimmed_settles. now repeat split.
Qed.

Lemma applyAIFix_outcome_witness :
  Saving.applyAIFix true (Ok tt) (Ok "9, 2") (Sample.badSlots ["9am"; "2"])
    EntityType.workers "W1" "AvailableSlots"
  = (Sample.badSlots ["9"; "2"], ToastSuccess "Applied fix for workers W1")
  /\ Saving.applyAIFix false (Ok tt) (Ok "9, 2") (Sample.badSlots ["9am"; "2"])
       EntityType.workers "W1" "AvailableSlots"
     = (Sample.badSlots ["9am"; "2"], ToastError "Error applying AI fix: Auth not ready.")
  /\ Saving.applyAIFix true (Throw (Error "denied")) (Ok "9, 2")
       (Sample.badSlots ["9am"; "2"]) EntityType.workers "W1" "AvailableSlots"
     = (Sample.badSlots ["9am"; "2"], ToastError "Error applying AI fix: denied")
  /\ Saving.applyAIFix true (Ok tt) (Ok "9, 2") (Sample.badSlots ["9am"; "2"])
       EntityType.workers "W7" "AvailableSlots"
     = (Sample.badSlots ["9am"; "2"], ToastError "workers with ID W7 not found.").
Proof.
  split; [|split; [|split]].
  - pose proof (applyAIFix_outcome true (Ok tt) (Ok "9, 2") (Sample.badSlots ["9am"; "2"])
                  EntityType.workers "W1" "AvailableSlots") as H.
    cbv zeta in H. destruct H as (_ & _ & _ & H & _).
    destruct (H "9, 2" (Sample.slotsOf ["9am"; "2"]) eq_refl eq_refl) as (_ & _ & _ & Hok).
    rewrite (Hok eq_refl eq_refl eq_refl). vm_compute. reflexivity.
  - pose proof (applyAIFix_outcome false (Ok tt) (Ok "9, 2") (Sample.badSlots ["9am"; "2"])
                  EntityType.workers "W1" "AvailableSlots") as H.
    cbv zeta in H. destruct H as (_ & _ & _ & H & _).
    destruct (H "9, 2" (Sample.slotsOf ["9am"; "2"]) eq_refl eq_refl) as (Hno & _).
    exact (Hno eq_refl).
  - pose proof (applyAIFix_outcome true (Throw (Error "denied")) (Ok "9, 2")
                  (Sample.badSlots ["9am"; "2"]) EntityType.workers "W1" "AvailableSlots")
      as H.
    cbv zeta in H. destruct H as (_ & _ & _ & H & _).
    destruct (H "9, 2" (Sample.slotsOf ["9am"; "2"]) eq_refl eq_refl) as (_ & _ & He & _).
    exact (He (Error "denied") eq_refl eq_refl eq_refl).
  - pose proof (applyAIFix_outcome true (Ok tt) (Ok "9, 2") (Sample.badSlots ["9am"; "2"])
                  EntityType.workers "W7" "AvailableSlots") as H.
    cbv zeta in H. destruct H as (_ & H & _).
    exact (H eq_refl "9, 2" eq_refl).
Defined.

Lemma mapHeader_inherited_witness :
  Upload.get (Upload.normalize "Con_Structor") = Upload.Inherited "constructor"
  /\ Upload.mapHeader "Con_Structor" = Upload.ObjectFunction
  /\ Upload.get (Upload.normalize "toString") = Upload.Undefined
  /\ Upload.mapHeader "toString" = Upload.Name "toString".
Proof.
  assert (E1 : Upload.get (Upload.normalize "Con_Structor")
               = Upload.Inherited "constructor") by reflexivity.
  assert (E2 : Upload.get (Upload.normalize "toString") = Upload.Undefined)
    by reflexivity.
  split; [exact E1|]. split.
  - destruct (mapHeader_inherited "Con_Structor") as [H _]. rewrite E1 in H. apply H.
  - split; [exact E2|].
    destruct (mapHeader_inherited "toString") as [H _]. rewrite E2 in H. exact H.
Defined.
